(** * AgentApps Studio: configuration persistence and reconstruction

    A shallow embedding of [Steamlit/agentapps_ui.py] (the Streamlit
    front end that saves, loads and re-creates agents, teams and custom
    tools) and of [Projects/Powershell_Tool.py] (the PowerShell tool).

    The program is dynamically typed Python; the embedding keeps it so.
    Values are a small universe of Python objects, every subscript,
    membership test and iteration may raise, and the functions of the
    script are written in a monad that threads the Streamlit session
    state, the two configuration files and the messages shown to the
    user.  What belongs to other packages ([json], [pickle],
    [agentapps], [exec], [subprocess]) is an interface. *)

From Stdlib Require Import ZArith List String Ascii Bool Lia Floats.
Import ListNotations.

Set Warnings "-register-all,-inexact-float".
Local Open Scope string_scope.
Local Open Scope list_scope.

(** ** Exceptions *)

(** The exception classes that the modelled code can meet.  The last
    three derive from [BaseException] only, so [except Exception] does
    not catch them. *)
Inductive exn_class : Type :=
| KeyError | TypeError | AttributeError | IndexError | ValueError
| NameError | ZeroDivisionError | RuntimeError | SyntaxError
| OSError | JSONDecodeError | UnpicklingError
| SystemExit | KeyboardInterrupt | GeneratorExit.

(** An exception instance: its class and the text [str(e)] returns. *)
Record exn : Type := Exn { exn_cls : exn_class; exn_text : string }.

(** [isinstance(e, Exception)]. *)
Definition is_Exception (e : exn) : bool :=
  match exn_cls e with
  | SystemExit | KeyboardInterrupt | GeneratorExit => false
  | _ => true
  end.

(** The outcome of evaluating an expression: a value or a raised
    exception. *)
Inductive result (A : Type) : Type :=
| Ok (a : A)
| Raise (e : exn).
Arguments Ok {A} a.
Arguments Raise {A} e.

Definition rbind {A B} (r : result A) (k : A -> result B) : result B :=
  match r with
  | Ok a => k a
  | Raise e => Raise e
  end.

Declare Scope py_scope.
Delimit Scope py_scope with py.
Notation "'let?' x ':=' r 'in' k" := (rbind r (fun x => k))
  (at level 10, x name, r at level 100, k at level 200) : py_scope.
Local Open Scope py_scope.

(** ** Values *)

(** The classes whose instances the script builds. *)
Inductive pyclass : Type :=
| SearchSummaryTool | WebScraperTool | CalculatorTool
| DynamicTool | Agent | OpenAIChat.

(** Python values.  [VStr] is a [str], held as its UTF-8 encoding.
    [VDict] is a [dict] whose keys are strings (every dictionary of the
    program is a JSON object or a literal with string keys), kept in
    insertion order.  [VObj] is an instance: its class and the arguments
    its constructor stored. *)
Inductive pyval : Type :=
| VNone
| VBool (b : bool)
| VInt (z : Z)
| VFloat (f : float)
| VStr (s : string)
| VList (l : list pyval)
| VDict (d : list (string * pyval))
| VObj (cls : pyclass) (attrs : list (string * pyval)).

Definition dict := list (string * pyval).

(** *** Dictionaries with string keys *)

Fixpoint lookup (k : string) (d : dict) : option pyval :=
  match d with
  | [] => None
  | (k', v) :: d' => if String.eqb k k' then Some v else lookup k d'
  end.

(** [d[k] = v]: an existing key keeps its place, a new key goes last. *)
Fixpoint dict_set (k : string) (v : pyval) (d : dict) : dict :=
  match d with
  | [] => [(k, v)]
  | (k', v') :: d' =>
      if String.eqb k k' then (k', v) :: d' else (k', v') :: dict_set k v d'
  end.

Definition keys (d : dict) : list string := map fst d.

(** *** Truth value, [bool(v)] *)

Definition py_truthy (v : pyval) : bool :=
  match v with
  | VNone => false
  | VBool b => b
  | VInt z => negb (Z.eqb z 0)
  | VFloat f => negb (PrimFloat.eqb f 0%float)
  | VStr s => negb (String.eqb s "")
  | VList l => match l with [] => false | _ => true end
  | VDict d => match d with [] => false | _ => true end
  | VObj _ _ => true
  end.

(** *** Equality, [a == b] *)

(** A float equals an integer when it denotes the same number. *)
Definition float_eq_Z (f : float) (z : Z) : bool :=
  match Prim2SF f with
  | S754_zero _ => Z.eqb z 0
  | S754_finite s m e =>
      let mz := if s then Z.neg m else Z.pos m in
      if Z.leb 0 e then Z.eqb z (mz * 2 ^ e) else Z.eqb (z * 2 ^ (- e)) mz
  | _ => false
  end.

Definition num_eq (a b : Z + float) : bool :=
  match a, b with
  | inl x, inl y => Z.eqb x y
  | inr f, inr g => PrimFloat.eqb f g
  | inl x, inr g => float_eq_Z g x
  | inr f, inl y => float_eq_Z f y
  end.

(** [bool] is a subclass of [int]: [True == 1] and [1 == 1.0]. *)
Definition num_of (v : pyval) : option (Z + float) :=
  match v with
  | VBool b => Some (inl (Z.b2z b))
  | VInt z => Some (inl z)
  | VFloat f => Some (inr f)
  | _ => None
  end.

(** A float that is not a number. *)
Definition is_nan (v : pyval) : bool :=
  match v with
  | VFloat f => negb (PrimFloat.eqb f f)
  | _ => false
  end.

(** Lists compare element by element, dictionaries as mappings (the
    order of the keys does not count).  Instances compare by identity,
    which this value model does not track: two instances are reported
    different.  The program only compares data read from the stored
    document or typed into a form, never instances.

    The elements of two lists and the values of two dictionaries are
    compared by [x is y or x == y].  Every value of the model equals
    itself but a NaN, and the NaNs of a stored document are one object:
    [json.load] hands out [json.decoder.NaN] for every NaN it reads.  So
    two NaNs are taken to be the same object.  (The legacy pickle file
    gives every NaN an object of its own; the model does not tell them
    apart.) *)
Fixpoint py_eq (a b : pyval) {struct a} : bool :=
  match a with
  | VNone => match b with VNone => true | _ => false end
  | VBool x => match num_of b with Some n => num_eq (inl (Z.b2z x)) n | None => false end
  | VInt x => match num_of b with Some n => num_eq (inl x) n | None => false end
  | VFloat x => match num_of b with Some n => num_eq (inr x) n | None => false end
  | VStr s => match b with VStr t => String.eqb s t | _ => false end
  | VList l =>
      match b with
      | VList m =>
          (fix all2 (l : list pyval) (m : list pyval) {struct l} : bool :=
             match l, m with
             | [], [] => true
             | x :: l', y :: m' =>
                 (is_nan x && is_nan y || py_eq x y) && all2 l' m'
             | _, _ => false
             end) l m
      | _ => false
      end
  | VDict d =>
      match b with
      | VDict d' =>
          Nat.eqb (List.length d) (List.length d') &&
          (fix sub (d : dict) {struct d} : bool :=
             match d with
             | [] => true
             | (k, v) :: r =>
                 match lookup k d' with
                 | Some v' => is_nan v && is_nan v' || py_eq v v'
                 | None => false
                 end && sub r
             end) d
      | _ => false
      end
  | VObj _ _ => false
  end.

(** [a is b or a == b]: what [in] and the keys of a dictionary go by. *)
Definition py_same (a b : pyval) : bool :=
  is_nan a && is_nan b || py_eq a b.

(** [hash(v)] succeeds. *)
Definition py_hashable (v : pyval) : bool :=
  match v with
  | VList _ | VDict _ => false
  | _ => true
  end.

(** The name of a value's type, for messages. *)
Definition type_name (v : pyval) : string :=
  match v with
  | VNone => "NoneType"
  | VBool _ => "bool"
  | VInt _ => "int"
  | VFloat _ => "float"
  | VStr _ => "str"
  | VList _ => "list"
  | VDict _ => "dict"
  | VObj SearchSummaryTool _ => "SearchSummaryTool"
  | VObj WebScraperTool _ => "WebScraperTool"
  | VObj CalculatorTool _ => "CalculatorTool"
  | VObj DynamicTool _ => "DynamicTool"
  | VObj Agent _ => "Agent"
  | VObj OpenAIChat _ => "OpenAIChat"
  end.

Definition type_error (msg : string) : exn := Exn TypeError msg.

(** *** Subscript, [get], membership, iteration *)

(** [v[k]] for a string [k].  Only a dictionary can be subscripted by a
    string; [str(KeyError(k))] is the [repr] of the key. *)
Definition py_getitem (v : pyval) (k : string) : result pyval :=
  match v with
  | VDict d =>
      match lookup k d with
      | Some x => Ok x
      | None => Raise (Exn KeyError ("'" ++ k ++ "'"))
      end
  | VList _ => Raise (type_error "list indices must be integers or slices, not str")
  | VStr _ => Raise (type_error "string indices must be integers, not 'str'")
  | _ => Raise (type_error ("'" ++ type_name v ++ "' object is not subscriptable"))
  end.

(** [v.get(k, default)]: a method of dictionaries only. *)
Definition py_get (v : pyval) (k : string) (default : pyval) : result pyval :=
  match v with
  | VDict d =>
      match lookup k d with
      | Some x => Ok x
      | None => Ok default
      end
  | _ => Raise (Exn AttributeError
                  ("'" ++ type_name v ++ "' object has no attribute 'get'"))
  end.

(** [needle in hay] for strings: [needle] occurs in [hay]. *)
Fixpoint is_substring (needle hay : string) : bool :=
  String.prefix needle hay ||
  match hay with
  | EmptyString => false
  | String _ hay' => is_substring needle hay'
  end.

(** [x in v]. *)
Definition py_in (x v : pyval) : result bool :=
  match v with
  | VList l => Ok (existsb (py_same x) l)
  | VDict d =>
      if py_hashable x then
        match x with
        | VStr k => Ok (match lookup k d with Some _ => true | None => false end)
        | _ => Ok false
        end
      else Raise (type_error ("unhashable type: '" ++ type_name x ++ "'"))
  | VStr hay =>
      match x with
      | VStr needle => Ok (is_substring needle hay)
      | _ => Raise (type_error
                      ("'in <string>' requires string as left operand, not "
                         ++ type_name x))
      end
  | _ => Raise (type_error
                  ("argument of type '" ++ type_name v ++ "' is not iterable"))
  end.

(** The characters of a string, each a string of its own: one to four
    bytes of the UTF-8 encoding, by the first byte. *)
Fixpoint chars (s : string) : list pyval :=
  match s with
  | EmptyString => []
  | String c s1 =>
      if Nat.ltb (nat_of_ascii c) 192 then VStr (String c EmptyString) :: chars s1
      else
        match s1 with
        | EmptyString => [VStr s]
        | String d s2 =>
            if Nat.ltb (nat_of_ascii c) 224
            then VStr (String c (String d EmptyString)) :: chars s2
            else
              match s2 with
              | EmptyString => [VStr s]
              | String e s3 =>
                  if Nat.ltb (nat_of_ascii c) 240
                  then VStr (String c (String d (String e EmptyString)))
                         :: chars s3
                  else
                    match s3 with
                    | EmptyString => [VStr s]
                    | String f s4 =>
                        VStr (String c (String d (String e (String f EmptyString))))
                          :: chars s4
                    end
              end
        end
  end.

(** The elements [for x in v] runs through. *)
Definition py_iter (v : pyval) : result (list pyval) :=
  match v with
  | VList l => Ok l
  | VDict d => Ok (map VStr (keys d))
  | VStr s => Ok (chars s)
  | _ => Raise (type_error ("'" ++ type_name v ++ "' object is not iterable"))
  end.

(** A [dict] whose keys are arbitrary hashable values, as
    [available_tools] is once custom tool names are added to it. *)
Definition table := list (pyval * pyval).

Fixpoint table_lookup (k : pyval) (t : table) : option pyval :=
  match t with
  | [] => None
  | (k', v) :: t' => if py_same k k' then Some v else table_lookup k t'
  end.

Fixpoint table_set (k v : pyval) (t : table) : table :=
  match t with
  | [] => [(k, v)]
  | (k', v') :: t' =>
      if py_same k k' then (k', v) :: t' else (k', v') :: table_set k v t'
  end.

Definition unhashable (k : pyval) : exn :=
  type_error ("unhashable type: '" ++ type_name k ++ "'").

(** [t[k] = v]. *)
Definition table_setitem (k v : pyval) (t : table) : result table :=
  if py_hashable k then Ok (table_set k v t) else Raise (unhashable k).

(** [k in t]. *)
Definition table_contains (k : pyval) (t : table) : result bool :=
  if py_hashable k
  then Ok (match table_lookup k t with Some _ => true | None => false end)
  else Raise (unhashable k).

(** [t[k]].  The text of the [KeyError] is the [repr] of the key, given
    here for strings only. *)
Definition table_getitem (k : pyval) (t : table) : result pyval :=
  if py_hashable k then
    match table_lookup k t with
    | Some v => Ok v
    | None => Raise (Exn KeyError
                       (match k with VStr s => "'" ++ s ++ "'" | _ => "" end))
    end
  else Raise (unhashable k).

(** ** The other packages *)

(** What [json], [pickle] and [agentapps] do is not code of this
    repository.  [document] is what a file holds.  [json_dump v] is the
    text [json.dump(v, f, indent=2)] wrote to [f] and the exception it
    raised, if any (a value that is not JSON serializable).
    [lib_init cls kwargs] is the exception the constructor of [cls]
    raises on these arguments, if any; when there is none the call
    returns the instance [VObj cls kwargs]. *)
Class Packages : Type := {
  document : Type;
  json_dump : pyval -> document * option exn;
  json_load : document -> result pyval;
  pickle_load : document -> result pyval;
  lib_init : pyclass -> dict -> option exn
}.

Section Program.

Context {pkg : Packages}.

(** The call of [cls] with the keyword arguments [kwargs]. *)
Definition construct (cls : pyclass) (kwargs : dict) : result pyval :=
  match lib_init cls kwargs with
  | None => Ok (VObj cls kwargs)
  | Some e => Raise e
  end.

(** ** Files, session state, messages *)

(** The two files under [STORAGE_DIR] and the ways the operating system
    can refuse to work on them, each an [OSError] with its text.
    [write_fails] is a write that stops part way (a full disk): what it
    left in the file, and the text.  The directory itself is made at
    the top of the script, ahead of everything modelled here
    ([STORAGE_DIR.mkdir(exist_ok=True)]); it is taken to be there. *)
Record disk : Type := Disk {
  json_file : option document;
  pkl_file : option document;
  open_read_fails : option string;
  open_write_fails : option string;
  write_fails : option (document * string)
}.

(** [st.session_state]. *)
Record session_state : Type := Session {
  initialized : bool;
  agents : list pyval;
  teams : list pyval;
  custom_tools : list pyval;
  api_key : pyval;
  chat_history : list pyval;
  editing_agent : pyval
}.

Inductive level : Type := st_error | st_warning | st_success | st_info.

(** The pieces of an f-string: literal text, and a value formatted in
    place. *)
Inductive piece : Type :=
| Text (s : string)
| Show (v : pyval).

Record message : Type := Message { msg_level : level; msg_text : list piece }.

(** Everything a run of the script reads and changes: the session
    state, the disk, the value of [OPENAI_API_KEY] in the environment
    ([None] when unset), and the messages shown so far, oldest first. *)
Record world : Type := World {
  session : session_state;
  files : disk;
  environ_api_key : option string;
  shown : list message
}.

Definition with_session (s : session_state) (w : world) : world :=
  World s (files w) (environ_api_key w) (shown w).

Definition with_files (d : disk) (w : world) : world :=
  World (session w) d (environ_api_key w) (shown w).

Definition with_json_file (f : option document) (d : disk) : disk :=
  Disk f (pkl_file d) (open_read_fails d) (open_write_fails d) (write_fails d).

Definition with_agents (l : list pyval) (s : session_state) : session_state :=
  Session (initialized s) l (teams s) (custom_tools s) (api_key s)
          (chat_history s) (editing_agent s).

Definition with_teams (l : list pyval) (s : session_state) : session_state :=
  Session (initialized s) (agents s) l (custom_tools s) (api_key s)
          (chat_history s) (editing_agent s).

Definition with_custom_tools (l : list pyval) (s : session_state) : session_state :=
  Session (initialized s) (agents s) (teams s) l (api_key s)
          (chat_history s) (editing_agent s).

Definition with_api_key (k : pyval) (s : session_state) : session_state :=
  Session (initialized s) (agents s) (teams s) (custom_tools s) k
          (chat_history s) (editing_agent s).

Definition with_chat_history (l : list pyval) (s : session_state) : session_state :=
  Session (initialized s) (agents s) (teams s) (custom_tools s) (api_key s)
          l (editing_agent s).

Definition with_editing_agent (e : pyval) (s : session_state) : session_state :=
  Session (initialized s) (agents s) (teams s) (custom_tools s) (api_key s)
          (chat_history s) e.

(** ** The monad of the script *)

(** A statement runs in a world and leaves a world, whether it returns
    or raises: what was appended or written before an exception stays. *)
Definition M (A : Type) : Type := world -> result A * world.

Definition ret {A} (a : A) : M A := fun w => (Ok a, w).

Definition bind {A B} (m : M A) (k : A -> M B) : M B :=
  fun w =>
    match m w with
    | (Ok a, w') => k a w'
    | (Raise e, w') => (Raise e, w')
    end.

Notation "x <- m ;; k" := (bind m (fun x => k))
  (at level 61, m at next level, right associativity) : py_scope.
Notation "m ;; k" := (bind m (fun _ => k))
  (at level 61, right associativity) : py_scope.

Definition lift {A} (r : result A) : M A := fun w => (r, w).

Definition raise {A} (e : exn) : M A := lift (Raise e).

(** [try: body  except Exception as e: handler e]. *)
Definition try_except {A} (body : M A) (handler : exn -> M A) : M A :=
  fun w =>
    match body w with
    | (Ok a, w') => (Ok a, w')
    | (Raise e, w') => if is_Exception e then handler e w' else (Raise e, w')
    end.

Definition get_session : M session_state := fun w => (Ok (session w), w).

Definition modify_session (f : session_state -> session_state) : M unit :=
  fun w => (Ok tt, with_session (f (session w)) w).

(** [st.error], [st.warning], [st.success], [st.info].  The pictographs
    that open the messages of the script are left out of their text. *)
Definition show (l : level) (t : list piece) : M unit :=
  fun w => (Ok tt, World (session w) (files w) (environ_api_key w)
                         (shown w ++ [Message l t])).

(** [for x in l: body x]. *)
Fixpoint for_each {A} (l : list A) (body : A -> M unit) : M unit :=
  match l with
  | [] => ret tt
  | x :: l' => body x ;; for_each l' body
  end.

(** [[f x for x in l]] for an expression [f] that may raise. *)
Fixpoint map_result {A B} (f : A -> result B) (l : list A) : result (list B) :=
  match l with
  | [] => Ok []
  | x :: l' =>
      let? y := f x in
      let? ys := map_result f l' in
      Ok (y :: ys)
  end.

(** ** [save_data] *)

(** The dictionary [save_data] appends to [agents_config]: the values of
    a dictionary display are evaluated from first to last. *)
Definition agent_config_of (agent : pyval) : result pyval :=
  let? name := py_getitem agent "name" in
  let? role := py_getitem agent "role" in
  let? tools := py_getitem agent "tools" in
  let? instructions := py_getitem agent "instructions" in
  let? model := py_get agent "model" (VStr "gpt-4") in
  let? temperature := py_get agent "temperature" (VFloat 0.7) in
  let? show_tool_calls := py_get agent "show_tool_calls" (VBool true) in
  let? markdown := py_get agent "markdown" (VBool true) in
  Ok (VDict [("name", name); ("role", role); ("tools", tools);
             ("instructions", instructions); ("model", model);
             ("temperature", temperature);
             ("show_tool_calls", show_tool_calls); ("markdown", markdown)]).

Definition team_config_of (team : pyval) : result pyval :=
  let? name := py_getitem team "name" in
  let? members := py_getitem team "members" in
  let? instructions := py_getitem team "instructions" in
  let? workflow := py_get team "workflow" (VStr "Sequential") in
  Ok (VDict [("name", name); ("members", members);
             ("instructions", instructions); ("workflow", workflow)]).

Definition custom_tool_config_of (tool : pyval) : result pyval :=
  let? name := py_getitem tool "name" in
  let? description := py_getitem tool "description" in
  let? param_name := py_getitem tool "param_name" in
  let? param_type := py_getitem tool "param_type" in
  let? param_description := py_getitem tool "param_description" in
  let? param_required := py_getitem tool "param_required" in
  let? function_code := py_getitem tool "function_code" in
  Ok (VDict [("name", name); ("description", description);
             ("param_name", param_name); ("param_type", param_type);
             ("param_description", param_description);
             ("param_required", param_required);
             ("function_code", function_code)]).

(** The dictionary [data] that [save_data] hands to [json.dump]. *)
Definition saved_document (s : session_state) : result pyval :=
  let? agents_config := map_result agent_config_of (agents s) in
  let? teams_config := map_result team_config_of (teams s) in
  let? custom_tools_config := map_result custom_tool_config_of (custom_tools s) in
  Ok (VDict [("agents", VList agents_config);
             ("teams", VList teams_config);
             ("custom_tools", VList custom_tools_config);
             ("api_key", api_key s)]).

(** [with open(STORAGE_FILE.with_suffix('.json'), 'w') as f:
       json.dump(data, f, indent=2)].
    Opening for writing truncates the file; what [json.dump] wrote
    before it raised, or before the disk refused, stays in it. *)
Definition write_json (data : pyval) : M unit :=
  fun w =>
    let d := files w in
    match open_write_fails d with
    | Some msg => (Raise (Exn OSError msg), w)
    | None =>
        match write_fails d with
        | Some (partial, msg) =>
            (Raise (Exn OSError msg),
             with_files (with_json_file (Some partial) d) w)
        | None =>
            match json_dump data with
            | (text, None) => (Ok tt, with_files (with_json_file (Some text) d) w)
            | (text, Some e) =>
                (Raise e, with_files (with_json_file (Some text) d) w)
            end
        end
    end.

Definition save_data : M pyval :=
  try_except
    (s <- get_session ;;
     data <- lift (saved_document s) ;;
     write_json data ;;
     ret (VBool true))
    (fun e =>
       show st_error [Text ("Error saving data: " ++ exn_text e)] ;;
       ret (VBool false)).

(** ** [load_data] *)

(** [with open(path, mode) as f: data = loader(f)]. *)
Definition read_with (loader : document -> result pyval) (content : document)
  : M pyval :=
  fun w =>
    match open_read_fails (files w) with
    | Some msg => (Raise (Exn OSError msg), w)
    | None => (loader content, w)
    end.

Definition load_data : M pyval :=
  try_except
    (fun w =>
       match json_file (files w) with
       | Some content => read_with json_load content w
       | None =>
           match pkl_file (files w) with
           | Some content => read_with pickle_load content w
           | None => (Ok VNone, w)
           end
       end)
    (fun e =>
       show st_error [Text ("Error loading data: " ++ exn_text e)] ;;
       ret VNone).

(** ** [recreate_agent_from_config] *)

(** The three built-in entries of [available_tools], in the order of the
    dictionary display. *)
Definition builtin_tools : result table :=
  let? search := construct SearchSummaryTool [] in
  let? scraper := construct WebScraperTool [] in
  let? calculator := construct CalculatorTool [] in
  Ok [(VStr "Web Search", search); (VStr "Web Scraper", scraper);
      (VStr "Calculator", calculator)].

(** [for custom_tool in st.session_state.custom_tools:
       available_tools[custom_tool['name']] = custom_tool['tool_obj']].
    The right-hand side of an assignment is evaluated before the
    subscript of its target. *)
Fixpoint add_custom_tools (custom : list pyval) (available_tools : table)
  : result table :=
  match custom with
  | [] => Ok available_tools
  | custom_tool :: rest =>
      let? tool_obj := py_getitem custom_tool "tool_obj" in
      let? name := py_getitem custom_tool "name" in
      let? available_tools' := table_setitem name tool_obj available_tools in
      add_custom_tools rest available_tools'
  end.

(** [[available_tools[t] for t in names if t in available_tools]]. *)
Fixpoint select_tools (available_tools : table) (names : list pyval)
  : result (list pyval) :=
  match names with
  | [] => Ok []
  | t :: rest =>
      let? known := table_contains t available_tools in
      if known then
        let? tool := table_getitem t available_tools in
        let? tools := select_tools available_tools rest in
        Ok (tool :: tools)
      else select_tools available_tools rest
  end.

(** The body of the [try] of [recreate_agent_from_config]: everything up
    to [return agent].  It reads the session state and changes nothing. *)
Definition build_agent (custom : list pyval) (agent_config api_key : pyval)
  : result pyval :=
  let? available_tools := builtin_tools in
  let? available_tools := add_custom_tools custom available_tools in
  let? names := py_getitem agent_config "tools" in
  let? names := py_iter names in
  let? tools := select_tools available_tools names in
  let? name := py_getitem agent_config "name" in
  let? role := py_getitem agent_config "role" in
  let? id := py_get agent_config "model" (VStr "gpt-4") in
  let? model := construct OpenAIChat [("id", id); ("api_key", api_key)] in
  let? instructions := py_getitem agent_config "instructions" in
  let? show_tool_calls := py_get agent_config "show_tool_calls" (VBool true) in
  let? markdown := py_get agent_config "markdown" (VBool true) in
  let? temperature := py_get agent_config "temperature" (VFloat 0.7) in
  construct Agent
    [("name", name); ("role", role); ("model", model);
     ("tools", VList tools); ("instructions", instructions);
     ("show_tool_calls", show_tool_calls); ("markdown", markdown);
     ("temperature", temperature)].

(** The handler formats [agent_config['name']] into its message, so it
    raises in its turn when the record has no name. *)
Definition recreate_agent_from_config (agent_config api_key : pyval) : M pyval :=
  try_except
    (s <- get_session ;;
     lift (build_agent (custom_tools s) agent_config api_key))
    (fun e =>
       name <- lift (py_getitem agent_config "name") ;;
       show st_error [Text "Error recreating agent '"; Show name;
                      Text ("': " ++ exn_text e)] ;;
       ret VNone).

(** ** [recreate_custom_tool] *)

(** [DynamicTool(tool_config['name'], ..., tool_config['function_code'])]:
    the arguments are evaluated in order, [Tool.__init__] receives the
    name and the description, and the other four are stored on the
    instance. *)
Definition build_custom_tool (tool_config : pyval) : result pyval :=
  let? name := py_getitem tool_config "name" in
  let? description := py_getitem tool_config "description" in
  let? param_name := py_getitem tool_config "param_name" in
  let? param_type := py_getitem tool_config "param_type" in
  let? param_description := py_getitem tool_config "param_description" in
  let? function_code := py_getitem tool_config "function_code" in
  match lib_init DynamicTool [("name", name); ("description", description)] with
  | Some e => Raise e
  | None =>
      Ok (VObj DynamicTool
            [("name", name); ("description", description);
             ("param_name", param_name); ("param_type", param_type);
             ("param_description", param_description);
             ("function_code", function_code)])
  end.

Definition recreate_custom_tool (tool_config : pyval) : M pyval :=
  try_except
    (lift (build_custom_tool tool_config))
    (fun e =>
       name <- lift (py_getitem tool_config "name") ;;
       show st_error [Text "Error recreating tool '"; Show name;
                      Text ("': " ++ exn_text e)] ;;
       ret VNone).

(** ** Session state initialization *)

(** [{**tool_config, 'tool_obj': tool_obj}]. *)
Definition with_tool_obj (tool_config tool_obj : pyval) : result pyval :=
  match tool_config with
  | VDict d => Ok (VDict (dict_set "tool_obj" tool_obj d))
  | _ => Raise (type_error
                  ("'" ++ type_name tool_config ++ "' object is not a mapping"))
  end.

(** One turn of the loop over [saved_data['custom_tools']]. *)
Definition restore_custom_tool (tool_config : pyval) : M unit :=
  tool_obj <- recreate_custom_tool tool_config ;;
  if py_truthy tool_obj then
    entry <- lift (with_tool_obj tool_config tool_obj) ;;
    modify_session (fun s => with_custom_tools (custom_tools s ++ [entry]) s)
  else ret tt.

(** One turn of the loop over [saved_data['agents']]. *)
Definition restore_agent (agent_config : pyval) : M unit :=
  s <- get_session ;;
  agent_obj <- recreate_agent_from_config agent_config (api_key s) ;;
  if py_truthy agent_obj then
    entry <- lift (
      let? name := py_getitem agent_config "name" in
      let? role := py_getitem agent_config "role" in
      let? tools := py_getitem agent_config "tools" in
      let? instructions := py_getitem agent_config "instructions" in
      let? model := py_get agent_config "model" (VStr "gpt-4") in
      let? temperature := py_get agent_config "temperature" (VFloat 0.7) in
      let? show_tool_calls := py_get agent_config "show_tool_calls" (VBool true) in
      let? markdown := py_get agent_config "markdown" (VBool true) in
      Ok (VDict [("name", name); ("role", role); ("tools", tools);
                 ("instructions", instructions); ("model", model);
                 ("temperature", temperature);
                 ("show_tool_calls", show_tool_calls); ("markdown", markdown);
                 ("agent", agent_obj)])) ;;
    modify_session (fun s => with_agents (agents s ++ [entry]) s)
  else ret tt.

(** [[a['agent'] for a in agents if a['name'] in members]], for
    [members] a value at hand. *)
Fixpoint team_agents_of (agents : list pyval) (members : pyval)
  : result (list pyval) :=
  match agents with
  | [] => Ok []
  | a :: rest =>
      let? name := py_getitem a "name" in
      let? is_member := py_in name members in
      if is_member then
        let? agent := py_getitem a "agent" in
        let? others := team_agents_of rest members in
        Ok (agent :: others)
      else team_agents_of rest members
  end.

(** [[a['agent'] for a in agents if a['name'] in team_config['members']]]:
    the condition is evaluated anew for every agent, so
    [team_config['members']] is read once per agent and not at all when
    there is none. *)
Fixpoint team_agents_in (agents : list pyval) (team_config : pyval)
  : result (list pyval) :=
  match agents with
  | [] => Ok []
  | a :: rest =>
      let? name := py_getitem a "name" in
      let? members := py_getitem team_config "members" in
      let? is_member := py_in name members in
      if is_member then
        let? agent := py_getitem a "agent" in
        let? others := team_agents_in rest team_config in
        Ok (agent :: others)
      else team_agents_in rest team_config
  end.

(** One turn of the loop over [saved_data['teams']].  The members are
    looked up outside the [try]; with fewer than two of them nothing is
    done at all. *)
Definition restore_team (team_config : pyval) : M unit :=
  s <- get_session ;;
  team_agents <- lift (team_agents_in (agents s) team_config) ;;
  if Nat.leb 2 (List.length team_agents) then
    try_except
      (entry <- lift (
         let? name := py_getitem team_config "name" in
         let? instructions := py_getitem team_config "instructions" in
         let? team_obj :=
           construct Agent
             [("name", name); ("team", VList team_agents);
              ("instructions", instructions);
              ("show_tool_calls", VBool true); ("markdown", VBool true)] in
         let? name := py_getitem team_config "name" in
         let? members := py_getitem team_config "members" in
         let? instructions := py_getitem team_config "instructions" in
         let? workflow := py_get team_config "workflow" (VStr "Sequential") in
         Ok (VDict [("name", name); ("members", members);
                    ("instructions", instructions); ("workflow", workflow);
                    ("team", team_obj)])) ;;
       modify_session (fun s => with_teams (teams s ++ [entry]) s))
      (fun e =>
         name <- lift (py_getitem team_config "name") ;;
         show st_warning [Text "Could not recreate team '"; Show name;
                          Text ("': " ++ exn_text e)])
  else ret tt.

(** [os.getenv('OPENAI_API_KEY', '')]. *)
Definition getenv_api_key : M pyval :=
  fun w => (Ok (VStr (match environ_api_key w with Some k => k | None => "" end)), w).

(** [for x in saved_data[key]: body x], the iterable evaluated first. *)
Definition for_each_in (saved_data : pyval) (key : string)
  (body : pyval -> M unit) : M unit :=
  configs <- lift (let? v := py_getitem saved_data key in py_iter v) ;;
  for_each configs body.

(** The block under [if 'initialized' not in st.session_state]: custom
    tools, then agents, then teams. *)
Definition initialize : M unit :=
  s <- get_session ;;
  if initialized s then ret tt else
  key <- getenv_api_key ;;
  modify_session (fun _ => Session true [] [] [] key [] VNone) ;;
  saved_data <- load_data ;;
  if py_truthy saved_data then
    default <- getenv_api_key ;;
    key <- lift (py_get saved_data "api_key" default) ;;
    modify_session (with_api_key key) ;;
    has_tools <- lift (py_in (VStr "custom_tools") saved_data) ;;
    (if has_tools
     then for_each_in saved_data "custom_tools" restore_custom_tool
     else ret tt) ;;
    has_agents <- lift (py_in (VStr "agents") saved_data) ;;
    s <- get_session ;;
    (if has_agents && py_truthy (api_key s)
     then for_each_in saved_data "agents" restore_agent
     else ret tt) ;;
    has_teams <- lift (py_in (VStr "teams") saved_data) ;;
    s <- get_session ;;
    (if has_teams && py_truthy (api_key s)
     then for_each_in saved_data "teams" restore_team
     else ret tt)
  else ret tt.

(** ** The forms *)

(** [str.strip] and [str.split('\n')].  A string of the model is the
    UTF-8 encoding of a [str].  The white space that [strip] removes is
    the characters for which [str.isspace] holds: U+0009 to U+000D,
    U+001C to U+0020, U+0085, U+00A0, U+1680, U+2000 to U+200A, U+2028,
    U+2029, U+202F, U+205F and U+3000, which take one, two or three
    bytes. *)
Definition is_space (c : ascii) : bool :=
  let n := nat_of_ascii c in
  (Nat.leb 9 n && Nat.leb n 13) || (Nat.leb 28 n && Nat.leb n 32).

Definition is_space2 (c d : ascii) : bool :=
  Nat.eqb (nat_of_ascii c) 194
  && (Nat.eqb (nat_of_ascii d) 133 || Nat.eqb (nat_of_ascii d) 160).

Definition is_space3 (c d e : ascii) : bool :=
  let c := nat_of_ascii c in
  let d := nat_of_ascii d in
  let e := nat_of_ascii e in
  (Nat.eqb c 225 && Nat.eqb d 154 && Nat.eqb e 128)
  || (Nat.eqb c 226 && Nat.eqb d 128
      && ((Nat.leb 128 e && Nat.leb e 138)
          || Nat.eqb e 168 || Nat.eqb e 169 || Nat.eqb e 175))
  || (Nat.eqb c 226 && Nat.eqb d 129 && Nat.eqb e 159)
  || (Nat.eqb c 227 && Nat.eqb d 128 && Nat.eqb e 128).

(** [s.lstrip()]: without the white-space characters it starts with. *)
Fixpoint lstrip (s : string) : string :=
  match s with
  | EmptyString => EmptyString
  | String c s1 =>
      if is_space c then lstrip s1 else
      match s1 with
      | EmptyString => s
      | String d s2 =>
          if is_space2 c d then lstrip s2 else
          match s2 with
          | EmptyString => s
          | String e s3 => if is_space3 c d e then lstrip s3 else s
          end
      end
  end.

(** [s.isspace() or not s]: nothing but white-space characters. *)
Fixpoint all_space (s : string) : bool :=
  match s with
  | EmptyString => true
  | String c s1 =>
      if is_space c then all_space s1 else
      match s1 with
      | EmptyString => false
      | String d s2 =>
          if is_space2 c d then all_space s2 else
          match s2 with
          | EmptyString => false
          | String e s3 => if is_space3 c d e then all_space s3 else false
          end
      end
  end.

(** [s.rstrip()]: up to the white space it ends with. *)
Fixpoint rstrip (s : string) : string :=
  match s with
  | EmptyString => EmptyString
  | String c s1 => if all_space s then EmptyString else String c (rstrip s1)
  end.

Definition strip (s : string) : string := rstrip (lstrip s).

Fixpoint split_lines (s : string) : list string :=
  match s with
  | EmptyString => [EmptyString]
  | String c s' =>
      if Ascii.eqb c "010"%char then EmptyString :: split_lines s'
      else match split_lines s' with
           | line :: rest => String c line :: rest
           | [] => [String c EmptyString]
           end
  end.

(** [[i.strip() for i in text.split('\n') if i.strip()]]. *)
Definition instruction_lines (text : string) : list pyval :=
  map (fun i => VStr (strip i))
      (filter (fun i => negb (String.eqb (strip i) "")) (split_lines text)).

(** [l[i] = v] and [l.pop(i)] for a list and an integer: a negative
    index counts from the end, an index out of range raises. *)
Definition list_index (len : nat) (i : Z) : option nat :=
  if (Z.leb 0 i && Z.ltb i (Z.of_nat len))%bool then Some (Z.to_nat i)
  else if (Z.ltb i 0 && Z.leb (- Z.of_nat len) i)%bool
       then Some (Z.to_nat (Z.of_nat len + i))
       else None.

Fixpoint replace_nth (n : nat) (v : pyval) (l : list pyval) : list pyval :=
  match l, n with
  | [], _ => []
  | _ :: l', O => v :: l'
  | x :: l', S n' => x :: replace_nth n' v l'
  end.

Fixpoint remove_nth (n : nat) (l : list pyval) : list pyval :=
  match l, n with
  | [], _ => []
  | _ :: l', O => l'
  | x :: l', S n' => x :: remove_nth n' l'
  end.

(** The integer an index stands for ([bool] is a subclass of [int]). *)
Definition index_of (i : pyval) : option Z :=
  match i with
  | VInt z => Some z
  | VBool b => Some (Z.b2z b)
  | _ => None
  end.

Definition list_setitem (l : list pyval) (i v : pyval) : result (list pyval) :=
  match index_of i with
  | Some z =>
      match list_index (List.length l) z with
      | Some n => Ok (replace_nth n v l)
      | None => Raise (Exn IndexError "list assignment index out of range")
      end
  | None => Raise (type_error ("list indices must be integers or slices, not "
                                 ++ type_name i))
  end.

Definition list_pop (l : list pyval) (i : Z) : result (list pyval) :=
  match list_index (List.length l) i with
  | Some n => Ok (remove_nth n l)
  | None =>
      Raise (Exn IndexError
               (match l with [] => "pop from empty list"
                           | _ => "pop index out of range" end))
  end.

(** What the user can do between two runs of the script. *)
Inductive action : Type :=
| SetApiKey (api_key : string)
| SaveAll
| SubmitAgent (agent_name agent_role : string) (selected_tools : list string)
    (instructions model : string) (show_tool_calls use_markdown : bool)
    (temperature : float)
| EditAgent (idx : nat)
| CancelEditing
| DeleteAgent (idx : nat)
| CreateTeam (team_name : string) (selected_agents : list string)
    (team_instructions workflow_type : string)
| DeleteTeam (idx : nat)
| CreateCustomTool (tool_name tool_description param_name param_type
    param_description : string) (param_required : bool) (function_code : string)
| DeleteCustomTool (idx : nat)
| ClearAllData (confirm_deletion : bool).

(** The sidebar: [if api_key != st.session_state.api_key]. *)
Definition set_api_key (key : string) : M unit :=
  s <- get_session ;;
  if py_eq (VStr key) (api_key s) then ret tt
  else
    modify_session (with_api_key (VStr key)) ;;
    save_data ;;
    ret tt.

(** [[available_tools[t] for t in selected_tools]], with no test. *)
Definition get_tools (available_tools : table) (selected_tools : list string)
  : result (list pyval) :=
  map_result (fun t => table_getitem (VStr t) available_tools) selected_tools.

(** The button of the first tab, which reads [Create Agent] or, while
    [editing_agent] is set, [Update Agent].  [available_tools] is built
    above the button, where the tab offers the tools to choose from. *)
Definition submit_agent (agent_name agent_role : string)
  (selected_tools : list string) (instructions model : string)
  (show_tool_calls use_markdown : bool) (temperature : float) : M unit :=
  s <- get_session ;;
  available_tools <- lift (
    let? available_tools := builtin_tools in
    add_custom_tools (custom_tools s) available_tools) ;;
  if negb (py_truthy (api_key s)) then
    show st_error [Text "Please enter your OpenAI API key in the sidebar!"]
  else if negb (py_truthy (VStr agent_name)) then
    show st_error [Text "Please enter an agent name!"]
  else
    tools <- lift (get_tools available_tools selected_tools) ;;
    let instructions_list := VList (instruction_lines instructions) in
    try_except
      (chat <- lift (construct OpenAIChat
                       [("id", VStr model); ("api_key", api_key s)]) ;;
       agent <- lift (construct Agent
                  [("name", VStr agent_name); ("role", VStr agent_role);
                   ("model", chat); ("tools", VList tools);
                   ("instructions", instructions_list);
                   ("show_tool_calls", VBool show_tool_calls);
                   ("markdown", VBool use_markdown);
                   ("temperature", VFloat temperature)]) ;;
       let agent_data :=
         VDict [("name", VStr agent_name); ("role", VStr agent_role);
                ("agent", agent); ("tools", VList (map VStr selected_tools));
                ("instructions", instructions_list); ("model", VStr model);
                ("temperature", VFloat temperature);
                ("show_tool_calls", VBool show_tool_calls);
                ("markdown", VBool use_markdown)] in
       s <- get_session ;;
       if py_truthy (editing_agent s) then
         idx <- lift (py_getitem (editing_agent s) "index") ;;
         updated <- lift (list_setitem (agents s) idx agent_data) ;;
         modify_session (with_agents updated) ;;
         modify_session (with_editing_agent VNone) ;;
         save_data ;;
         show st_success [Text "Agent '"; Show (VStr agent_name);
                          Text "' updated successfully!"]
       else
         modify_session (fun s => with_agents (agents s ++ [agent_data]) s) ;;
         save_data ;;
         show st_success [Text "Agent '"; Show (VStr agent_name);
                          Text "' created successfully!"])
      (fun e => show st_error [Text ("Error: " ++ exn_text e)]).

(** The [Edit] button of entry [idx] of the fifth tab:
    [editing_agent = {**agent_data, 'index': idx}]. *)
Definition edit_agent (idx : nat) : M unit :=
  s <- get_session ;;
  match nth_error (agents s) idx with
  | Some (VDict agent_data) =>
      modify_session
        (with_editing_agent
           (VDict (dict_set "index" (VInt (Z.of_nat idx)) agent_data)))
  | Some v =>
      raise (type_error ("'" ++ type_name v ++ "' object is not a mapping"))
  | None => ret tt
  end.

Definition cancel_editing : M unit :=
  modify_session (with_editing_agent VNone).

(** The [Delete] buttons: [pop(idx)], then [save_data()]. *)
Definition delete_agent (idx : nat) : M unit :=
  s <- get_session ;;
  rest <- lift (list_pop (agents s) (Z.of_nat idx)) ;;
  modify_session (with_agents rest) ;;
  save_data ;;
  ret tt.

Definition delete_team (idx : nat) : M unit :=
  s <- get_session ;;
  rest <- lift (list_pop (teams s) (Z.of_nat idx)) ;;
  modify_session (with_teams rest) ;;
  save_data ;;
  ret tt.

Definition delete_custom_tool (idx : nat) : M unit :=
  s <- get_session ;;
  rest <- lift (list_pop (custom_tools s) (Z.of_nat idx)) ;;
  modify_session (with_custom_tools rest) ;;
  save_data ;;
  ret tt.

(** The button of the second tab, which is drawn only when there are at
    least two agents. *)
Definition create_team (team_name : string) (selected_agents : list string)
  (team_instructions workflow_type : string) : M unit :=
  s <- get_session ;;
  if Nat.ltb (List.length (agents s)) 2 then ret tt
  else if negb (py_truthy (VStr team_name)) then
    show st_error [Text "Please enter a team name!"]
  else if Nat.ltb (List.length selected_agents) 2 then
    show st_error [Text "Please select at least 2 agents!"]
  else
    team_agents <- lift (team_agents_of (agents s)
                           (VList (map VStr selected_agents))) ;;
    let team_instructions_list := VList (instruction_lines team_instructions) in
    try_except
      (team <- lift (construct Agent
                 [("name", VStr team_name); ("team", VList team_agents);
                  ("instructions", team_instructions_list);
                  ("show_tool_calls", VBool true); ("markdown", VBool true)]) ;;
       modify_session (fun s =>
         with_teams
           (teams s ++
              [VDict [("name", VStr team_name); ("team", team);
                      ("members", VList (map VStr selected_agents));
                      ("instructions", team_instructions_list);
                      ("workflow", VStr workflow_type)]]) s) ;;
       save_data ;;
       show st_success [Text "Team '"; Show (VStr team_name);
                        Text "' created successfully!"])
      (fun e => show st_error [Text ("Error creating team: " ++ exn_text e)]).

(** The button of the third tab.  Its [DynamicTool] takes five
    arguments. *)
Definition create_custom_tool (tool_name tool_description param_name param_type
  param_description : string) (param_required : bool) (function_code : string)
  : M unit :=
  if negb (py_truthy (VStr tool_name)) || negb (py_truthy (VStr tool_description))
     || negb (py_truthy (VStr function_code)) then
    show st_error [Text "Please fill in all fields!"]
  else
    try_except
      (custom_tool_obj <- lift (
         match lib_init DynamicTool [("name", VStr tool_name);
                                     ("description", VStr tool_description)] with
         | Some e => Raise e
         | None =>
             Ok (VObj DynamicTool
                   [("name", VStr tool_name);
                    ("description", VStr tool_description);
                    ("param_name", VStr param_name);
                    ("param_type", VStr param_type);
                    ("function_code", VStr function_code)])
         end) ;;
       modify_session (fun s =>
         with_custom_tools
           (custom_tools s ++
              [VDict [("name", VStr tool_name);
                      ("description", VStr tool_description);
                      ("param_name", VStr param_name);
                      ("param_type", VStr param_type);
                      ("param_description", VStr param_description);
                      ("param_required", VBool param_required);
                      ("function_code", VStr function_code);
                      ("tool_obj", custom_tool_obj)]]) s) ;;
       save_data ;;
       show st_success [Text "Custom tool '"; Show (VStr tool_name);
                        Text "' created successfully!"])
      (fun e => show st_error [Text ("Error creating tool: " ++ exn_text e)]).

(** The [Clear All Data] button, and under it
    [if st.checkbox("Confirm deletion"):]; [confirm_deletion] is what
    the call of [st.checkbox] returns.  The checkbox is drawn only in
    the run in which the button is pressed, and Streamlit returns the
    value a widget has at rest, [False], in the run that draws it first:
    on the page the block under it is never run. *)
Definition clear_all_data (confirm_deletion : bool) : M unit :=
  if confirm_deletion then
    modify_session (fun s =>
      with_chat_history [] (with_custom_tools [] (with_teams [] (with_agents [] s)))) ;;
    save_data ;;
    show st_success [Text "All data cleared!"]
  else ret tt.

Definition run_action (a : action) : M unit :=
  match a with
  | SetApiKey k => set_api_key k
  | SaveAll => save_data ;; show st_success [Text "Saved!"]
  | SubmitAgent n r ts i m stc md t => submit_agent n r ts i m stc md t
  | EditAgent idx => edit_agent idx
  | CancelEditing => cancel_editing
  | DeleteAgent idx => delete_agent idx
  | CreateTeam n ms i wf => create_team n ms i wf
  | DeleteTeam idx => delete_team idx
  | CreateCustomTool n d pn pt pd pr code => create_custom_tool n d pn pt pd pr code
  | DeleteCustomTool idx => delete_custom_tool idx
  | ClearAllData confirm_deletion => clear_all_data confirm_deletion
  end.

(** The state after a series of actions; an exception ends the run of
    the script it was raised in, not the session. *)
Fixpoint run_actions (l : list action) (w : world) : world :=
  match l with
  | [] => w
  | a :: l' => run_actions l' (snd (run_action a w))
  end.

End Program.

(** ** [DynamicTool.execute] *)

(** The two [DynamicTool] classes (the one of [recreate_custom_tool] and
    the one of the third tab) have the same [execute]. *)

(** How a call of [exec] can end. *)
Inductive exec_outcome : Type :=
| Completes (local_vars : dict)
| Throws (e : exn)
| Diverges.

(** How a call of a method can end. *)
Inductive call (A : Type) : Type :=
| Returns (a : A)
| Propagates (e : exn)
| Hangs.
Arguments Returns {A} a.
Arguments Propagates {A} e.
Arguments Hangs {A}.

Section Execute.

(** [py_exec code local_vars] is [exec(code, {}, local_vars)]: the local
    variables the code leaves behind, or the exception it raises.
    [py_str v] is [str(v)]: the local variables can hold objects of any
    class, whose [__repr__] is code of the user. *)
Variable py_exec : pyval -> dict -> exec_outcome.
Variable py_str : pyval -> call string.

(** [self.function_code]. *)
Definition function_code_of (self : pyval) : result pyval :=
  match self with
  | VObj _ attrs =>
      match lookup "function_code" attrs with
      | Some code => Ok code
      | None => Raise (Exn AttributeError
                         ("'" ++ type_name self
                              ++ "' object has no attribute 'function_code'"))
      end
  | _ => Raise (Exn AttributeError
                  ("'" ++ type_name self
                       ++ "' object has no attribute 'function_code'"))
  end.

(** [tool.execute] called with the keyword arguments [kwargs].  The
    parameter [self] is bound to the tool, so a keyword of that name is
    refused before the body runs (the text of the [TypeError] names the
    function, qualified or not with the version of Python).  In the
    body, the default [str(local_vars)] of [get] is evaluated before
    [get] is called, whether or not there is a [result]; [str(e)] is the
    text that the exception carries. *)
Definition execute (self : pyval) (kwargs : dict) : call pyval :=
  match lookup "self" kwargs with
  | Some _ =>
      Propagates
        (type_error "execute() got multiple values for argument 'self'")
  | None =>
      let local_vars := kwargs in
      let attempt :=
        match function_code_of self with
        | Raise e => Propagates e
        | Ok code =>
            match py_exec code local_vars with
            | Throws e => Propagates e
            | Diverges => Hangs
            | Completes local_vars =>
                match py_str (VDict local_vars) with
                | Returns default =>
                    Returns (match lookup "result" local_vars with
                             | Some result => result
                             | None => VStr default
                             end)
                | Propagates e => Propagates e
                | Hangs => Hangs
                end
            end
        end in
      match attempt with
      | Returns v => Returns v
      | Propagates e =>
          if is_Exception e then Returns (VStr ("Error: " ++ exn_text e))
          else Propagates e
      | Hangs => Hangs
      end
  end.

End Execute.

(** ** [PowerShellTool.execute] *)

(** [subprocess.CompletedProcess], with [capture_output=True] and
    [text=True]. *)
Record CompletedProcess : Type := Completed {
  returncode : Z;
  stdout : string;
  stderr : string
}.

Section PowerShell.

(** [subprocess.run(argv, capture_output=True, text=True)]: it raises
    when the program cannot be started. *)
Variable subprocess_run : list string -> result CompletedProcess.

(** [a or b] is [a] when [a] is true, and [b] otherwise. *)
Definition PowerShellTool_execute (command : string) : result string :=
  let? result := subprocess_run ["powershell"; "-Command"; command] in
  Ok (if py_truthy (VStr (stdout result)) then stdout result
      else stderr result).

End PowerShell.

(** ** The fourth and fifth tabs: chat and export *)

Section Tabs.

Context {pkg : Packages}.

Notation "x <- m ;; k" := (bind m (fun x => k))
  (at level 61, m at next level, right associativity) : py_scope.
Notation "m ;; k" := (bind m (fun _ => k))
  (at level 61, right associativity) : py_scope.

(** [obj.run(user_input, stream=stream_response)] of an agent or a team
    of [agentapps]: the response, or the exception it raises. *)
Variable agent_run : pyval -> string -> bool -> result pyval.

(** [[{'name': a['name'], 'type': kind, 'obj': a[key]} for a in l]]. *)
Definition entities_of (kind key : string) (l : list pyval) : result (list pyval) :=
  map_result
    (fun a =>
       let? name := py_getitem a "name" in
       let? obj := py_getitem a key in
       Ok (VDict [("name", name); ("type", VStr kind); ("obj", obj)]))
    l.

(** [all_entities]: the agents, then the teams. *)
Definition all_entities (s : session_state) : result (list pyval) :=
  let? from_agents := entities_of "agent" "agent" (agents s) in
  let? from_teams := entities_of "team" "team" (teams s) in
  Ok (from_agents ++ from_teams).

(** [next(e for e in all_entities if e['name'] == selected_entity)]:
    the first entity of that name.  When there is none [next] raises
    [StopIteration], an [Exception] for which the list of classes has no
    name of its own; it is filed under [RuntimeError] with its name as
    text. *)
Fixpoint pick_entity (entities : list pyval) (selected_entity : pyval)
  : result pyval :=
  match entities with
  | [] => Raise (Exn RuntimeError "StopIteration")
  | e :: rest =>
      let? name := py_getitem e "name" in
      if py_eq name selected_entity then Ok e
      else pick_entity rest selected_entity
  end.

(** The fourth tab with the [Send] button pressed, up to the
    [st.rerun()] that ends a successful run.  The button is there only
    when there is an agent or a team; [selected_entity] is what the
    select box gave. *)
Definition send_message (selected_entity : pyval) (user_input : string)
  (stream_response : bool) : M unit :=
  s <- get_session ;;
  entities <- lift (all_entities s) ;;
  if negb (py_truthy (VList entities)) then
    show st_warning [Text "No agents or teams available. Create one first!"]
  else if negb (py_truthy (VStr user_input)) then ret tt
  else
    entity <- lift (pick_entity entities selected_entity) ;;
    modify_session (fun s =>
      with_chat_history
        (chat_history s ++
           [VDict [("role", VStr "user"); ("content", VStr user_input);
                   ("agent", VStr "You")]]) s) ;;
    try_except
      (response <- lift (let? obj := py_getitem entity "obj" in
                         agent_run obj user_input stream_response) ;;
       modify_session (fun s =>
         with_chat_history
           (chat_history s ++
              [VDict [("role", VStr "assistant"); ("content", response);
                      ("agent", selected_entity)]]) s))
      (fun e => show st_error [Text ("Error: " ++ exn_text e)]).

(** [Clear Chat History]. *)
Definition clear_chat : M unit :=
  modify_session (with_chat_history []).

(** The agents of the [Export All] button: six fields. *)
Definition export_agent (a : pyval) : result pyval :=
  let? name := py_getitem a "name" in
  let? role := py_getitem a "role" in
  let? tools := py_getitem a "tools" in
  let? instructions := py_getitem a "instructions" in
  let? model := py_get a "model" (VStr "gpt-4") in
  let? temperature := py_get a "temperature" (VFloat 0.7) in
  Ok (VDict [("name", name); ("role", role); ("tools", tools);
             ("instructions", instructions); ("model", model);
             ("temperature", temperature)]).

Definition export_team (t : pyval) : result pyval :=
  let? name := py_getitem t "name" in
  let? members := py_getitem t "members" in
  let? instructions := py_getitem t "instructions" in
  let? workflow := py_get t "workflow" (VStr "Sequential") in
  Ok (VDict [("name", name); ("members", members);
             ("instructions", instructions); ("workflow", workflow)]).

Definition export_custom_tool (t : pyval) : result pyval :=
  let? name := py_getitem t "name" in
  let? description := py_getitem t "description" in
  let? param_name := py_getitem t "param_name" in
  let? param_type := py_getitem t "param_type" in
  let? param_description := py_getitem t "param_description" in
  let? param_required := py_getitem t "param_required" in
  let? function_code := py_getitem t "function_code" in
  Ok (VDict [("name", name); ("description", description);
             ("param_name", param_name); ("param_type", param_type);
             ("param_description", param_description);
             ("param_required", param_required);
             ("function_code", function_code)]).

(** The dictionary [config] of the [Export All] button, which
    [json.dumps] turns into the file to download. *)
Definition export_config (s : session_state) : result pyval :=
  let? agents_config := map_result export_agent (agents s) in
  let? teams_config := map_result export_team (teams s) in
  let? custom_tools_config := map_result export_custom_tool (custom_tools s) in
  Ok (VDict [("agents", VList agents_config);
             ("teams", VList teams_config);
             ("custom_tools", VList custom_tools_config)]).

End Tabs.

(** ** Sample packages *)

(** A stand-in for the other packages, to run the script on examples.
    A file holds either the text of a value or something that is no
    JSON; every constructor accepts its arguments. *)
Inductive sample_document : Type :=
| TextOf (v : pyval)
| Garbage (text : string).

(** No string occurs twice in [l]. *)
Fixpoint distinct (l : list string) : bool :=
  match l with
  | [] => true
  | k :: l' => negb (existsb (String.eqb k) l') && distinct l'
  end.

(** [v] is made of [None], booleans, numbers, strings, lists and
    dictionaries, and no dictionary has a key twice: the values that
    [json] writes and reads back. *)
Fixpoint json_native (v : pyval) : bool :=
  match v with
  | VNone | VBool _ | VInt _ | VFloat _ | VStr _ => true
  | VList l =>
      (fix all (l : list pyval) : bool :=
         match l with
         | [] => true
         | x :: l' => json_native x && all l'
         end) l
  | VDict d =>
      distinct (keys d) &&
      (fix all (d : dict) : bool :=
         match d with
         | [] => true
         | (_, x) :: d' => json_native x && all d'
         end) d
  | VObj _ _ => false
  end.

Definition sample_json_dump (v : pyval) : sample_document * option exn :=
  if json_native v then (TextOf v, None)
  else (Garbage "{", Some (type_error "Object is not JSON serializable")).

Definition sample_json_load (d : sample_document) : result pyval :=
  match d with
  | TextOf v => Ok v
  | Garbage _ => Raise (Exn JSONDecodeError "Expecting value: line 1 column 1 (char 0)")
  end.

Definition sample_pickle_load (d : sample_document) : result pyval :=
  match d with
  | TextOf v => Ok v
  | Garbage _ => Raise (Exn UnpicklingError "invalid load key")
  end.

Definition sample_packages : Packages := {|
  document := sample_document;
  json_dump := sample_json_dump;
  json_load := sample_json_load;
  pickle_load := sample_pickle_load;
  lib_init := fun _ _ => None
|}.

(** The same packages with an [Agent] that refuses an empty list of
    instructions. *)
Definition strict_packages : Packages := {|
  document := sample_document;
  json_dump := sample_json_dump;
  json_load := sample_json_load;
  pickle_load := sample_pickle_load;
  lib_init := fun cls kwargs =>
    match cls, lookup "instructions" kwargs with
    | Agent, Some (VList []) => Some (Exn ValueError "instructions must not be empty")
    | _, _ => None
    end
|}.

(** A stand-in for [exec] that knows five bodies. *)
Definition sample_exec (code : pyval) (local_vars : dict) : exec_outcome :=
  match code with
  | VStr "pass" => Completes local_vars
  | VStr "result = 42" => Completes (dict_set "result" (VInt 42) local_vars)
  | VStr "raise ValueError('boom')" => Throws (Exn ValueError "boom")
  | VStr "raise SystemExit" => Throws (Exn SystemExit "")
  | VStr "while True: pass" => Diverges
  | VStr _ => Throws (Exn SyntaxError "invalid syntax")
  | _ => Throws (type_error "exec() arg 1 must be a string, bytes or code object")
  end.

(** A stand-in for [str] that names the type of its argument. *)
Definition sample_str (v : pyval) : call string :=
  Returns (match v with
           | VStr s => s
           | _ => ("<" ++ type_name v ++ ">")%string
           end).

(** ** Sample data *)

(** Records, documents and sessions on which the sample packages run
    the script. *)

Definition dynamic_tool (function_code : string) : pyval :=
  VObj DynamicTool
    [("name", VStr "t"); ("description", VStr "a tool");
     ("param_name", VStr "x"); ("param_type", VStr "string");
     ("param_description", VStr "an argument");
     ("function_code", VStr function_code)].

Definition double_tool : pyval :=
  VDict [("name", VStr "double"); ("description", VStr "Doubles a number");
         ("param_name", VStr "x"); ("param_type", VStr "number");
         ("param_description", VStr "The number"); ("param_required", VBool true);
         ("function_code", VStr "result = x * 2")].

(** The tool object that [recreate_custom_tool] builds from it. *)
Definition double_obj : pyval :=
  VObj DynamicTool
    [("name", VStr "double"); ("description", VStr "Doubles a number");
     ("param_name", VStr "x"); ("param_type", VStr "number");
     ("param_description", VStr "The number");
     ("function_code", VStr "result = x * 2")].

Definition agent_dict (name : string) (tools : list string) : dict :=
  [("name", VStr name); ("role", VStr "Assistant");
   ("tools", VList (map VStr tools));
   ("instructions", VList [VStr "Be brief"])].

Definition agent_record (name : string) (tools : list string) : pyval :=
  VDict (agent_dict name tools).

Definition team_dict (name : string) (members : list string) : dict :=
  [("name", VStr name); ("members", VList (map VStr members));
   ("instructions", VList [VStr "Work together"]);
   ("workflow", VStr "Sequential (Step by step)")].

Definition team_record (name : string) (members : list string) : pyval :=
  VDict (team_dict name members).

(** A stored document. *)
Definition stored (agents teams custom_tools : list pyval) (api_key : pyval)
  : pyval :=
  VDict [("agents", VList agents); ("teams", VList teams);
         ("custom_tools", VList custom_tools); ("api_key", api_key)].

(** A first run of the script with [doc] in [config.json]. *)
Definition first_run (doc : sample_document) : @world sample_packages :=
  @World sample_packages (Session false [] [] [] VNone [] VNone)
         (@Disk sample_packages (Some doc) None None None None) None [].

(** The state that the first run leaves when [config.json] holds the
    text of [doc]. *)
Definition restored (doc : pyval) : @world sample_packages :=
  snd (@initialize sample_packages (first_run (TextOf doc))).

(** A running session with a key and nothing else. *)
Definition blank : @world sample_packages :=
  @World sample_packages (Session true [] [] [] (VStr "sk-test") [] VNone)
         (@Disk sample_packages None None None None None) None [].

(** Two agents, a team of both and a custom tool. *)
Definition workspace : @world sample_packages :=
  restored (stored [agent_record "Calc" ["double"];
                    agent_record "Search" ["Web Search"]]
                   [team_record "Both" ["Calc"; "Search"]]
                   [double_tool] (VStr "sk-test")).

(** The same on a disk that refuses to be written. *)
Definition read_only : @world sample_packages :=
  with_files
    (@Disk sample_packages None None None (Some "[Errno 13] Permission denied") None)
    workspace.

(** One good custom tool, and an agent whose list of tools is a
    number. *)
Definition tools_is_a_number : pyval :=
  stored [VDict [("name", VStr "Calc"); ("role", VStr "Assistant");
                 ("tools", VInt 7); ("instructions", VList [])]]
         [] [double_tool] (VStr "sk-test").

(** One good custom tool, and a number where the list of agents should
    be. *)
Definition agents_is_a_number : pyval :=
  VDict [("agents", VInt 5); ("teams", VList []);
         ("custom_tools", VList [double_tool]); ("api_key", VStr "sk-test")].

(** A team that names two members, only one of which is an agent. *)
Definition orphan_team : pyval :=
  stored [agent_record "Calc" []] [team_record "Both" ["Calc"; "Search"]]
         [] (VStr "sk-test").

(** Two agents and no team. *)
Definition two_agents : @world sample_packages :=
  restored (stored [agent_record "Calc" []; agent_record "Search" []]
                   [] [] (VStr "sk-test")).

(** The form of the first tab, filled in for a new agent. *)
Definition create_agent (name : string) : action :=
  SubmitAgent name "Assistant" [] "Be brief" "gpt-4" true true 0.7.

(** A custom tool without a name, followed by a good one, and an agent
    that is in order. *)
Definition nameless_tool : pyval :=
  stored [agent_record "Calc" ["Calculator"]] [] [VDict []; double_tool]
         (VStr "sk-test").

(** An agent without instructions, which the strict [Agent] refuses,
    followed by one that is in order. *)
Definition unwelcome : pyval :=
  stored [VDict [("name", VStr "Mute"); ("role", VStr "Assistant");
                 ("tools", VList []); ("instructions", VList [])];
          agent_record "Calc" ["Calculator"]]
         [] [] (VStr "sk-test").

(** The same without the nameless tool. *)
Definition named_tools : pyval :=
  stored [agent_record "Calc" ["Calculator"]] [] [double_tool] (VStr "sk-test").

(** A session whose only custom tool is [double]. *)
Definition with_double : @world sample_packages :=
  restored (stored [] [] [double_tool] (VStr "sk-test")).

(** Two custom tools named [Calculator]. *)
Definition calculators : list pyval :=
  [VDict [("name", VStr "Calculator"); ("tool_obj", dynamic_tool "result = 1")];
   VDict [("name", VStr "Calculator"); ("tool_obj", dynamic_tool "result = 2")]].

(** ** Specification vocabulary *)

(** The [OSError] a write to the configuration file meets, if any. *)
Definition io_error {pkg : Packages} (d : disk) : option string :=
  match open_write_fails d with
  | Some msg => Some msg
  | None =>
      match write_fails d with
      | Some (_, msg) => Some msg
      | None => None
      end
  end.

(** The custom tool that was registered last under [name]. *)
Definition tool_named (name : string) (custom_tool : pyval) : bool :=
  match py_getitem custom_tool "name" with
  | Ok (VStr n) => String.eqb n name
  | _ => false
  end.

Fixpoint last_named (name : string) (custom : list pyval) : option pyval :=
  match custom with
  | [] => None
  | custom_tool :: rest =>
      match last_named name rest with
      | Some r => Some r
      | None => if tool_named name custom_tool then Some custom_tool else None
      end
  end.

(** The names of a tool list that resolve in [available_tools], and the
    tools they resolve to. *)
Definition known (available_tools : table) (name : string) : bool :=
  match table_lookup (VStr name) available_tools with
  | Some _ => true
  | None => false
  end.

Definition tool_of (available_tools : table) (name : string) : pyval :=
  match table_lookup (VStr name) available_tools with
  | Some tool => tool
  | None => VNone
  end.

Definition resolved_tools (available_tools : table) (names : list string)
  : list pyval :=
  map (tool_of available_tools) (filter (known available_tools) names).

(** The value of field [k] of a record, or [default]. *)
Definition field (d : dict) (k : string) (default : pyval) : pyval :=
  match lookup k d with
  | Some v => v
  | None => default
  end.

(** A disk from which [load_data] gets no document: there is no file,
    or the file cannot be opened, or what it holds cannot be parsed. *)
Inductive unusable {pkg : Packages} (d : disk) : Prop :=
| absent :
    json_file d = None -> pkl_file d = None -> unusable d
| unreadable (content : document) (msg : string) :
    json_file d = Some content -> open_read_fails d = Some msg -> unusable d
| malformed (content : document) (e : exn) :
    json_file d = Some content -> open_read_fails d = None ->
    json_load content = Raise e -> is_Exception e = true -> unusable d
| legacy_unreadable (content : document) (msg : string) :
    json_file d = None -> pkl_file d = Some content ->
    open_read_fails d = Some msg -> unusable d
| legacy_malformed (content : document) (e : exn) :
    json_file d = None -> pkl_file d = Some content ->
    open_read_fails d = None ->
    pickle_load content = Raise e -> is_Exception e = true -> unusable d.

(** The session state a first run starts from: nothing but the key of
    the environment. *)
Definition empty_workspace (environ_api_key : option string) : session_state :=
  Session true [] [] []
          (VStr (match environ_api_key with Some k => k | None => "" end))
          [] VNone.

(** A statement that leaves the files as they are. *)
Definition keeps_files {pkg : Packages} {A} (m : M A) : Prop :=
  forall w, files (snd (m w)) = files w.

(** The fields [save_data] writes for each kind of record, with the
    value it writes when the record has none ([VNone] stands for a field
    that has no default). *)
Definition agent_fields : list (string * pyval) :=
  [("name", VNone); ("role", VNone); ("tools", VNone); ("instructions", VNone);
   ("model", VStr "gpt-4"); ("temperature", VFloat 0.7);
   ("show_tool_calls", VBool true); ("markdown", VBool true)].

Definition team_fields : list (string * pyval) :=
  [("name", VNone); ("members", VNone); ("instructions", VNone);
   ("workflow", VStr "Sequential")].

Definition custom_tool_fields : list (string * pyval) :=
  [("name", VNone); ("description", VNone); ("param_name", VNone);
   ("param_type", VNone); ("param_description", VNone);
   ("param_required", VNone); ("function_code", VNone)].

(** A record of the session state that [save_data] can write: a
    dictionary that has every field without default, and whose fields
    to be written are JSON values. *)
Definition writable_field (d : dict) (f : string * pyval) : bool :=
  match lookup (fst f) d, snd f with
  | Some v, _ => json_native v
  | None, VNone => false
  | None, _ => true
  end.

Definition writable (fields : list (string * pyval)) (r : pyval) : bool :=
  match r with
  | VDict d => forallb (writable_field d) fields
  | _ => false
  end.

(** [config] is what was written for [record]: a dictionary of exactly
    the fields of the kind, each with the value it has in the record (or
    its default when the record has none). *)
Definition same_fields (fields : list (string * pyval)) (record config : pyval)
  : Prop :=
  exists d c,
    record = VDict d /\ config = VDict c
    /\ keys c = map fst fields
    /\ forall k default, In (k, default) fields ->
                        lookup k c = Some (field d k default).

(** [json.load] reads back what [json.dump] wrote, for values that
    [json] can represent. *)
Definition json_faithful {pkg : Packages} : Prop :=
  forall v, json_native v = true ->
            exists text, json_dump v = (text, None) /\ json_load text = Ok v.

(** The names of a collection of records. *)
Definition name_of (r : pyval) : option pyval :=
  match r with
  | VDict d => lookup "name" d
  | _ => None
  end.

Definition names (l : list pyval) : list (option pyval) := map name_of l.

(** No two agents, no two teams and no two custom tools have the same
    name. *)
Definition unique_names {pkg : Packages} (s : session_state) : Prop :=
  NoDup (names (agents s)) /\ NoDup (names (teams s))
  /\ NoDup (names (custom_tools s)).

(** The place of the agent that [Update Agent] would overwrite. *)
Definition edited_index {pkg : Packages} (s : session_state) : option nat :=
  match py_getitem (editing_agent s) "index" with
  | Ok i =>
      match index_of i with
      | Some z => list_index (List.length (agents s)) z
      | None => None
      end
  | Raise _ => None
  end.

(** The name that an action gives to a record is borne by no other
    record of the collection. *)
Definition fresh {pkg : Packages} (a : action) (s : session_state) : Prop :=
  match a with
  | SubmitAgent agent_name _ _ _ _ _ _ _ =>
      if py_truthy (editing_agent s) then
        match edited_index s with
        | Some n => ~ In (Some (VStr agent_name)) (names (remove_nth n (agents s)))
        | None => True
        end
      else ~ In (Some (VStr agent_name)) (names (agents s))
  | CreateTeam team_name _ _ _ =>
      ~ In (Some (VStr team_name)) (names (teams s))
  | CreateCustomTool tool_name _ _ _ _ _ _ =>
      ~ In (Some (VStr tool_name)) (names (custom_tools s))
  | _ => True
  end.

(** Every action of a series is fresh in the state it is done in. *)
Fixpoint all_fresh {pkg : Packages} (l : list action) (w : world) : Prop :=
  match l with
  | [] => True
  | a :: l' => fresh a (session w) /\ all_fresh l' (snd (run_action a w))
  end.

(** A statement that leaves the session state as it is. *)
Definition keeps_session {pkg : Packages} {A} (m : M A) : Prop :=
  forall w, session (snd (m w)) = session w.

(** An expression that raises nothing but instances of [Exception]. *)
Definition catchable {A} (r : result A) : Prop :=
  forall e, r = Raise e -> is_Exception e = true.

(** ** Vocabulary of the initialization, the store and the tabs *)

(** What [save_data] returns and what it leaves in [config.json], read
    off the session state and the disk. *)
Definition save_outcome {pkg : Packages} (s : session_state) (d : disk)
  : result pyval * option document :=
  match saved_document s with
  | Raise e => (if is_Exception e then Ok (VBool false) else Raise e, json_file d)
  | Ok data =>
      match open_write_fails d with
      | Some _ => (Ok (VBool false), json_file d)
      | None =>
          match write_fails d with
          | Some (partial, _) => (Ok (VBool false), Some partial)
          | None =>
              match json_dump data with
              | (text, None) => (Ok (VBool true), Some text)
              | (text, Some e) =>
                  (if is_Exception e then Ok (VBool false) else Raise e, Some text)
              end
          end
      end
  end.

(** The entry that the loop over the agents appends for [agent_config]
    and [agent_obj]. *)
Definition agent_entry (agent_config agent_obj : pyval) : result pyval :=
  let? name := py_getitem agent_config "name" in
  let? role := py_getitem agent_config "role" in
  let? tools := py_getitem agent_config "tools" in
  let? instructions := py_getitem agent_config "instructions" in
  let? model := py_get agent_config "model" (VStr "gpt-4") in
  let? temperature := py_get agent_config "temperature" (VFloat 0.7) in
  let? show_tool_calls := py_get agent_config "show_tool_calls" (VBool true) in
  let? markdown := py_get agent_config "markdown" (VBool true) in
  Ok (VDict [("name", name); ("role", role); ("tools", tools);
             ("instructions", instructions); ("model", model);
             ("temperature", temperature);
             ("show_tool_calls", show_tool_calls); ("markdown", markdown);
             ("agent", agent_obj)]).

(** The entry that the loop over the teams appends for [team_config]
    and the agents [team_agents]. *)
Definition team_entry {pkg : Packages} (team_config : pyval)
  (team_agents : list pyval) : result pyval :=
  let? name := py_getitem team_config "name" in
  let? instructions := py_getitem team_config "instructions" in
  let? team_obj :=
    construct Agent
      [("name", name); ("team", VList team_agents);
       ("instructions", instructions);
       ("show_tool_calls", VBool true); ("markdown", VBool true)] in
  let? name := py_getitem team_config "name" in
  let? members := py_getitem team_config "members" in
  let? instructions := py_getitem team_config "instructions" in
  let? workflow := py_get team_config "workflow" (VStr "Sequential") in
  Ok (VDict [("name", name); ("members", members);
             ("instructions", instructions); ("workflow", workflow);
             ("team", team_obj)]).

(** The agents of the session state that [team_config] names. *)
Definition resolve_members {pkg : Packages} (s : session_state)
  (team_config : pyval) : result (list pyval) :=
  team_agents_in (agents s) team_config.

(** The list that [for x in saved_data[key]] runs through. *)
Definition configs_of (saved_data : pyval) (key : string) : result (list pyval) :=
  let? v := py_getitem saved_data key in py_iter v.

(** [m], run in a session state that satisfies [P], ends in one that
    satisfies [R a] when it returns [a] and [Q] when it raises. *)
Definition ensures {pkg : Packages} {A} (P : session_state -> Prop) (m : M A)
  (Q : session_state -> Prop) (R : A -> session_state -> Prop) : Prop :=
  forall w, P (session w) ->
            match m w with
            | (Ok a, w') => R a (session w')
            | (Raise _, w') => Q (session w')
            end.

(** One of the three loops of the initialization: the records under
    [key] are gone through when the document has the key and [guard]
    holds of the session state. *)
Definition phase {pkg : Packages} (saved_data : pyval) (key : string)
  (guard : session_state -> bool) (body : pyval -> M unit) : M unit :=
  bind (lift (py_in (VStr key) saved_data)) (fun has =>
  bind get_session (fun s =>
  if has && guard s then for_each_in saved_data key body else ret tt)).

Definition has_key {pkg : Packages} (s : session_state) : bool :=
  py_truthy (api_key s).

(** The part of the initialization that follows [if saved_data:]. *)
Definition activate {pkg : Packages} (saved_data : pyval) : M unit :=
  bind getenv_api_key (fun default =>
  bind (lift (py_get saved_data "api_key" default)) (fun key =>
  bind (modify_session (with_api_key key)) (fun _ =>
  bind (phase saved_data "custom_tools" (fun _ => true) restore_custom_tool) (fun _ =>
  bind (phase saved_data "agents" has_key restore_agent) (fun _ =>
  phase saved_data "teams" has_key restore_team))))).

Definition no_agents {pkg : Packages} (s : session_state) : Prop :=
  agents s = [] /\ teams s = [].

(** [r] is a dictionary with every key of [ks]. *)
Definition has_fields (ks : list string) (r : pyval) : bool :=
  match r with
  | VDict d =>
      forallb (fun k => match lookup k d with Some _ => true | None => false end) ks
  | _ => false
  end.

Definition agent_keys : list string :=
  ["name"; "role"; "tools"; "instructions"; "agent"].

Definition team_keys : list string :=
  ["name"; "members"; "instructions"; "team"].

Definition custom_tool_keys : list string :=
  ["name"; "description"; "param_name"; "param_type"; "param_description";
   "function_code"; "tool_obj"].

(** Every entry of the session state has the keys that the script reads
    with a subscript, [param_required] apart. *)
Definition complete {pkg : Packages} (s : session_state) : Prop :=
  Forall (fun a => has_fields agent_keys a = true) (agents s)
  /\ Forall (fun t => has_fields team_keys t = true) (teams s)
  /\ Forall (fun t => has_fields custom_tool_keys t = true) (custom_tools s).

(** A custom tool record that can be activated: the six fields the
    constructor reads, and a name that can be a key. *)
Definition storable_tool (c : pyval) : bool :=
  has_fields ["name"; "description"; "param_name"; "param_type";
              "param_description"; "function_code"] c
  && match py_getitem c "name" with
     | Ok name => py_hashable name
     | Raise _ => false
     end.

(** An agent record that can be activated: four fields, the tools a list
    of values that can be keys. *)
Definition storable_agent (c : pyval) : bool :=
  has_fields ["name"; "role"; "tools"; "instructions"] c
  && match py_getitem c "tools" with
     | Ok (VList names) => forallb py_hashable names
     | _ => false
     end.

(** The records of [agents_config] whose name is among [members]. *)
Definition members_among (agents_config members : list pyval) : list pyval :=
  filter (fun a => match py_getitem a "name" with
                   | Ok name => existsb (py_same name) members
                   | Raise _ => false
                   end) agents_config.

(** A team record that can be activated along with [agents_config]:
    three fields, and at least two of the agents among its members. *)
Definition storable_team (agents_config : list pyval) (c : pyval) : bool :=
  has_fields ["name"; "members"; "instructions"] c
  && match py_getitem c "members" with
     | Ok (VList members) =>
         Nat.leb 2 (List.length (members_among agents_config members))
     | _ => false
     end.

(** [entry] is what the initialization puts into the session state for
    the record [c]. *)
Definition restored_custom_tool {pkg : Packages} (c entry : pyval) : Prop :=
  exists d obj,
    c = VDict d /\ build_custom_tool c = Ok obj
    /\ entry = VDict (dict_set "tool_obj" obj d).

Definition restored_agent (c entry : pyval) : Prop :=
  exists kwargs, agent_entry c (VObj Agent kwargs) = Ok entry.

Definition restored_team {pkg : Packages} (c entry : pyval) : Prop :=
  exists team_agents,
    2 <= List.length team_agents /\ team_entry c team_agents = Ok entry.

(** A custom tool entry that [available_tools] can take. *)
Definition usable_tool (entry : pyval) : Prop :=
  exists name tool_obj,
    py_getitem entry "tool_obj" = Ok tool_obj
    /\ py_getitem entry "name" = Ok name /\ py_hashable name = true.

(** The dictionary [v] without the keys [ks]. *)
Definition without (ks : list string) (v : pyval) : pyval :=
  match v with
  | VDict d => VDict (filter (fun kv => negb (existsb (String.eqb (fst kv)) ks)) d)
  | _ => v
  end.

(** The [Agent] that the form of the first tab builds once the
    constructors have accepted their arguments, and the entry
    [agent_data] that it puts into the session state. *)
Definition form_agent (api_key : pyval) (agent_name agent_role : string)
  (tools : list pyval) (instructions model : string)
  (show_tool_calls use_markdown : bool) (temperature : float) : pyval :=
  VObj Agent
    [("name", VStr agent_name); ("role", VStr agent_role);
     ("model", VObj OpenAIChat [("id", VStr model); ("api_key", api_key)]);
     ("tools", VList tools);
     ("instructions", VList (instruction_lines instructions));
     ("show_tool_calls", VBool show_tool_calls);
     ("markdown", VBool use_markdown);
     ("temperature", VFloat temperature)].

Definition form_agent_data (agent : pyval) (agent_name agent_role : string)
  (selected_tools : list string) (instructions model : string)
  (show_tool_calls use_markdown : bool) (temperature : float) : pyval :=
  VDict [("name", VStr agent_name); ("role", VStr agent_role);
         ("agent", agent); ("tools", VList (map VStr selected_tools));
         ("instructions", VList (instruction_lines instructions));
         ("model", VStr model); ("temperature", VFloat temperature);
         ("show_tool_calls", VBool show_tool_calls);
         ("markdown", VBool use_markdown)].

(** The two messages of the chat history. *)
Definition user_message (user_input : string) : pyval :=
  VDict [("role", VStr "user"); ("content", VStr user_input); ("agent", VStr "You")].

Definition assistant_message (response selected_entity : pyval) : pyval :=
  VDict [("role", VStr "assistant"); ("content", response);
         ("agent", selected_entity)].

(** What follows the white-space character that [s] starts with, when
    it starts with one. *)
Definition drop_space (s : string) : option string :=
  match s with
  | EmptyString => None
  | String c s1 =>
      if is_space c then Some s1 else
      match s1 with
      | EmptyString => None
      | String d s2 =>
          if is_space2 c d then Some s2 else
          match s2 with
          | EmptyString => None
          | String e s3 => if is_space3 c d e then Some s3 else None
          end
      end
  end.

(** The two worlds have the same files, and session states that give
    the same document. *)
Definition same_store {pkg : Packages} (w w' : world) : Prop :=
  saved_document (session w) = saved_document (session w')
  /\ files w = files w'.

(** The file holds the document of the session state. *)
Definition in_sync {pkg : Packages} (w : world) : Prop :=
  exists data,
    saved_document (session w) = Ok data
    /\ json_file (files w) = Some (fst (json_dump data)).

(** A statement that leaves the store as it is; one that ends with a
    [save_data] of some session state; one that does the one or the
    other. *)
Definition quiet {pkg : Packages} {A} (m : M A) : Prop :=
  forall w, same_store (snd (m w)) w.

Definition saves {pkg : Packages} {A} (m : M A) : Prop :=
  forall w, exists s, same_store (snd (m w)) (snd (save_data (with_session s w))).

Definition saving {pkg : Packages} {A} (m : M A) : Prop :=
  forall w,
    same_store (snd (m w)) w
    \/ exists s, same_store (snd (m w)) (snd (save_data (with_session s w))).

(** ** More sample data *)

(** The record of a custom tool as an older version of the script wrote
    it, without [param_required]. *)
Definition old_tool_dict : dict :=
  [("name", VStr "double"); ("description", VStr "Doubles a number");
   ("param_name", VStr "x"); ("param_type", VStr "number");
   ("param_description", VStr "The number");
   ("function_code", VStr "result = x * 2")].

(** A running session with no key, and a document with one agent and no
    key. *)
Definition keyless : pyval :=
  stored [agent_record "Calc" []] [] [] (VStr "").

(** The dictionary of a document with two agents, a team of both and a
    custom tool. *)
Definition full_dict : dict :=
  [("agents", VList [agent_record "Calc" ["double"];
                     agent_record "Search" ["Web Search"]]);
   ("teams", VList [team_record "Both" ["Calc"; "Search"]]);
   ("custom_tools", VList [double_tool]);
   ("api_key", VStr "sk-test")].

(** Two agents and a team that bears the name of the first. *)
Definition namesake : @world sample_packages :=
  restored (stored [agent_record "Calc" []; agent_record "Search" []]
                   [team_record "Calc" ["Calc"; "Search"]] [] (VStr "sk-test")).

(** The entities of the chat tab in a world, or none when listing them
    raises. *)
Definition entities_in (w : @world sample_packages) : list pyval :=
  match all_entities (session w) with
  | Ok entities => entities
  | Raise _ => []
  end.

(** An agent that answers [pong], and one that is out of reach. *)
Definition sample_run (obj : pyval) (user_input : string) (stream : bool)
  : result pyval :=
  Ok (VStr "pong").

(** The three built-in tools. *)
Definition sample_builtin : table :=
  [(VStr "Web Search", VObj SearchSummaryTool []);
   (VStr "Web Scraper", VObj WebScraperTool []);
   (VStr "Calculator", VObj CalculatorTool [])].

(** Three lines, the second one blank; the first starts with a no-break
    space (U+00A0) and the last ends with an ideographic space
    (U+3000). *)
Definition three_lines : string :=
  (String "194" (String "160" "  Be brief  ")
   ++ String "010" ("   " ++ String "010" " Cite sources"
                           ++ String "227" (String "128" (String "128" ""))))%string.

(** A running session with a key, an empty workspace and the file that
    [save_data] writes for it. *)
Definition saved_blank : @world sample_packages :=
  snd (@save_data sample_packages blank).

(** Two agents, the second one being edited. *)
Definition editing_second : @world sample_packages :=
  snd (@edit_agent sample_packages 1 two_agents).

(** * Properties *)

(** ** [PowerShellTool.execute] *)

(** C10.  Whatever the command, when the subprocess has run,
    [PowerShellTool.execute] returns its captured standard output if that
    is not empty and its captured standard error otherwise; the exit
    status plays no part: a process that ended with any other status and
    the same two streams gives the same answer, and never a failure. *)
Theorem powershell_execute_output :
  forall (run : list string -> result CompletedProcess) (command : string)
         (p : CompletedProcess),
    run ["powershell"; "-Command"; command] = Ok p ->
    PowerShellTool_execute run command
    = Ok (if String.eqb (stdout p) "" then stderr p else stdout p)
    /\ forall status : Z,
        PowerShellTool_execute
          (fun _ => Ok (Completed status (stdout p) (stderr p))) command
        = PowerShellTool_execute run command.
Proof.
  intros run command p Hrun.
  unfold PowerShellTool_execute.
  rewrite Hrun. cbn [rbind stdout stderr py_truthy].
  split.
  - destruct (String.eqb (stdout p) ""); reflexivity.
  - intros status. reflexivity.
Qed.

(** A command that fails with status 1 and writes only to its standard
    error. *)
Lemma powershell_execute_output_witness :
  PowerShellTool_execute
    (fun _ => Ok (Completed 1 "" "The term 'foo' is not recognized")) "foo"
  = Ok "The term 'foo' is not recognized".
Proof.
  exact (proj1 (powershell_execute_output
                  (fun _ => Ok (Completed 1 "" "The term 'foo' is not recognized"))
                  "foo" _ eq_refl)).
Defined.

(** ** [DynamicTool.execute] *)




Section Facts.

Context {pkg : Packages}.

(** ** [save_data] *)

(** C8.  When [save_data] meets an I/O error while it writes the file,
    it does not raise: it returns [False], shows one error message with
    the text of the error, and leaves the session state as it was. *)
Theorem save_data_io_error :
  forall (w : world) (data : pyval) (msg : string),
    saved_document (session w) = Ok data ->
    io_error (files w) = Some msg ->
    exists w',
      save_data w = (Ok (VBool false), w')
      /\ session w' = session w
      /\ shown w' = shown w ++ [Message st_error [Text ("Error saving data: " ++ msg)]].
Proof.
  intros w data msg Hdata Hio.
  unfold save_data, try_except, bind, get_session, lift, write_json.
  rewrite Hdata. unfold io_error in Hio.
  destruct (open_write_fails (files w)) as [m |].
  - injection Hio as ->. cbn. eexists. repeat split.
  - destruct (write_fails (files w)) as [[partial m] |]; [| discriminate].
    injection Hio as ->. cbn. eexists. repeat split.
Qed.

(** ** Records *)

Lemma py_getitem_lookup :
  forall d k v, lookup k d = Some v -> py_getitem (VDict d) k = Ok v.
Proof. intros d k v H. unfold py_getitem. now rewrite H. Qed.

Lemma py_get_field :
  forall d k default, py_get (VDict d) k default = Ok (field d k default).
Proof. intros d k default. unfold py_get, field. now destruct (lookup k d). Qed.

(** ** Resolution of tool names *)

Lemma py_eq_VStr_l : forall s v, py_eq (VStr s) v = true -> v = VStr s.
Proof.
  intros s v H. destruct v; simpl in H; try discriminate.
  apply String.eqb_eq in H. now subst.
Qed.

Lemma py_eq_VStr_r : forall s v, py_eq v (VStr s) = true -> v = VStr s.
Proof.
  intros s v H. destruct v; simpl in H; try discriminate.
  apply String.eqb_eq in H. now subst.
Qed.

Lemma py_eq_VStr_refl : forall s, py_eq (VStr s) (VStr s) = true.
Proof. intros s. simpl. apply String.eqb_refl. Qed.

Lemma py_same_VStr_l : forall s v, py_same (VStr s) v = py_eq (VStr s) v.
Proof. reflexivity. Qed.

Lemma py_same_VStr_r : forall s v, py_same v (VStr s) = py_eq v (VStr s).
Proof. intros s v. unfold py_same. cbn [is_nan]. now rewrite andb_false_r. Qed.

Lemma table_lookup_set_same :
  forall q v t, table_lookup (VStr q) (table_set (VStr q) v t) = Some v.
Proof.
  intros q v t. induction t as [| [k' v'] t IH].
  - cbn [table_set table_lookup]. now rewrite py_same_VStr_l, py_eq_VStr_refl.
  - cbn [table_set]. destruct (py_same (VStr q) k') eqn:E;
      cbn [table_lookup]; rewrite E; [reflexivity | exact IH].
Qed.

Lemma table_lookup_set_other :
  forall q n v t,
    n <> VStr q ->
    table_lookup (VStr q) (table_set n v t) = table_lookup (VStr q) t.
Proof.
  intros q n v t Hn. induction t as [| [k' v'] t IH].
  - cbn [table_set table_lookup]. rewrite py_same_VStr_l.
    destruct (py_eq (VStr q) n) eqn:E; [| reflexivity].
    apply py_eq_VStr_l in E. congruence.
  - cbn [table_set]. destruct (py_same n k') eqn:E; cbn [table_lookup].
    + rewrite py_same_VStr_l.
      destruct (py_eq (VStr q) k') eqn:E'; [| reflexivity].
      apply py_eq_VStr_l in E'. subst k'.
      rewrite py_same_VStr_r in E. apply py_eq_VStr_r in E. congruence.
    + rewrite IH. reflexivity.
Qed.

Lemma tool_named_spec :
  forall name c n,
    py_getitem c "name" = Ok n ->
    tool_named name c = true <-> n = VStr name.
Proof.
  intros name c n Hn. unfold tool_named. rewrite Hn. split.
  - destruct n; try discriminate. intros H.
    apply String.eqb_eq in H. now subst.
  - intros ->. apply String.eqb_refl.
Qed.

(** What a name resolves to once the custom tools are added: the tool
    object of the last custom tool of that name, and what the table held
    before when there is none. *)
Lemma add_custom_tools_lookup :
  forall name custom t0 available_tools,
    add_custom_tools custom t0 = Ok available_tools ->
    table_lookup (VStr name) available_tools
    = match last_named name custom with
      | Some r =>
          match py_getitem r "tool_obj" with
          | Ok tool => Some tool
          | Raise _ => None
          end
      | None => table_lookup (VStr name) t0
      end.
Proof.
  intros name custom. induction custom as [| c rest IH]; intros t0 avail H.
  - cbn in H. injection H as <-. reflexivity.
  - cbn [add_custom_tools] in H.
    destruct (py_getitem c "tool_obj") as [tool |] eqn:Htool; [| discriminate].
    destruct (py_getitem c "name") as [n |] eqn:Hname; [| discriminate].
    cbn [rbind] in H. unfold table_setitem in H.
    destruct (py_hashable n); [| discriminate].
    cbn [rbind] in H. rewrite (IH _ _ H). cbn [last_named].
    destruct (last_named name rest) as [r |]; [reflexivity |].
    destruct (tool_named name c) eqn:E.
    + apply (tool_named_spec name c n Hname) in E. subst n.
      rewrite Htool. apply table_lookup_set_same.
    + apply table_lookup_set_other. intros ->.
      assert (tool_named name c = true) by now apply (tool_named_spec name c _ Hname).
      congruence.
Qed.

Lemma select_tools_strings :
  forall available_tools names,
    select_tools available_tools (map VStr names)
    = Ok (resolved_tools available_tools names).
Proof.
  intros avail names. unfold resolved_tools.
  induction names as [| n names IH]; [reflexivity |].
  cbn [map select_tools filter]. unfold table_contains, table_getitem, known, tool_of.
  cbn [py_hashable rbind].
  destruct (table_lookup (VStr n) avail) as [tool |] eqn:E.
  - cbn [rbind]. rewrite IH. cbn [rbind map].
    unfold tool_of at 1. rewrite E. reflexivity.
  - exact IH.
Qed.

(** Names that do not resolve count for nothing in the tools of an
    agent. *)
Lemma unknown_names_are_ignored :
  forall available_tools names,
    resolved_tools available_tools (filter (known available_tools) names)
    = resolved_tools available_tools names.
Proof.
  intros avail names. unfold resolved_tools. f_equal.
  induction names as [| n names IH]; [reflexivity |].
  cbn [filter]. destruct (known avail n) eqn:E; [| exact IH].
  cbn [filter]. rewrite E, IH. reflexivity.
Qed.


(** C6.  An agent record that has a name, a role, instructions and a
    list of tool names is re-created whatever names of the list fail to
    resolve: when the constructors accept their arguments,
    [recreate_agent_from_config] returns the agent built with the tools
    of exactly the names that resolve, in the order of the list, and the
    other names leave no trace, neither a message nor an exception. *)
Theorem dangling_tool_names_dropped :
  forall (w : world) (d : dict) (api_key : pyval) (builtins available_tools : table)
         (names : list string) (name role instructions : pyval),
    builtin_tools = Ok builtins ->
    add_custom_tools (custom_tools (session w)) builtins = Ok available_tools ->
    lookup "tools" d = Some (VList (map VStr names)) ->
    lookup "name" d = Some name ->
    lookup "role" d = Some role ->
    lookup "instructions" d = Some instructions ->
    let model := [("id", field d "model" (VStr "gpt-4")); ("api_key", api_key)] in
    let kwargs :=
      [("name", name); ("role", role); ("model", VObj OpenAIChat model);
       ("tools", VList (resolved_tools available_tools names));
       ("instructions", instructions);
       ("show_tool_calls", field d "show_tool_calls" (VBool true));
       ("markdown", field d "markdown" (VBool true));
       ("temperature", field d "temperature" (VFloat 0.7))] in
    lib_init OpenAIChat model = None ->
    lib_init Agent kwargs = None ->
    recreate_agent_from_config (VDict d) api_key w = (Ok (VObj Agent kwargs), w).
Proof.
  intros w d key b avail names name role instructions Hb Hadd Htools Hname Hrole
         Hinstr model kwargs Hmodel Hagent.
  unfold recreate_agent_from_config, try_except, bind, get_session, lift.
  unfold build_agent. rewrite Hb. cbn [rbind]. rewrite Hadd. cbn [rbind].
  rewrite !py_get_field.
  rewrite (py_getitem_lookup _ _ _ Htools), (py_getitem_lookup _ _ _ Hname),
    (py_getitem_lookup _ _ _ Hrole), (py_getitem_lookup _ _ _ Hinstr).
  cbn [rbind py_iter]. rewrite select_tools_strings. cbn [rbind].
  unfold construct. fold model. rewrite Hmodel. cbn [rbind].
  fold kwargs. rewrite Hagent. reflexivity.
Qed.

(** ** Statements that do not write *)

Lemma keeps_files_ret : forall A (a : A), keeps_files (ret a).
Proof. intros A a w. reflexivity. Qed.

Lemma keeps_files_lift : forall A (r : result A), keeps_files (lift r).
Proof. intros A r w. reflexivity. Qed.

Lemma keeps_files_get_session : keeps_files get_session.
Proof. intros w. reflexivity. Qed.

Lemma keeps_files_getenv : keeps_files getenv_api_key.
Proof. intros w. reflexivity. Qed.

Lemma keeps_files_modify : forall f, keeps_files (modify_session f).
Proof. intros f w. reflexivity. Qed.

Lemma keeps_files_show : forall l t, keeps_files (show l t).
Proof. intros l t w. reflexivity. Qed.

Lemma keeps_files_bind :
  forall A B (m : M A) (k : A -> M B),
    keeps_files m -> (forall a, keeps_files (k a)) -> keeps_files (bind m k).
Proof.
  intros A B m k Hm Hk w. unfold bind.
  specialize (Hm w). destruct (m w) as [[a | e] w1]; cbn [snd] in *.
  - rewrite Hk. exact Hm.
  - exact Hm.
Qed.

Lemma keeps_files_try :
  forall A (body : M A) (handler : exn -> M A),
    keeps_files body -> (forall e, keeps_files (handler e)) ->
    keeps_files (try_except body handler).
Proof.
  intros A body handler Hb Hh w. unfold try_except.
  specialize (Hb w). destruct (body w) as [[a | e] w1]; cbn [snd] in *.
  - exact Hb.
  - destruct (is_Exception e); cbn [snd]; [rewrite Hh |]; exact Hb.
Qed.

Lemma keeps_files_if :
  forall A (b : bool) (m1 m2 : M A),
    keeps_files m1 -> keeps_files m2 -> keeps_files (if b then m1 else m2).
Proof. intros A [] m1 m2 H1 H2; assumption. Qed.

Lemma keeps_files_for_each :
  forall A (l : list A) (body : A -> M unit),
    (forall x, keeps_files (body x)) -> keeps_files (for_each l body).
Proof.
  intros A l body H. induction l as [| x l IH]; cbn [for_each].
  - apply keeps_files_ret.
  - apply keeps_files_bind; [apply H | intros _; exact IH].
Qed.

Create HintDb files discriminated.
#[local] Hint Resolve keeps_files_ret keeps_files_lift keeps_files_get_session
  keeps_files_getenv keeps_files_modify keeps_files_show keeps_files_bind
  keeps_files_try keeps_files_if keeps_files_for_each : files.

Ltac keeps :=
  repeat first
    [ solve [auto with files]
    | apply keeps_files_bind; [| intro]
    | apply keeps_files_try; [| intro]
    | apply keeps_files_if
    | apply keeps_files_for_each; intro ].

Lemma keeps_files_load_data : keeps_files load_data.
Proof.
  unfold load_data. apply keeps_files_try; [| keeps].
  intros w. unfold read_with.
  destruct (json_file (files w)); [destruct (open_read_fails (files w)); reflexivity |].
  destruct (pkl_file (files w)); [destruct (open_read_fails (files w)); reflexivity |].
  reflexivity.
Qed.

Lemma keeps_files_recreate_agent :
  forall c k, keeps_files (recreate_agent_from_config c k).
Proof. intros c k. unfold recreate_agent_from_config. keeps. Qed.

Lemma keeps_files_recreate_custom_tool :
  forall c, keeps_files (recreate_custom_tool c).
Proof. intros c. unfold recreate_custom_tool. keeps. Qed.

Lemma keeps_files_restore_custom_tool :
  forall c, keeps_files (restore_custom_tool c).
Proof.
  intros c. unfold restore_custom_tool.
  apply keeps_files_bind; [apply keeps_files_recreate_custom_tool |]. keeps.
Qed.

Lemma keeps_files_restore_agent : forall c, keeps_files (restore_agent c).
Proof.
  intros c. unfold restore_agent.
  apply keeps_files_bind; [keeps |]. intros s.
  apply keeps_files_bind; [apply keeps_files_recreate_agent |]. keeps.
Qed.

Lemma keeps_files_restore_team : forall c, keeps_files (restore_team c).
Proof. intros c. unfold restore_team. keeps. Qed.

Lemma keeps_files_for_each_in :
  forall v k body, (forall x, keeps_files (body x)) ->
                   keeps_files (for_each_in v k body).
Proof. intros v k body H. unfold for_each_in. keeps. Qed.

(** Re-creating the agents, teams and tools never writes the files. *)
Lemma keeps_files_initialize : keeps_files initialize.
Proof.
  unfold initialize.
  apply keeps_files_bind; [keeps |]. intros s.
  apply keeps_files_if; [keeps |].
  apply keeps_files_bind; [keeps |]. intros key.
  apply keeps_files_bind; [keeps |]. intros _.
  apply keeps_files_bind; [apply keeps_files_load_data |]. intros saved.
  apply keeps_files_if; [| keeps].
  repeat (apply keeps_files_bind; [| intro]);
    try apply keeps_files_if;
    try apply keeps_files_for_each_in;
    auto using keeps_files_restore_custom_tool, keeps_files_restore_agent,
      keeps_files_restore_team with files.
Qed.

(** ** Teams *)

(** The members, once they are known to be there, can be read ahead of
    the agents. *)
Lemma team_agents_in_members :
  forall agents_list team_config members,
    py_getitem team_config "members" = Ok members ->
    team_agents_in agents_list team_config = team_agents_of agents_list members.
Proof.
  intros l c members Hm. induction l as [| a l IH]; [reflexivity |].
  cbn [team_agents_in team_agents_of]. rewrite Hm, IH.
  destruct (py_getitem a "name"); reflexivity.
Qed.

(** C3, amended.  A team record whose members resolve to fewer than two
    of the agents already re-created is skipped in silence: no team is
    built, no message is shown and the session state does not receive
    the record.  With two or more resolved members, a record that has a
    name and instructions is activated whenever the constructor accepts
    it, and enters the session state with its four fields and the team
    object.  In every case the stored document is left untouched. *)
Theorem team_needs_two_members :
  forall (w : world) (d : dict) (members : pyval) (team_agents : list pyval),
    lookup "members" d = Some members ->
    team_agents_of (agents (session w)) members = Ok team_agents ->
    (List.length team_agents < 2 -> restore_team (VDict d) w = (Ok tt, w))
    /\ (2 <= List.length team_agents ->
        forall name instructions : pyval,
          lookup "name" d = Some name ->
          lookup "instructions" d = Some instructions ->
          let team_obj :=
            [("name", name); ("team", VList team_agents);
             ("instructions", instructions);
             ("show_tool_calls", VBool true); ("markdown", VBool true)] in
          lib_init Agent team_obj = None ->
          restore_team (VDict d) w
          = (Ok tt,
             with_session
               (with_teams
                  (teams (session w) ++
                     [VDict [("name", name); ("members", members);
                             ("instructions", instructions);
                             ("workflow", field d "workflow" (VStr "Sequential"));
                             ("team", VObj Agent team_obj)]])
                  (session w)) w))
    /\ files (snd (restore_team (VDict d) w)) = files w.
Proof.
  intros w d members team_agents Hmem Hteam.
  split; [| split].
  - intros Hlt. unfold restore_team, bind, get_session, lift.
    rewrite (team_agents_in_members _ _ _ (py_getitem_lookup _ _ _ Hmem)), Hteam.
    destruct (Nat.leb_spec 2 (List.length team_agents)); [lia | reflexivity].
  - intros Hge name instructions Hname Hinstr team_obj Hinit.
    unfold restore_team, bind, get_session, lift.
    rewrite (team_agents_in_members _ _ _ (py_getitem_lookup _ _ _ Hmem)), Hteam.
    rewrite (py_getitem_lookup _ _ _ Hmem).
    destruct (Nat.leb_spec 2 (List.length team_agents)); [| lia].
    unfold try_except, bind, lift, modify_session.
    rewrite (py_getitem_lookup _ _ _ Hname). cbn [rbind].
    rewrite (py_getitem_lookup _ _ _ Hinstr). cbn [rbind].
    unfold construct. fold team_obj. rewrite Hinit. cbn [rbind].
    rewrite py_get_field. reflexivity.
  - apply keeps_files_restore_team.
Qed.

(** ** A document that cannot be used *)

Lemma load_data_unusable :
  forall w, unusable (files w) ->
    exists msgs,
      load_data w = (Ok VNone, World (session w) (files w) (environ_api_key w)
                                     (shown w ++ msgs)).
Proof.
  intros w H. unfold load_data, try_except, read_with, bind, show, ret.
  destruct H as [Hj Hp | c msg Hj Hr | c e Hj Hr Hl He | c msg Hj Hp Hr
                 | c e Hj Hp Hr Hl He].
  - rewrite Hj, Hp. exists []. rewrite app_nil_r. now destruct w.
  - rewrite Hj, Hr. cbn. eexists. reflexivity.
  - rewrite Hj, Hr, Hl, He. cbn. eexists. reflexivity.
  - rewrite Hj, Hp, Hr. cbn. eexists. reflexivity.
  - rewrite Hj, Hp, Hr, Hl, He. cbn. eexists. reflexivity.
Qed.

(** C2, amended.  When the stored document is absent, cannot be read or
    is malformed (the parser raises an [Exception]), the first run of
    the script does not raise and starts from an empty workspace: no
    agents, no teams, no custom tools, and the key of the environment;
    the files are left as they are.  A document that is read and parsed
    is checked by nothing: [load_data] returns it as parsed, whatever
    the types in it, and shows no message. *)
Theorem unusable_document_gives_empty_workspace :
  forall w : world,
    initialized (session w) = false ->
    (unusable (files w) ->
     exists w',
       initialize w = (Ok tt, w')
       /\ session w' = empty_workspace (environ_api_key w)
       /\ files w' = files w)
    /\ (forall (content : document) (data : pyval),
          json_file (files w) = Some content ->
          open_read_fails (files w) = None ->
          json_load content = Ok data ->
          load_data w = (Ok data, w)).
Proof.
  intros w Hinit. split.
  - intros Hbad.
    unfold initialize, bind at 1, get_session. rewrite Hinit.
    unfold bind at 1, getenv_api_key.
    unfold bind at 1, modify_session.
    set (w0 := with_session _ w).
    assert (Hbad0 : unusable (files w0)) by exact Hbad.
    destruct (load_data_unusable w0 Hbad0) as [msgs Hload].
    unfold bind at 1. rewrite Hload. cbn [py_truthy ret].
    eexists. split; [reflexivity |]. split; reflexivity.
  - intros content data Hfile Hopen Hload.
    unfold load_data, try_except, read_with. now rewrite Hfile, Hopen, Hload.
Qed.

(** ** Saving and loading *)

Lemma json_native_VList :
  forall l, json_native (VList l) = forallb json_native l.
Proof.
  induction l as [| x l IH]; [reflexivity |].
  cbn [forallb]. rewrite <- IH. reflexivity.
Qed.

Lemma map_result_Forall2 :
  forall A B (f : A -> result B) (R : A -> B -> Prop) (P : B -> Prop) l,
    Forall (fun x => exists y, f x = Ok y /\ R x y /\ P y) l ->
    exists l', map_result f l = Ok l' /\ Forall2 R l l' /\ Forall P l'.
Proof.
  intros A B f R P l H. induction H as [| x l (y & Hy & HR & HP) _ (l' & Hl' & HF & HPs)].
  - exists []. repeat split; constructor.
  - exists (y :: l'). cbn [map_result]. rewrite Hy, Hl'. cbn [rbind].
    repeat split; constructor; assumption.
Qed.

Lemma writable_field_native :
  forall d k default,
    writable_field d (k, default) = true ->
    json_native default = true ->
    json_native (field d k default) = true.
Proof.
  intros d k default H Hd. unfold writable_field, field in *. cbn [fst snd] in H.
  destruct (lookup k d); assumption.
Qed.

Lemma writable_field_getitem :
  forall d k,
    writable_field d (k, VNone) = true ->
    py_getitem (VDict d) k = Ok (field d k VNone).
Proof.
  intros d k H. unfold writable_field, field, py_getitem in *. cbn [fst snd] in H.
  destruct (lookup k d); [reflexivity | discriminate].
Qed.

Ltac fields_in H :=
  cbn [forallb] in H;
  repeat match type of H with
         | (_ && _)%bool = true => 
             let H1 := fresh "Hf" in
             apply andb_prop in H; destruct H as [H1 H]
         end.

Ltac native_fields :=
  repeat match goal with
         | H : writable_field ?d (?k, ?v) = true |- context [field ?d ?k ?v] =>
             rewrite (writable_field_native d k v H eq_refl)
         end.

Ltac pick_field :=
  match goal with
  | H : In _ _ |- _ =>
      cbn [In] in H;
      repeat (destruct H as [H | H];
              [injection H as <- <-; reflexivity |]);
      contradiction
  end.

Lemma agent_config_of_writable :
  forall r, writable agent_fields r = true ->
    exists c, agent_config_of r = Ok c
              /\ same_fields agent_fields r c /\ json_native c = true.
Proof.
  intros [ | | | | | | d | ] H; try discriminate.
  unfold writable, agent_fields in H. fields_in H.
  eexists. split; [| split].
  - unfold agent_config_of.
    rewrite !py_get_field.
    repeat match goal with
           | Hk : writable_field d (?k, VNone) = true |- _ =>
               rewrite (writable_field_getitem d k Hk); clear Hk
           end.
    cbn [rbind]. reflexivity.
  - exists d. eexists. split; [reflexivity |]. split; [reflexivity |].
    split; [reflexivity |]. intros k default Hin. unfold agent_fields in Hin.
    pick_field.
  - cbn [json_native keys map fst distinct existsb]. native_fields. reflexivity.
Qed.

Lemma team_config_of_writable :
  forall r, writable team_fields r = true ->
    exists c, team_config_of r = Ok c
              /\ same_fields team_fields r c /\ json_native c = true.
Proof.
  intros [ | | | | | | d | ] H; try discriminate.
  unfold writable, team_fields in H. fields_in H.
  eexists. split; [| split].
  - unfold team_config_of.
    rewrite !py_get_field.
    repeat match goal with
           | Hk : writable_field d (?k, VNone) = true |- _ =>
               rewrite (writable_field_getitem d k Hk); clear Hk
           end.
    cbn [rbind]. reflexivity.
  - exists d. eexists. split; [reflexivity |]. split; [reflexivity |].
    split; [reflexivity |]. intros k default Hin. unfold team_fields in Hin.
    pick_field.
  - cbn [json_native keys map fst distinct existsb]. native_fields. reflexivity.
Qed.

Lemma custom_tool_config_of_writable :
  forall r, writable custom_tool_fields r = true ->
    exists c, custom_tool_config_of r = Ok c
              /\ same_fields custom_tool_fields r c /\ json_native c = true.
Proof.
  intros [ | | | | | | d | ] H; try discriminate.
  unfold writable, custom_tool_fields in H. fields_in H.
  eexists. split; [| split].
  - unfold custom_tool_config_of.
    repeat match goal with
           | Hk : writable_field d (?k, VNone) = true |- _ =>
               rewrite (writable_field_getitem d k Hk); clear Hk
           end.
    cbn [rbind]. reflexivity.
  - exists d. eexists. split; [reflexivity |]. split; [reflexivity |].
    split; [reflexivity |]. intros k default Hin. unfold custom_tool_fields in Hin.
    pick_field.
  - cbn [json_native keys map fst distinct existsb]. native_fields. reflexivity.
Qed.

Lemma writable_records :
  forall fields f l,
    (forall r, writable fields r = true ->
       exists c, f r = Ok c /\ same_fields fields r c /\ json_native c = true) ->
    forallb (writable fields) l = true ->
    exists l', map_result f l = Ok l'
               /\ Forall2 (same_fields fields) l l'
               /\ json_native (VList l') = true.
Proof.
  intros fields f l Hf Hl.
  destruct (map_result_Forall2 _ _ f (same_fields fields)
              (fun c => json_native c = true) l) as (l' & Hmap & HF & HP).
  - apply Forall_forall. intros r Hr. apply Hf.
    rewrite forallb_forall in Hl. now apply Hl.
  - exists l'. repeat split; try assumption.
    rewrite json_native_VList. apply forallb_forall.
    now apply Forall_forall.
Qed.

(** C1.  Let the session state hold any agents, teams and custom tools
    that have the fields [save_data] writes, with JSON values in them,
    and any JSON value as the key.  If the files can be written and read
    and [json.load] reads back what [json.dump] writes, then [save_data]
    succeeds, and [load_data] afterwards returns a document with the same
    key and one dictionary per record, in the same order, that has
    exactly the written fields, each equal to the value it has in the
    record (lists of tools, instructions and members are such values, so
    they come back element for element). *)
Theorem save_then_load :
  forall w : world,
    json_faithful ->
    io_error (files w) = None ->
    open_read_fails (files w) = None ->
    forallb (writable agent_fields) (agents (session w)) = true ->
    forallb (writable team_fields) (teams (session w)) = true ->
    forallb (writable custom_tool_fields) (custom_tools (session w)) = true ->
    json_native (api_key (session w)) = true ->
    exists (w1 : world) (agents_config teams_config custom_tools_config : list pyval),
      save_data w = (Ok (VBool true), w1)
      /\ load_data w1
         = (Ok (VDict [("agents", VList agents_config);
                       ("teams", VList teams_config);
                       ("custom_tools", VList custom_tools_config);
                       ("api_key", api_key (session w))]), w1)
      /\ Forall2 (same_fields agent_fields) (agents (session w)) agents_config
      /\ Forall2 (same_fields team_fields) (teams (session w)) teams_config
      /\ Forall2 (same_fields custom_tool_fields) (custom_tools (session w))
                 custom_tools_config.
Proof.
  intros w Hjson Hio Hread Ha Ht Hc Hk.
  destruct (writable_records _ _ _ agent_config_of_writable Ha) as (la & Ea & Fa & Na).
  destruct (writable_records _ _ _ team_config_of_writable Ht) as (lt & Et & Ft & Nt).
  destruct (writable_records _ _ _ custom_tool_config_of_writable Hc)
    as (lc & Ec & Fc & Nc).
  set (data := VDict [("agents", VList la); ("teams", VList lt);
                      ("custom_tools", VList lc);
                      ("api_key", api_key (session w))]).
  assert (Hdata : saved_document (session w) = Ok data).
  { unfold saved_document. rewrite Ea, Et, Ec. reflexivity. }
  assert (Hnative : json_native data = true).
  { unfold data. cbn [json_native keys map fst distinct existsb] in *.
    rewrite Na, Nt, Nc, Hk. reflexivity. }
  destruct (Hjson data Hnative) as (text & Hdump & Hload).
  unfold io_error in Hio.
  destruct (open_write_fails (files w)) eqn:Hopen; [discriminate |].
  destruct (write_fails (files w)) as [[? ?] |] eqn:Hwrite; [discriminate |].
  exists (with_files (with_json_file (Some text) (files w)) w), la, lt, lc.
  split; [| split; [| repeat split; assumption]].
  - unfold save_data, try_except, bind, get_session, lift, write_json, ret.
    rewrite Hdata, Hopen, Hwrite, Hdump. reflexivity.
  - unfold load_data, try_except, read_with.
    cbn [files with_files json_file with_json_file open_read_fails].
    rewrite Hread, Hload. reflexivity.
Qed.

(** ** Names *)

(** [save_data] reads the session state and does not change it. *)
Lemma save_data_session : forall w, session (snd (save_data w)) = session w.
Proof.
  intros w. unfold save_data, try_except, bind, get_session, lift, write_json, show, ret.
  destruct (saved_document (session w)) as [data | e]; cbn.
  - destruct (open_write_fails (files w)); cbn.
    + reflexivity.
    + destruct (write_fails (files w)) as [[? ?] |]; cbn; [reflexivity |].
      destruct (json_dump data) as [text [e |]]; cbn; [| reflexivity].
      destruct (is_Exception e); reflexivity.
  - destruct (is_Exception e); reflexivity.
Qed.

Lemma names_app : forall l r, names (l ++ [r]) = names l ++ [name_of r].
Proof. intros. unfold names. now rewrite map_app. Qed.

Lemma NoDup_names_app :
  forall l r, NoDup (names l) -> ~ In (name_of r) (names l) -> NoDup (names (l ++ [r])).
Proof.
  intros l r Hl Hr. rewrite names_app. apply NoDup_app; [assumption | |].
  - constructor; [intros [] | constructor].
  - intros a Ha [<- | []]. contradiction.
Qed.

Lemma In_names_remove_nth :
  forall n l x, In x (names (remove_nth n l)) -> In x (names l).
Proof.
  induction n as [| n IH]; intros [| y l] x H; cbn in *; auto.
  destruct H as [H | H]; [left; assumption | right; eauto].
Qed.

Lemma NoDup_names_remove_nth :
  forall n l, NoDup (names l) -> NoDup (names (remove_nth n l)).
Proof.
  induction n as [| n IH]; intros [| y l] H; cbn in *; auto.
  - now inversion H.
  - inversion H; subst. constructor; [| auto].
    intros Hin. apply In_names_remove_nth in Hin. contradiction.
Qed.

Lemma NoDup_names_replace_nth :
  forall n l r,
    NoDup (names l) -> ~ In (name_of r) (names (remove_nth n l)) ->
    NoDup (names (replace_nth n r l)).
Proof.
  induction n as [| n IH]; intros [| y l] r H Hr; cbn in *; auto.
  - inversion H; subst. constructor; assumption.
  - inversion H; subst. constructor.
    + intros Hin. 
      assert (In (name_of y) (names (replace_nth n r l)) -> name_of y = name_of r \/ In (name_of y) (names l)).
      { clear. revert l. induction n; intros [| z l] Hx; cbn in *; auto.
        - destruct Hx; auto.
        - destruct Hx as [Hx | Hx]; auto. destruct (IHn _ Hx); auto. }
      destruct (H0 Hin) as [E | E]; [| contradiction].
      apply Hr. left. assumption.
    + apply IH; [assumption |]. intros Hin. apply Hr. right. assumption.
Qed.


Lemma keeps_session_show : forall l t, keeps_session (show l t).
Proof. intros l t w. reflexivity. Qed.

Lemma keeps_session_ret : forall A (a : A), keeps_session (ret a).
Proof. intros A a w. reflexivity. Qed.

Lemma keeps_session_bind :
  forall A B (m : M A) (k : A -> M B),
    keeps_session m -> (forall a, keeps_session (k a)) -> keeps_session (bind m k).
Proof.
  intros A B m k Hm Hk w. unfold bind.
  specialize (Hm w). destruct (m w) as [[a | e] w1]; cbn [snd] in *.
  - rewrite Hk. exact Hm.
  - exact Hm.
Qed.

Lemma keeps_session_save_data : keeps_session save_data.
Proof. exact save_data_session. Qed.

Lemma keeps_session_saved :
  forall A (k : M A), keeps_session k -> keeps_session (bind save_data (fun _ => k)).
Proof.
  intros A k Hk. apply keeps_session_bind; [apply keeps_session_save_data | intros _; exact Hk].
Qed.

Lemma session_try :
  forall A (body : M A) handler w,
    (forall e, keeps_session (handler e)) ->
    session (snd (try_except body handler w)) = session (snd (body w)).
Proof.
  intros A body handler w H. unfold try_except.
  destruct (body w) as [[a | e] w1]; cbn [snd]; [reflexivity |].
  destruct (is_Exception e); [apply H | reflexivity].
Qed.

Lemma session_lift :
  forall A B (r : result A) (k : A -> M B) w,
    session (snd (bind (lift r) k w))
    = match r with
      | Ok a => session (snd (k a w))
      | Raise _ => session w
      end.
Proof. intros A B [a | e] k w; reflexivity. Qed.

Lemma session_get :
  forall B (k : session_state -> M B) w,
    session (snd (bind get_session k w)) = session (snd (k (session w) w)).
Proof. reflexivity. Qed.

Lemma session_modify :
  forall B f (k : M B) w,
    keeps_session k ->
    session (snd (bind (modify_session f) (fun _ => k) w)) = f (session w).
Proof. intros B f k w H. unfold bind, modify_session. rewrite H. reflexivity. Qed.

Lemma session_modify_then :
  forall B f (k : M B) w,
    session (snd (bind (modify_session f) (fun _ => k) w))
    = session (snd (k (with_session (f (session w)) w))).
Proof. reflexivity. Qed.

Lemma submit_agent_unique :
  forall n r ts i m stc md t w,
    unique_names (session w) ->
    fresh (SubmitAgent n r ts i m stc md t) (session w) ->
    unique_names (session (snd (submit_agent n r ts i m stc md t w))).
Proof.
  intros n r ts i m stc md t w Hu Hf.
  unfold submit_agent. rewrite session_get, session_lift.
  match goal with |- context [match ?x with Ok _ => _ | Raise _ => _ end] =>
    destruct x as [available_tools | e] end; [| exact Hu].
  destruct (negb (py_truthy (api_key (session w)))); [exact Hu |].
  destruct (negb (py_truthy (VStr n))); [exact Hu |].
  rewrite session_lift.
  destruct (get_tools available_tools ts) as [tools | e]; [| exact Hu].
  rewrite session_try by (intro; apply keeps_session_show).
  rewrite session_lift.
  destruct (construct OpenAIChat _) as [chat | e]; [| exact Hu].
  rewrite session_lift.
  destruct (construct Agent _) as [agent | e]; [| exact Hu].
  rewrite session_get. cbn [fresh] in Hf.
  destruct (py_truthy (editing_agent (session w))).
  - rewrite session_lift. unfold edited_index in Hf.
    destruct (py_getitem (editing_agent (session w)) "index") as [idx | e]; [| exact Hu].
    rewrite session_lift. unfold list_setitem.
    destruct (index_of idx) as [z |]; [| exact Hu].
    destruct (list_index _ z) as [k |]; [| exact Hu].
    rewrite session_modify_then.
    rewrite session_modify by (apply keeps_session_saved, keeps_session_show).
    destruct Hu as (Ha & Ht & Hc). repeat split; try assumption.
    cbn. apply NoDup_names_replace_nth; assumption.
  - rewrite session_modify by (apply keeps_session_saved, keeps_session_show).
    destruct Hu as (Ha & Ht & Hc). repeat split; try assumption.
    cbn. apply NoDup_names_app; assumption.
Qed.

Ltac saved := first [ apply keeps_session_saved, keeps_session_show
                    | apply keeps_session_saved, keeps_session_ret ].

Lemma set_api_key_unique :
  forall key w, unique_names (session w) ->
                unique_names (session (snd (set_api_key key w))).
Proof.
  intros key w Hu. unfold set_api_key. rewrite session_get.
  destruct (py_eq (VStr key) (api_key (session w))); [exact Hu |].
  rewrite session_modify by saved. exact Hu.
Qed.

Lemma list_pop_unique :
  forall l i, NoDup (names l) ->
    match list_pop l i with
    | Ok rest => NoDup (names rest)
    | Raise _ => True
    end.
Proof.
  intros l i H. unfold list_pop.
  destruct (list_index (List.length l) i); [| exact I].
  now apply NoDup_names_remove_nth.
Qed.

Lemma delete_agent_unique :
  forall idx w, unique_names (session w) ->
                unique_names (session (snd (delete_agent idx w))).
Proof.
  intros idx w Hu. unfold delete_agent. rewrite session_get, session_lift.
  pose proof (list_pop_unique (agents (session w)) (Z.of_nat idx) (proj1 Hu)) as H.
  destruct (list_pop _ _) as [rest | e]; [| exact Hu].
  rewrite session_modify by saved.
  destruct Hu as (Ha & Ht & Hc). repeat split; assumption.
Qed.

Lemma delete_team_unique :
  forall idx w, unique_names (session w) ->
                unique_names (session (snd (delete_team idx w))).
Proof.
  intros idx w Hu. unfold delete_team. rewrite session_get, session_lift.
  pose proof (list_pop_unique (teams (session w)) (Z.of_nat idx)
                (proj1 (proj2 Hu))) as H.
  destruct (list_pop _ _) as [rest | e]; [| exact Hu].
  rewrite session_modify by saved.
  destruct Hu as (Ha & Ht & Hc). repeat split; assumption.
Qed.

Lemma delete_custom_tool_unique :
  forall idx w, unique_names (session w) ->
                unique_names (session (snd (delete_custom_tool idx w))).
Proof.
  intros idx w Hu. unfold delete_custom_tool. rewrite session_get, session_lift.
  pose proof (list_pop_unique (custom_tools (session w)) (Z.of_nat idx)
                (proj2 (proj2 Hu))) as H.
  destruct (list_pop _ _) as [rest | e]; [| exact Hu].
  rewrite session_modify by saved.
  destruct Hu as (Ha & Ht & Hc). repeat split; assumption.
Qed.

Lemma create_team_unique :
  forall n ms i wf w,
    unique_names (session w) ->
    fresh (CreateTeam n ms i wf) (session w) ->
    unique_names (session (snd (create_team n ms i wf w))).
Proof.
  intros n ms i wf w Hu Hf. unfold create_team. rewrite session_get.
  destruct (Nat.ltb _ 2); [exact Hu |].
  destruct (negb (py_truthy (VStr n))); [exact Hu |].
  destruct (Nat.ltb _ 2); [exact Hu |].
  rewrite session_lift.
  destruct (team_agents_of _ _) as [team_agents | e]; [| exact Hu].
  rewrite session_try by (intro; apply keeps_session_show).
  rewrite session_lift.
  destruct (construct Agent _) as [team | e]; [| exact Hu].
  rewrite session_modify by saved.
  destruct Hu as (Ha & Ht & Hc). repeat split; try assumption.
  cbn. apply NoDup_names_app; assumption.
Qed.

Lemma create_custom_tool_unique :
  forall n d pn pt pd pr code w,
    unique_names (session w) ->
    fresh (CreateCustomTool n d pn pt pd pr code) (session w) ->
    unique_names (session (snd (create_custom_tool n d pn pt pd pr code w))).
Proof.
  intros n d pn pt pd pr code w Hu Hf. unfold create_custom_tool.
  match goal with |- context [if ?b then _ else _] => destruct b end; [exact Hu |].
  rewrite session_try by (intro; apply keeps_session_show).
  rewrite session_lift.
  destruct (lib_init DynamicTool _); [exact Hu |].
  rewrite session_modify by saved.
  destruct Hu as (Ha & Ht & Hc). repeat split; try assumption.
  cbn. apply NoDup_names_app; assumption.
Qed.

Lemma edit_agent_unique :
  forall idx w, unique_names (session w) ->
                unique_names (session (snd (edit_agent idx w))).
Proof.
  intros idx w Hu. unfold edit_agent. rewrite session_get.
  destruct (nth_error (agents (session w)) idx) as [[ | | | | | | d | ] |];
    exact Hu.
Qed.

Lemma clear_all_data_unique :
  forall confirm w,
    unique_names (session w) ->
    unique_names (session (snd (clear_all_data confirm w))).
Proof.
  intros confirm w Hu. unfold clear_all_data. destruct confirm; [| exact Hu].
  rewrite session_modify by saved. repeat split; constructor.
Qed.

Lemma run_action_unique :
  forall a w,
    unique_names (session w) -> fresh a (session w) ->
    unique_names (session (snd (run_action a w))).
Proof.
  intros a w Hu Hf. destruct a; cbn [run_action].
  - now apply set_api_key_unique.
  - rewrite keeps_session_saved by apply keeps_session_show. exact Hu.
  - now apply submit_agent_unique.
  - now apply edit_agent_unique.
  - exact Hu.
  - now apply delete_agent_unique.
  - now apply create_team_unique.
  - now apply delete_team_unique.
  - now apply create_custom_tool_unique.
  - now apply delete_custom_tool_unique.
  - now apply clear_all_data_unique.
Qed.

(** C4, amended.  The script never checks that a name is new, so names
    stay unique only as far as the user keeps them so: if no two agents,
    no two teams and no two custom tools have the same name, and every
    create or update of a series of actions gives a name that no other
    record of the collection bears at that moment, then names are unique
    after the series.  Deleting, editing, saving and changing the key
    ask for nothing. *)
Theorem names_stay_unique :
  forall (l : list action) (w : world),
    unique_names (session w) ->
    all_fresh l w ->
    unique_names (session (run_actions l w)).
Proof.
  induction l as [| a l IH]; intros w Hu Hf; cbn [run_actions].
  - exact Hu.
  - destruct Hf as [Ha Hl]. apply IH; [| exact Hl].
    now apply run_action_unique.
Qed.

(** ** The failure of one record *)

Lemma catchable_Ok : forall A (a : A), catchable (Ok a).
Proof. intros A a e H. discriminate. Qed.

Lemma catchable_rbind :
  forall A B (r : result A) (k : A -> result B),
    catchable r -> (forall a, catchable (k a)) -> catchable (rbind r k).
Proof.
  intros A B [a | e] k Hr Hk e' H; cbn in H.
  - now apply (Hk a).
  - injection H as <-. now apply Hr.
Qed.

Lemma catchable_getitem : forall v k, catchable (py_getitem v k).
Proof.
  intros v k e H. destruct v; cbn in H; try (injection H as <-; reflexivity).
  destruct (lookup k d); [discriminate | injection H as <-; reflexivity].
Qed.

Lemma catchable_get : forall v k d, catchable (py_get v k d).
Proof.
  intros v k d e H. destruct v; cbn in H; try (injection H as <-; reflexivity).
  destruct (lookup k d0); discriminate.
Qed.

Lemma catchable_iter : forall v, catchable (py_iter v).
Proof.
  intros v e H. destruct v; cbn in H; try discriminate;
    injection H as <-; reflexivity.
Qed.

Lemma catchable_table_setitem : forall k v t, catchable (table_setitem k v t).
Proof.
  intros k v t e H. unfold table_setitem in H.
  destruct (py_hashable k); [discriminate | injection H as <-; reflexivity].
Qed.

Lemma catchable_table_contains : forall k t, catchable (table_contains k t).
Proof.
  intros k t e H. unfold table_contains in H.
  destruct (py_hashable k); [discriminate | injection H as <-; reflexivity].
Qed.

Lemma catchable_table_getitem : forall k t, catchable (table_getitem k t).
Proof.
  intros k t e H. unfold table_getitem in H.
  destruct (py_hashable k); [| injection H as <-; reflexivity].
  destruct (table_lookup k t); [discriminate | injection H as <-; reflexivity].
Qed.

Section Isolation.

(** The constructors of [agentapps] raise instances of [Exception]. *)
Hypothesis constructors_raise_Exceptions :
  forall cls kwargs e, lib_init cls kwargs = Some e -> is_Exception e = true.

Lemma catchable_construct : forall cls kwargs, catchable (construct cls kwargs).
Proof.
  intros cls kwargs e H. unfold construct in H.
  destruct (lib_init cls kwargs) eqn:E; [| discriminate].
  injection H as <-. eauto.
Qed.

Lemma catchable_add_custom_tools :
  forall custom t, catchable (add_custom_tools custom t).
Proof.
  induction custom as [| c rest IH]; intros t; cbn [add_custom_tools].
  - apply catchable_Ok.
  - repeat (apply catchable_rbind; [| intro]);
      auto using catchable_getitem, catchable_table_setitem.
Qed.

Lemma catchable_select_tools :
  forall t names, catchable (select_tools t names).
Proof.
  intros t names. induction names as [| n names IH]; cbn [select_tools].
  - apply catchable_Ok.
  - apply catchable_rbind; [apply catchable_table_contains |].
    intros [|]; [| exact IH].
    repeat (apply catchable_rbind; [| intro]);
      auto using catchable_table_getitem, catchable_Ok.
Qed.

Lemma catchable_build_agent :
  forall custom c k, catchable (build_agent custom c k).
Proof.
  intros custom c k. unfold build_agent, builtin_tools.
  repeat (apply catchable_rbind; [| intro]);
    auto using catchable_getitem, catchable_get, catchable_iter,
      catchable_construct, catchable_add_custom_tools, catchable_select_tools,
      catchable_Ok.
Qed.

Lemma catchable_build_custom_tool : forall c, catchable (build_custom_tool c).
Proof.
  intros c. unfold build_custom_tool.
  repeat (apply catchable_rbind; [| intro]); auto using catchable_getitem.
  intros e H. destruct (lib_init DynamicTool _) eqn:E; [| discriminate].
  injection H as <-. eauto.
Qed.

(** A record that has a name is re-created or reported, and touches
    nothing but the messages: its failure stays its own. *)
Lemma recreate_agent_with_name :
  forall d name key w,
    lookup "name" d = Some name ->
    exists r msgs,
      recreate_agent_from_config (VDict d) key w
      = (Ok r, World (session w) (files w) (environ_api_key w) (shown w ++ msgs)).
Proof.
  intros d name key w Hname.
  unfold recreate_agent_from_config, try_except, bind, get_session, lift, show, ret.
  pose proof (catchable_build_agent (custom_tools (session w)) (VDict d) key) as Hc.
  destruct (build_agent _ _ _) as [agent | e].
  - exists agent, []. rewrite app_nil_r. now destruct w.
  - rewrite (Hc e eq_refl). cbn [py_getitem]. rewrite Hname.
    eexists _, _. reflexivity.
Qed.

Lemma recreate_custom_tool_with_name :
  forall d name w,
    lookup "name" d = Some name ->
    exists r msgs,
      recreate_custom_tool (VDict d) w
      = (Ok r, World (session w) (files w) (environ_api_key w) (shown w ++ msgs)).
Proof.
  intros d name w Hname.
  unfold recreate_custom_tool, try_except, bind, lift, show, ret.
  pose proof (catchable_build_custom_tool (VDict d)) as Hc.
  destruct (build_custom_tool _) as [tool | e].
  - exists tool, []. rewrite app_nil_r. now destruct w.
  - rewrite (Hc e eq_refl). cbn [py_getitem]. rewrite Hname.
    eexists _, _. reflexivity.
Qed.

End Isolation.

End Facts.

(** * Further properties *)

(** The store, the initialization, the forms and the tabs. *)

(** The steps of a chain of [let?] that returned. *)
Ltac invert_rbind H :=
  repeat match type of H with
         | rbind ?r _ = Ok _ =>
             let E := fresh "E" in
             destruct r eqn:E; cbn [rbind] in H; [| discriminate H]
         end.

(** A [save_data] followed by a message changes no session state. *)
Ltac saved := first [ apply keeps_session_saved, keeps_session_show
                    | apply keeps_session_saved, keeps_session_ret ].

(** ** The store *)

Section Store.

Context {pkg : Packages}.

Lemma with_json_file_same : forall d : disk, with_json_file (json_file d) d = d.
Proof. intros []. reflexivity. Qed.

Lemma save_data_outcome :
  forall w,
    fst (save_data w) = fst (save_outcome (session w) (files w))
    /\ files (snd (save_data w))
       = with_json_file (snd (save_outcome (session w) (files w))) (files w).
Proof.
  intros w.
  unfold save_data, save_outcome, try_except, bind, get_session, lift,
    write_json, show, ret.
  destruct (saved_document (session w)) as [data | e].
  - destruct (open_write_fails (files w)).
    + cbn [is_Exception exn_cls fst snd files]. now rewrite with_json_file_same.
    + destruct (write_fails (files w)) as [[partial msg] |].
      * cbn [is_Exception exn_cls fst snd files with_files]. split; reflexivity.
      * destruct (json_dump data) as [text [e |]].
        -- destruct (is_Exception e); cbn [fst snd files with_files];
             split; reflexivity.
        -- cbn [fst snd files with_files]. split; reflexivity.
  - destruct (is_Exception e); cbn [fst snd files];
      now rewrite with_json_file_same.
Qed.

Lemma save_outcome_again :
  forall s d,
    save_outcome s (with_json_file (snd (save_outcome s d)) d) = save_outcome s d.
Proof.
  intros s d. unfold save_outcome.
  destruct (saved_document s) as [data | e].
  - destruct d as [j p r ow wf].
    cbn [open_write_fails write_fails with_json_file json_file pkl_file
         open_read_fails].
    destruct ow; [reflexivity |].
    destruct wf as [[partial msg] |]; [reflexivity |].
    destruct (json_dump data) as [text [e |]]; reflexivity.
  - destruct d; reflexivity.
Qed.

(** X1.  Saving twice in a row is saving once: the second [save_data]
    returns what the first returned and leaves the files as the first
    left them, whatever the session state and whatever the disk does. *)
Theorem save_data_twice :
  forall w : world,
    fst (save_data (snd (save_data w))) = fst (save_data w)
    /\ files (snd (save_data (snd (save_data w)))) = files (snd (save_data w)).
Proof.
  intros w.
  destruct (save_data_outcome w) as [R1 F1].
  destruct (save_data_outcome (snd (save_data w))) as [R2 F2].
  rewrite save_data_session in R2, F2.
  rewrite F1 in R2, F2. rewrite save_outcome_again in R2, F2.
  split.
  - now rewrite R2, R1.
  - rewrite F2, F1. now destruct (files w).
Qed.

(** X2.  [save_data] touches nothing but [config.json]: the session
    state and the environment are after it as before, and so are the
    legacy pickle file and the way the disk answers. *)
Theorem save_data_changes_one_file :
  forall w : world,
    session (snd (save_data w)) = session w
    /\ environ_api_key (snd (save_data w)) = environ_api_key w
    /\ exists json,
        files (snd (save_data w))
        = Disk json (pkl_file (files w)) (open_read_fails (files w))
               (open_write_fails (files w)) (write_fails (files w)).
Proof.
  intros w. split; [apply save_data_session |]. split.
  - unfold save_data, try_except, bind, get_session, lift, write_json, show, ret.
    destruct (saved_document (session w)) as [data | e].
    + destruct (open_write_fails (files w)); [reflexivity |].
      destruct (write_fails (files w)) as [[? ?] |]; [reflexivity |].
      destruct (json_dump data) as [text [e |]]; [| reflexivity].
      destruct (is_Exception e); reflexivity.
    + destruct (is_Exception e); reflexivity.
  - destruct (save_data_outcome w) as [_ F]. rewrite F. eexists. reflexivity.
Qed.

(** X3.  [load_data] reads [config.json] when there is one, and what it
    returns does then not depend on the legacy pickle file; it reads the
    pickle file only when there is no [config.json], returning what
    [pickle.load] gives, or [None] when that raises an [Exception]; with
    neither file it returns [None]. *)
Theorem load_data_reads_json_first :
  forall (s : session_state) (env : option string) (sh : list message)
         (c : document) (p q : option document) (r ow : option string)
         (wf : option (document * string)),
    fst (load_data (World s (Disk (Some c) p r ow wf) env sh))
    = fst (load_data (World s (Disk (Some c) q r ow wf) env sh))
    /\ fst (load_data (World s (Disk None (Some c) None ow wf) env sh))
       = match pickle_load c with
         | Ok data => Ok data
         | Raise e => if is_Exception e then Ok VNone else Raise e
         end
    /\ fst (load_data (World s (Disk None None r ow wf) env sh)) = Ok VNone.
Proof.
  intros s env sh c p q r ow wf.
  unfold load_data, try_except, read_with, bind, show, ret.
  cbn [files json_file pkl_file open_read_fails].
  split; [| split].
  - destruct r; [reflexivity |].
    destruct (json_load c) as [data | e]; [reflexivity |].
    destruct (is_Exception e); reflexivity.
  - destruct (pickle_load c) as [data | e]; [reflexivity |].
    destruct (is_Exception e); reflexivity.
  - reflexivity.
Qed.

(** X4.  The initialization never writes: the files are after it as
    they were before; and on every run of the script but the first of a
    session it does nothing at all. *)
Theorem initialize_never_writes :
  forall w : world,
    files (snd (initialize w)) = files w
    /\ (initialized (session w) = true -> initialize w = (Ok tt, w)).
Proof.
  intros w. split; [apply keeps_files_initialize |].
  intros H. unfold initialize, bind, get_session. now rewrite H.
Qed.

Lemma catchable_map_result :
  forall A B (f : A -> result B) l,
    (forall x, catchable (f x)) -> catchable (map_result f l).
Proof.
  intros A B f l H. induction l as [| x l IH]; cbn [map_result].
  - apply catchable_Ok.
  - apply catchable_rbind; [apply H | intros y].
    apply catchable_rbind; [exact IH | intros ys; apply catchable_Ok].
Qed.

Ltac catch :=
  repeat first
    [ apply catchable_Ok | apply catchable_getitem | apply catchable_get
    | apply catchable_rbind; [| intro] ].

Lemma catchable_saved_document : forall s, catchable (saved_document s).
Proof.
  intros s. unfold saved_document.
  repeat (apply catchable_rbind; [apply catchable_map_result; intros x | intro]).
  - unfold agent_config_of. catch.
  - unfold team_config_of. catch.
  - unfold custom_tool_config_of. catch.
  - apply catchable_Ok.
Qed.

Lemma save_data_build_fails :
  forall (w : world) (e : exn),
    saved_document (session w) = Raise e ->
    save_data w
    = (Ok (VBool false),
       World (session w) (files w) (environ_api_key w)
             (shown w
                ++ [Message st_error
                            [Text ("Error saving data: " ++ exn_text e)]])).
Proof.
  intros w e H.
  unfold save_data, try_except, bind, get_session, lift, show, ret.
  rewrite H, (catchable_saved_document _ e H). reflexivity.
Qed.

Lemma map_result_raises :
  forall A B (f : A -> result B) l x e,
    In x l -> f x = Raise e -> exists e', map_result f l = Raise e'.
Proof.
  intros A B f l x e Hin Hx. induction l as [| y l IH]; [contradiction |].
  cbn [map_result]. destruct Hin as [-> | Hin].
  - rewrite Hx. eexists. reflexivity.
  - destruct (f y); [| eexists; reflexivity].
    destruct (IH Hin) as [e' ->]. eexists. reflexivity.
Qed.

Lemma lookup_dict_set_other :
  forall k k' v d, k <> k' -> lookup k (dict_set k' v d) = lookup k d.
Proof.
  intros k k' v d Hk. induction d as [| [k0 v0] d IH]; cbn [dict_set lookup].
  - destruct (String.eqb_spec k k'); [contradiction | reflexivity].
  - destruct (String.eqb_spec k' k0) as [-> | Hne]; cbn [lookup].
    + destruct (String.eqb_spec k k0); [contradiction | reflexivity].
    + now rewrite IH.
Qed.

Lemma lookup_dict_set_same :
  forall k v d, lookup k (dict_set k v d) = Some v.
Proof.
  intros k v d. induction d as [| [k0 v0] d IH]; cbn [dict_set lookup].
  - now rewrite String.eqb_refl.
  - destruct (String.eqb_spec k k0) as [-> | Hne]; cbn [lookup].
    + now rewrite String.eqb_refl.
    + destruct (String.eqb_spec k k0); [contradiction | exact IH].
Qed.

(** X5.  [recreate_custom_tool] does not read [param_required], but
    [save_data] does, with a subscript.  So a stored custom tool that has
    the six fields the constructor reads and no [param_required] is
    activated like any other; and as long as its entry is in the session
    state, [save_data] returns [False] and leaves the files alone. *)
Theorem tool_without_param_required :
  forall (w : world) (d : dict) (name description param_name param_type
            param_description function_code : pyval),
    lookup "name" d = Some name ->
    lookup "description" d = Some description ->
    lookup "param_name" d = Some param_name ->
    lookup "param_type" d = Some param_type ->
    lookup "param_description" d = Some param_description ->
    lookup "function_code" d = Some function_code ->
    lookup "param_required" d = None ->
    lib_init DynamicTool [("name", name); ("description", description)] = None ->
    exists entry,
      restore_custom_tool (VDict d) w
      = (Ok tt, with_session
                  (with_custom_tools (custom_tools (session w) ++ [entry])
                                     (session w)) w)
      /\ forall w' : world,
           In entry (custom_tools (session w')) ->
           fst (save_data w') = Ok (VBool false)
           /\ files (snd (save_data w')) = files w'.
Proof.
  intros w d name description param_name param_type param_description
         function_code Hn Hd Hpn Hpt Hpd Hfc Hreq Hinit.
  eexists. split.
  - unfold restore_custom_tool, recreate_custom_tool, try_except, bind, lift,
      build_custom_tool.
    rewrite (py_getitem_lookup _ _ _ Hn), (py_getitem_lookup _ _ _ Hd),
      (py_getitem_lookup _ _ _ Hpn), (py_getitem_lookup _ _ _ Hpt),
      (py_getitem_lookup _ _ _ Hpd), (py_getitem_lookup _ _ _ Hfc).
    cbn [rbind]. rewrite Hinit. cbn [py_truthy with_tool_obj]. reflexivity.
  - intros w' Hin.
    assert (Hraise : exists e, saved_document (session w') = Raise e).
    { unfold saved_document.
      destruct (map_result agent_config_of _); [| eexists; reflexivity].
      destruct (map_result team_config_of _); [| eexists; reflexivity].
      cbn [rbind].
      destruct (map_result_raises _ _ custom_tool_config_of _ _
                  (Exn KeyError "'param_required'") Hin) as [e' ->].
      - unfold custom_tool_config_of, py_getitem.
        rewrite !lookup_dict_set_other by discriminate.
        rewrite Hn, Hd, Hpn, Hpt, Hpd, Hreq. reflexivity.
      - eexists. reflexivity. }
    destruct Hraise as [e He].
    rewrite (save_data_build_fails w' e He). split; reflexivity.
Qed.

(** X6.  [save_data] returns [True] exactly when the document could be
    built, the disk met no error and [json.dump] raised nothing; the
    file then holds what [json.dump] wrote. *)
Theorem save_data_true_iff :
  forall w : world,
    fst (save_data w) = Ok (VBool true)
    <-> exists data text,
          saved_document (session w) = Ok data
          /\ io_error (files w) = None
          /\ json_dump data = (text, None)
          /\ json_file (files (snd (save_data w))) = Some text.
Proof.
  intros w. destruct (save_data_outcome w) as [R F]. rewrite R, F.
  unfold save_outcome, io_error.
  destruct (saved_document (session w)) as [data | e].
  - destruct (open_write_fails (files w)).
    + cbn [fst snd]. split; [discriminate |].
      intros (? & ? & _ & H & _). discriminate.
    + destruct (write_fails (files w)) as [[partial msg] |].
      * cbn [fst snd]. split; [discriminate |].
        intros (? & ? & _ & H & _). discriminate.
      * destruct (json_dump data) as [text [e |]] eqn:Hdump; cbn [fst snd].
        -- split.
           ++ destruct (is_Exception e); discriminate.
           ++ intros (d' & t' & Hd & _ & Hj & _). injection Hd as <-.
              rewrite Hdump in Hj. discriminate.
        -- split; [| reflexivity]. intros _. exists data, text.
           repeat split. now destruct (files w).
  - cbn [fst snd]. split.
    + destruct (is_Exception e); discriminate.
    + intros (? & ? & H & _). discriminate.
Qed.

(** ** The shape of what one turn of a loop does *)

Lemma construct_Ok :
  forall cls kwargs obj,
    construct cls kwargs = Ok obj -> obj = VObj cls kwargs.
Proof.
  intros cls kwargs obj H. unfold construct in H.
  destruct (lib_init cls kwargs); [discriminate | now injection H as <-].
Qed.

Lemma build_agent_truthy :
  forall custom c key obj, build_agent custom c key = Ok obj -> py_truthy obj = true.
Proof.
  intros custom c key obj H. unfold build_agent in H. invert_rbind H.
  apply construct_Ok in H. now subst.
Qed.

Lemma build_custom_tool_truthy :
  forall c obj,
    build_custom_tool c = Ok obj ->
    py_truthy obj = true /\ exists d, c = VDict d.
Proof.
  intros c obj H. unfold build_custom_tool in H. invert_rbind H.
  destruct (lib_init DynamicTool _); [discriminate |]. injection H as <-.
  split; [reflexivity |].
  destruct c; cbn in E; try discriminate. eexists. reflexivity.
Qed.

Lemma world_eta :
  forall w : world,
    World (session w) (files w) (environ_api_key w) (shown w ++ []) = w.
Proof. intros []. cbn. now rewrite app_nil_r. Qed.

Lemma recreate_custom_tool_result :
  forall c w,
    exists r msgs,
      recreate_custom_tool c w
      = (r, World (session w) (files w) (environ_api_key w) (shown w ++ msgs))
      /\ match r with
         | Ok obj => obj = VNone \/ build_custom_tool c = Ok obj
         | Raise _ => True
         end.
Proof.
  intros c w. unfold recreate_custom_tool, try_except, bind, lift, show, ret.
  destruct (build_custom_tool c) as [obj | e].
  - exists (Ok obj), []. rewrite world_eta. split; [reflexivity | now right].
  - destruct (is_Exception e).
    + destruct (py_getitem c "name") as [name | e'].
      * eexists (Ok VNone), _. split; [reflexivity | now left].
      * exists (Raise e'), []. rewrite world_eta. split; [reflexivity | exact I].
    + exists (Raise e), []. rewrite world_eta. split; [reflexivity | exact I].
Qed.

Lemma recreate_agent_result :
  forall c key w,
    exists r msgs,
      recreate_agent_from_config c key w
      = (r, World (session w) (files w) (environ_api_key w) (shown w ++ msgs))
      /\ match r with
         | Ok obj => obj = VNone
                     \/ build_agent (custom_tools (session w)) c key = Ok obj
         | Raise _ => True
         end.
Proof.
  intros c key w.
  unfold recreate_agent_from_config, try_except, bind, get_session, lift, show, ret.
  destruct (build_agent _ c key) as [obj | e].
  - exists (Ok obj), []. rewrite world_eta. split; [reflexivity | now right].
  - destruct (is_Exception e).
    + destruct (py_getitem c "name") as [name | e'].
      * eexists (Ok VNone), _. split; [reflexivity | now left].
      * exists (Raise e'), []. rewrite world_eta. split; [reflexivity | exact I].
    + exists (Raise e), []. rewrite world_eta. split; [reflexivity | exact I].
Qed.

Lemma restore_custom_tool_shape :
  forall c w,
    exists msgs,
      (exists r,
          restore_custom_tool c w
          = (r, World (session w) (files w) (environ_api_key w) (shown w ++ msgs)))
      \/ exists d obj,
          c = VDict d /\ build_custom_tool c = Ok obj
          /\ restore_custom_tool c w
             = (Ok tt,
                World (with_custom_tools
                         (custom_tools (session w)
                            ++ [VDict (dict_set "tool_obj" obj d)]) (session w))
                      (files w) (environ_api_key w) (shown w ++ msgs)).
Proof.
  intros c w. unfold restore_custom_tool.
  destruct (recreate_custom_tool_result c w) as (r & msgs & E & Hr).
  exists msgs. unfold bind at 1 3. rewrite E.
  destruct r as [obj | e]; [| left; eexists; reflexivity].
  destruct Hr as [-> | Hb]; [left; eexists; reflexivity |].
  destruct (build_custom_tool_truthy _ _ Hb) as [Ht [d ->]].
  rewrite Ht. right. exists d, obj. repeat split; assumption.
Qed.

Lemma restore_agent_shape :
  forall c w,
    exists msgs,
      (exists r,
          restore_agent c w
          = (r, World (session w) (files w) (environ_api_key w) (shown w ++ msgs)))
      \/ exists obj entry,
          build_agent (custom_tools (session w)) c (api_key (session w)) = Ok obj
          /\ agent_entry c obj = Ok entry
          /\ restore_agent c w
             = (Ok tt,
                World (with_agents (agents (session w) ++ [entry]) (session w))
                      (files w) (environ_api_key w) (shown w ++ msgs)).
Proof.
  intros c w.
  destruct (recreate_agent_result c (api_key (session w)) w)
    as (r & msgs & E & Hr).
  exists msgs.
  assert (Hrun : restore_agent c w
                 = match r with
                   | Ok agent_obj =>
                       if py_truthy agent_obj then
                         match agent_entry c agent_obj with
                         | Ok entry =>
                             (Ok tt,
                              World (with_agents (agents (session w) ++ [entry])
                                                 (session w))
                                    (files w) (environ_api_key w) (shown w ++ msgs))
                         | Raise e =>
                             (Raise e,
                              World (session w) (files w) (environ_api_key w)
                                    (shown w ++ msgs))
                         end
                       else (Ok tt, World (session w) (files w) (environ_api_key w)
                                          (shown w ++ msgs))
                   | Raise e =>
                       (Raise e, World (session w) (files w) (environ_api_key w)
                                       (shown w ++ msgs))
                   end).
  { unfold restore_agent, bind at 1, get_session. unfold bind at 1. rewrite E.
    destruct r as [obj | e]; [| reflexivity].
    destruct (py_truthy obj); [| reflexivity].
    unfold bind, lift. fold (agent_entry c obj).
    destruct (agent_entry c obj); reflexivity. }
  rewrite Hrun. destruct r as [obj | e]; [| left; eexists; reflexivity].
  destruct Hr as [-> | Hb]; [left; eexists; reflexivity |].
  rewrite (build_agent_truthy _ _ _ _ Hb).
  destruct (agent_entry c obj) as [entry | e] eqn:He;
    [| left; eexists; reflexivity].
  right. exists obj, entry. repeat split; assumption.
Qed.

Lemma restore_team_shape :
  forall c w,
    exists msgs,
      (exists r,
          restore_team c w
          = (r, World (session w) (files w) (environ_api_key w) (shown w ++ msgs)))
      \/ exists team_agents entry,
          resolve_members (session w) c = Ok team_agents
          /\ 2 <= List.length team_agents
          /\ team_entry c team_agents = Ok entry
          /\ restore_team c w
             = (Ok tt,
                World (with_teams (teams (session w) ++ [entry]) (session w))
                      (files w) (environ_api_key w) (shown w ++ msgs)).
Proof.
  intros c w.
  assert (Hrun :
    restore_team c w
    = match resolve_members (session w) c with
      | Raise e => (Raise e, w)
      | Ok team_agents =>
          if Nat.leb 2 (List.length team_agents) then
            match team_entry c team_agents with
            | Ok entry =>
                (Ok tt, with_session (with_teams (teams (session w) ++ [entry])
                                                 (session w)) w)
            | Raise e =>
                if is_Exception e then
                  match py_getitem c "name" with
                  | Ok name =>
                      show st_warning [Text "Could not recreate team '"; Show name;
                                       Text ("': " ++ exn_text e)] w
                  | Raise e' => (Raise e', w)
                  end
                else (Raise e, w)
            end
          else (Ok tt, w)
      end).
  { unfold restore_team, bind at 1, get_session.
    unfold bind at 1, lift at 1. fold (resolve_members (session w) c).
    destruct (resolve_members (session w) c) as [team_agents | e]; [| reflexivity].
    destruct (Nat.leb 2 (List.length team_agents)); [| reflexivity].
    unfold try_except, bind at 1, lift at 1. fold (team_entry c team_agents).
    destruct (team_entry c team_agents) as [entry | e]; [reflexivity |].
    destruct (is_Exception e); [| reflexivity].
    unfold bind, lift. destruct (py_getitem c "name"); reflexivity. }
  rewrite Hrun.
  destruct (resolve_members (session w) c) as [team_agents | e] eqn:Hres.
  2:{ exists []. left. eexists. now rewrite world_eta. }
  destruct (Nat.leb_spec 2 (List.length team_agents)) as [Hle | Hlt].
  2:{ exists []. left. eexists. now rewrite world_eta. }
  destruct (team_entry c team_agents) as [entry | e] eqn:He.
  - exists []. right. exists team_agents, entry. rewrite app_nil_r.
    repeat split; assumption.
  - destruct (is_Exception e).
    + destruct (py_getitem c "name").
      * eexists. left. eexists. reflexivity.
      * exists []. left. eexists. now rewrite world_eta.
    + exists []. left. eexists. now rewrite world_eta.
Qed.

(** ** A logic for the session state *)

Lemma ensures_weaken :
  forall A (P P' Q Q' : session_state -> Prop) (R R' : A -> session_state -> Prop)
         (m : M A),
    ensures P m Q R ->
    (forall s, P' s -> P s) -> (forall s, Q s -> Q' s) ->
    (forall a s, R a s -> R' a s) ->
    ensures P' m Q' R'.
Proof.
  intros A P P' Q Q' R R' m H HP HQ HR w Hw. specialize (H w (HP _ Hw)).
  destruct (m w) as [[a | e] w']; auto.
Qed.

Lemma ensures_bind :
  forall A B (P Q : session_state -> Prop) (R : A -> session_state -> Prop)
         (R' : B -> session_state -> Prop) (m : M A) (k : A -> M B),
    ensures P m Q R -> (forall a, ensures (R a) (k a) Q R') ->
    ensures P (bind m k) Q R'.
Proof.
  intros A B P Q R R' m k Hm Hk w Hw. unfold bind. specialize (Hm w Hw).
  destruct (m w) as [[a | e] w']; [apply (Hk a w' Hm) | exact Hm].
Qed.

(** The loop: [I done] holds when the elements [done] have been gone
    through. *)
Lemma ensures_for_each :
  forall A (I : list A -> session_state -> Prop) (Q : session_state -> Prop)
         (body : A -> M unit) (l : list A),
    (forall done x, In x l ->
                    ensures (I done) (body x) Q (fun _ => I (done ++ [x]))) ->
    forall done, ensures (I done) (for_each l body) Q (fun _ => I (done ++ l)).
Proof.
  intros A I Q body l. induction l as [| x l IH]; intros H done; cbn [for_each].
  - rewrite app_nil_r. intros w Hw. exact Hw.
  - eapply ensures_bind; [apply H; now left |]. intros u. cbv beta.
    replace (done ++ x :: l) with ((done ++ [x]) ++ l)
      by (rewrite <- app_assoc; reflexivity).
    apply IH. intros done' y Hy. apply H. now right.
Qed.

Lemma ensures_for_each_in :
  forall (I : list pyval -> session_state -> Prop) (Q : session_state -> Prop)
         (body : pyval -> M unit) (saved_data : pyval) (key : string),
    (forall s, I [] s -> Q s) ->
    (forall l done x,
        configs_of saved_data key = Ok l -> In x l ->
        ensures (I done) (body x) Q (fun _ => I (done ++ [x]))) ->
    ensures (I []) (for_each_in saved_data key body) Q
            (fun _ s => exists l, configs_of saved_data key = Ok l /\ I l s).
Proof.
  intros I Q body saved key HQ H w Hw. unfold for_each_in, bind, lift.
  fold (configs_of saved key).
  destruct (configs_of saved key) as [l | e] eqn:Hl; [| auto].
  pose proof (ensures_for_each _ I Q body l (fun done x => H l done x eq_refl)
                [] w Hw) as Hloop.
  destruct (for_each l body w) as [[u | e] w']; [| exact Hloop].
  exists l. split; [reflexivity | exact Hloop].
Qed.

Lemma ensures_restore_custom_tool :
  forall c (P Q R : session_state -> Prop),
    (forall s, P s -> Q s) -> (forall s, P s -> R s) ->
    (forall s d obj,
        P s -> c = VDict d -> build_custom_tool c = Ok obj ->
        R (with_custom_tools
             (custom_tools s ++ [VDict (dict_set "tool_obj" obj d)]) s)) ->
    ensures P (restore_custom_tool c) Q (fun _ => R).
Proof.
  intros c P Q R HQ HR Happ w Hw.
  destruct (restore_custom_tool_shape c w) as [msgs [[r ->] | (d & obj & Hc & Hb & ->)]].
  - destruct r; cbn [session]; auto.
  - cbn [session]. eauto.
Qed.

Lemma ensures_restore_agent :
  forall c (P Q R : session_state -> Prop),
    (forall s, P s -> Q s) -> (forall s, P s -> R s) ->
    (forall s obj entry,
        P s -> build_agent (custom_tools s) c (api_key s) = Ok obj ->
        agent_entry c obj = Ok entry ->
        R (with_agents (agents s ++ [entry]) s)) ->
    ensures P (restore_agent c) Q (fun _ => R).
Proof.
  intros c P Q R HQ HR Happ w Hw.
  destruct (restore_agent_shape c w)
    as [msgs [[r ->] | (obj & entry & Hb & He & ->)]].
  - destruct r; cbn [session]; auto.
  - cbn [session]. eauto.
Qed.

Lemma ensures_restore_team :
  forall c (P Q R : session_state -> Prop),
    (forall s, P s -> Q s) -> (forall s, P s -> R s) ->
    (forall s team_agents entry,
        P s -> resolve_members s c = Ok team_agents ->
        2 <= List.length team_agents ->
        team_entry c team_agents = Ok entry ->
        R (with_teams (teams s ++ [entry]) s)) ->
    ensures P (restore_team c) Q (fun _ => R).
Proof.
  intros c P Q R HQ HR Happ w Hw.
  destruct (restore_team_shape c w)
    as [msgs [[r ->] | (ta & entry & Hres & Hle & He & ->)]].
  - destruct r; cbn [session]; auto.
  - cbn [session]. eauto.
Qed.

Lemma load_data_session :
  forall w, session (snd (load_data w)) = session w.
Proof.
  intros w. unfold load_data, try_except, read_with, bind, show, ret.
  destruct (json_file (files w)) as [c |].
  - destruct (open_read_fails (files w)); [reflexivity |].
    destruct (json_load c) as [v | e]; [reflexivity |].
    destruct (is_Exception e); reflexivity.
  - destruct (pkl_file (files w)) as [c |]; [| reflexivity].
    destruct (open_read_fails (files w)); [reflexivity |].
    destruct (pickle_load c) as [v | e]; [reflexivity |].
    destruct (is_Exception e); reflexivity.
Qed.

Lemma initialize_first_run :
  forall w,
    initialized (session w) = false ->
    initialize w
    = match load_data (with_session (empty_workspace (environ_api_key w)) w) with
      | (Ok saved_data, w1) =>
          if py_truthy saved_data then activate saved_data w1 else (Ok tt, w1)
      | (Raise e, w1) => (Raise e, w1)
      end.
Proof.
  intros w H. unfold initialize, bind at 1, get_session. rewrite H.
  unfold bind at 1, getenv_api_key. unfold bind at 1, modify_session.
  unfold bind at 1. fold getenv_api_key. unfold empty_workspace.
  destruct (load_data _) as [[saved | e] w1]; [| reflexivity].
  destruct (py_truthy saved); [| reflexivity].
  unfold activate, phase, has_key.
  cbv [bind lift get_session getenv_api_key modify_session ret].
  destruct (py_get saved "api_key" _) as [key | e]; [| reflexivity].
  destruct (py_in (VStr "custom_tools") saved) as [[|] | e];
    cbn [andb]; try reflexivity.
  - destruct (for_each_in saved "custom_tools" restore_custom_tool _)
      as [[u | e] w2]; [| reflexivity].
    destruct (py_in (VStr "agents") saved) as [has | e]; reflexivity.
  - destruct (py_in (VStr "agents") saved) as [has | e]; reflexivity.
Qed.

Lemma ensures_phase :
  forall saved_data key guard body (P Q R : session_state -> Prop)
         (I : list pyval -> session_state -> Prop),
    (forall s, P s -> Q s) ->
    (forall s, P s -> guard s = true -> I [] s) ->
    (forall l s, I l s -> Q s) ->
    (forall l done x,
        configs_of saved_data key = Ok l -> In x l ->
        ensures (I done) (body x) Q (fun _ => I (done ++ [x]))) ->
    (forall s, P s ->
               py_in (VStr key) saved_data = Ok false \/ guard s = false -> R s) ->
    (forall l s, I l s -> configs_of saved_data key = Ok l -> R s) ->
    ensures P (phase saved_data key guard body) Q (fun _ => R).
Proof.
  intros saved key guard body P Q R I HPQ HPI HIQ Hbody HPR HIR w Hw.
  unfold phase, bind at 1, lift.
  destruct (py_in (VStr key) saved) as [has | e] eqn:Hin; [| auto].
  unfold bind, get_session.
  destruct has; cbn [andb].
  - destruct (guard (session w)) eqn:Hg.
    + pose proof (ensures_for_each_in I Q body saved key (fun s H => HIQ [] s H)
                    Hbody w (HPI _ Hw Hg)) as H.
      destruct (for_each_in saved key body w) as [[u | e] w']; [| exact H].
      destruct H as (l & Hl & Hs). eauto.
    + cbn. auto.
  - cbn. auto.
Qed.

Lemma ensures_activate :
  forall saved_data (P T0 Td Ad Q R : session_state -> Prop),
    (forall s, P s -> Q s) ->
    (forall s default key,
        P s -> py_get saved_data "api_key" default = Ok key ->
        T0 (with_api_key key s)) ->
    ensures T0 (phase saved_data "custom_tools" (fun _ => true) restore_custom_tool)
            Q (fun _ => Td) ->
    ensures Td (phase saved_data "agents" has_key restore_agent) Q (fun _ => Ad) ->
    ensures Ad (phase saved_data "teams" has_key restore_team) Q (fun _ => R) ->
    ensures P (activate saved_data) Q (fun _ => R).
Proof.
  intros saved P T0 Td Ad Q R HPQ HT0 H1 H2 H3 w Hw.
  unfold activate, bind at 1, getenv_api_key. unfold bind at 1, lift at 1.
  destruct (py_get saved "api_key" _) as [key | e] eqn:Hkey; [| auto].
  unfold bind at 1, modify_session.
  apply (ensures_bind _ _ T0 Q (fun _ => Td) (fun _ => R) _ _ H1).
  - intros u. apply (ensures_bind _ _ Td Q (fun _ => Ad) (fun _ => R) _ _ H2).
    intros u'. exact H3.
  - cbn [session with_session]. eapply HT0; eassumption.
Qed.

(** What holds of the session state when the first run of the script
    is over, whether it ended well or not. *)
Lemma after_initialize :
  forall (J : session_state -> Prop) (w : world),
    initialized (session w) = false ->
    J (empty_workspace (environ_api_key w)) ->
    (forall saved_data,
        ensures (fun s => s = empty_workspace (environ_api_key w))
                (activate saved_data) J (fun _ => J)) ->
    J (session (snd (initialize w))).
Proof.
  intros J w Hinit H0 Hact. rewrite (initialize_first_run w Hinit).
  pose proof (load_data_session
                (with_session (empty_workspace (environ_api_key w)) w)) as Hs.
  destruct (load_data _) as [[saved | e] w1]; cbn [snd session with_session] in *.
  - destruct (py_truthy saved).
    + specialize (Hact saved w1 Hs).
      destruct (activate saved w1) as [[u | e] w2]; exact Hact.
    + cbn [snd]. now rewrite Hs.
  - now rewrite Hs.
Qed.

(** X7.  Without a key no agent and no team is activated: when the
    first run of the script ends (well or not) with a session state whose
    API key is empty, that state has no agent and no team, whatever the
    stored document holds. *)
Theorem no_key_no_agents :
  forall w : world,
    initialized (session w) = false ->
    py_truthy (api_key (session (snd (initialize w)))) = false ->
    agents (session (snd (initialize w))) = []
    /\ teams (session (snd (initialize w))) = [].
Proof.
  intros w Hinit.
  apply (after_initialize (fun s => has_key s = false -> no_agents s) w Hinit).
  - intros _. split; reflexivity.
  - intros saved.
    apply (ensures_activate saved _ no_agents no_agents
             (fun s => no_agents s \/ has_key s = true)).
    + intros s -> _. split; reflexivity.
    + intros s default key -> _. split; reflexivity.
    + apply (ensures_phase _ _ _ _ _ _ _ (fun _ => no_agents)); auto.
      intros l done x _ _. apply ensures_restore_custom_tool; auto.
    + apply (ensures_phase _ _ _ _ _ _ _ (fun _ s => has_key s = true)).
      * auto.
      * auto.
      * intros l s H H'. unfold has_key in *. congruence.
      * intros l done x _ _. apply ensures_restore_agent; auto.
        intros s H H'. unfold has_key in *. congruence.
      * intros s H _. now left.
      * intros l s H _. now right.
    + apply (ensures_phase _ _ _ _ _ _ _ (fun _ s => has_key s = true)).
      * intros s [H | H] H'; [exact H | congruence].
      * auto.
      * intros l s H H'. congruence.
      * intros l done x _ _. apply ensures_restore_team; auto.
        intros s H H'. congruence.
      * intros s [H | H] _ H'; [exact H | congruence].
      * intros l s H _ H'. congruence.
Qed.

End Store.

(** ** The keys of the entries *)

Section Complete.

Context {pkg : Packages}.

Lemma has_fields_lookup :
  forall ks d k,
    has_fields ks (VDict d) = true -> In k ks -> exists v, lookup k d = Some v.
Proof.
  intros ks d k H Hin. cbn [has_fields] in H.
  rewrite forallb_forall in H. specialize (H k Hin).
  destruct (lookup k d) as [v |]; [eauto | discriminate].
Qed.

Lemma has_fields_dict :
  forall ks r, has_fields ks r = true -> exists d, r = VDict d.
Proof. intros ks [] H; try discriminate. eauto. Qed.

(** The keys of [ks] that [H : has_fields ks (VDict d) = true] gives,
    rewritten in the goal. *)
Ltac use_fields H :=
  repeat match goal with
         | |- context [lookup ?k ?d] =>
             let v := fresh "v" in
             let E := fresh "E" in
             destruct (has_fields_lookup _ d k H) as [v E];
             [cbn; tauto | rewrite E]
         end.

Lemma agent_entry_complete :
  forall c obj entry, agent_entry c obj = Ok entry -> has_fields agent_keys entry = true.
Proof.
  intros c obj entry H. unfold agent_entry in H. invert_rbind H.
  injection H as <-. reflexivity.
Qed.

Lemma team_entry_complete :
  forall c ta entry, team_entry c ta = Ok entry -> has_fields team_keys entry = true.
Proof.
  intros c ta entry H. unfold team_entry in H. invert_rbind H.
  injection H as <-. reflexivity.
Qed.

Lemma custom_tool_entry_complete :
  forall d obj,
    build_custom_tool (VDict d) = Ok obj ->
    has_fields custom_tool_keys (VDict (dict_set "tool_obj" obj d)) = true.
Proof.
  intros d obj H. unfold build_custom_tool, py_getitem in H.
  cbn [has_fields custom_tool_keys forallb].
  rewrite lookup_dict_set_same.
  rewrite !lookup_dict_set_other by discriminate.
  repeat match type of H with
         | context [lookup ?k d] => destruct (lookup k d); [| discriminate H]
         end.
  reflexivity.
Qed.

Lemma Forall_remove_nth :
  forall (P : pyval -> Prop) n l, Forall P l -> Forall P (remove_nth n l).
Proof.
  intros P. induction n as [| n IH]; intros [| x l] H; cbn; auto;
    inversion H; subst; auto.
Qed.

Lemma Forall_replace_nth :
  forall (P : pyval -> Prop) n v l, Forall P l -> P v -> Forall P (replace_nth n v l).
Proof.
  intros P. induction n as [| n IH]; intros v [| x l] H Hv; cbn; auto;
    inversion H; subst; auto.
Qed.

Lemma Forall_snoc :
  forall (P : pyval -> Prop) l x, Forall P l -> P x -> Forall P (l ++ [x]).
Proof. intros P l x H Hx. apply Forall_app. auto. Qed.

Lemma complete_activate :
  forall saved_data,
    ensures complete (activate saved_data) complete (fun _ => complete).
Proof.
  intros saved.
  apply (ensures_activate saved complete complete complete complete).
  - auto.
  - intros s default key H _. exact H.
  - apply (ensures_phase _ _ _ _ _ _ _ (fun _ => complete)); auto.
    intros l done x _ _. apply ensures_restore_custom_tool; auto.
    intros s d obj (Ha & Ht & Hc) -> Hb. repeat split; try assumption.
    cbn. apply Forall_snoc; [assumption |].
    now apply custom_tool_entry_complete.
  - apply (ensures_phase _ _ _ _ _ _ _ (fun _ => complete)); auto.
    intros l done x _ _. apply ensures_restore_agent; auto.
    intros s obj entry (Ha & Ht & Hc) Hb He. repeat split; try assumption.
    cbn. apply Forall_snoc; [assumption |].
    now apply agent_entry_complete in He.
  - apply (ensures_phase _ _ _ _ _ _ _ (fun _ => complete)); auto.
    intros l done x _ _. apply ensures_restore_team; auto.
    intros s ta entry (Ha & Ht & Hc) Hres Hle He. repeat split; try assumption.
    cbn. apply Forall_snoc; [assumption |].
    now apply team_entry_complete in He.
Qed.

Lemma complete_initialize :
  forall w, initialized (session w) = false ->
            complete (session (snd (initialize w))).
Proof.
  intros w Hinit. apply (after_initialize complete w Hinit).
  - repeat split; constructor.
  - intros saved.
    eapply ensures_weaken; [apply complete_activate | | auto | auto].
    intros s ->. repeat split; constructor.
Qed.

Lemma complete_run_action :
  forall a w, complete (session w) -> complete (session (snd (run_action a w))).
Proof.
  intros a w Hc. pose proof Hc as (Ha & Ht & Hct).
  destruct a; cbn [run_action].
  - unfold set_api_key. rewrite session_get.
    destruct (py_eq _ _); [exact Hc |]. rewrite session_modify by saved. exact Hc.
  - rewrite keeps_session_saved by apply keeps_session_show. exact Hc.
  - unfold submit_agent. rewrite session_get, session_lift.
    match goal with |- context [match ?x with Ok _ => _ | Raise _ => _ end] =>
      destruct x as [available_tools | e] end; [| exact Hc].
    destruct (negb (py_truthy (api_key (session w)))); [exact Hc |].
    destruct (negb (py_truthy (VStr agent_name))); [exact Hc |].
    rewrite session_lift.
    destruct (get_tools available_tools selected_tools) as [tools | e];
      [| exact Hc].
    rewrite session_try by (intro; apply keeps_session_show).
    rewrite session_lift.
    destruct (construct OpenAIChat _) as [chat | e]; [| exact Hc].
    rewrite session_lift.
    destruct (construct Agent _) as [agent | e]; [| exact Hc].
    rewrite session_get.
    destruct (py_truthy (editing_agent (session w))).
    + rewrite session_lift.
      destruct (py_getitem (editing_agent (session w)) "index") as [i | e];
        [| exact Hc].
      rewrite session_lift. unfold list_setitem.
      destruct (index_of i) as [z |]; [| exact Hc].
      destruct (list_index _ z) as [k |]; [| exact Hc].
      rewrite session_modify_then.
      rewrite session_modify by (apply keeps_session_saved, keeps_session_show).
      repeat split; try assumption.
      cbn. apply Forall_replace_nth; [assumption | reflexivity].
    + rewrite session_modify by (apply keeps_session_saved, keeps_session_show).
      repeat split; try assumption.
      cbn. apply Forall_snoc; [assumption | reflexivity].
  - unfold edit_agent. rewrite session_get.
    destruct (nth_error (agents (session w)) idx) as [[ | | | | | | d | ] |];
      exact Hc.
  - exact Hc.
  - unfold delete_agent. rewrite session_get, session_lift. unfold list_pop.
    destruct (list_index _ _); [| exact Hc].
    rewrite session_modify by saved. repeat split; try assumption.
    cbn. now apply Forall_remove_nth.
  - unfold create_team. rewrite session_get.
    destruct (Nat.ltb _ 2); [exact Hc |].
    destruct (negb (py_truthy (VStr team_name))); [exact Hc |].
    destruct (Nat.ltb _ 2); [exact Hc |].
    rewrite session_lift.
    destruct (team_agents_of _ _) as [team_agents | e]; [| exact Hc].
    rewrite session_try by (intro; apply keeps_session_show).
    rewrite session_lift.
    destruct (construct Agent _) as [team | e]; [| exact Hc].
    rewrite session_modify by saved. repeat split; try assumption.
    cbn. apply Forall_snoc; [assumption | reflexivity].
  - unfold delete_team. rewrite session_get, session_lift. unfold list_pop.
    destruct (list_index _ _); [| exact Hc].
    rewrite session_modify by saved. repeat split; try assumption.
    cbn. now apply Forall_remove_nth.
  - unfold create_custom_tool.
    match goal with |- context [if ?b then _ else _] => destruct b end; [exact Hc |].
    rewrite session_try by (intro; apply keeps_session_show).
    rewrite session_lift.
    destruct (lib_init DynamicTool _); [exact Hc |].
    rewrite session_modify by saved. repeat split; try assumption.
    cbn. apply Forall_snoc; [assumption | reflexivity].
  - unfold delete_custom_tool. rewrite session_get, session_lift. unfold list_pop.
    destruct (list_index _ _); [| exact Hc].
    rewrite session_modify by saved. repeat split; try assumption.
    cbn. now apply Forall_remove_nth.
  - unfold clear_all_data. destruct confirm_deletion; [| exact Hc].
    rewrite session_modify by saved. repeat split; constructor.
Qed.

Lemma complete_run_actions :
  forall l w, complete (session w) -> complete (session (run_actions l w)).
Proof.
  induction l as [| a l IH]; intros w H; cbn [run_actions]; [exact H |].
  apply IH. now apply complete_run_action.
Qed.

Lemma map_result_total :
  forall A B (f : A -> result B) l,
    Forall (fun x => exists y, f x = Ok y) l -> exists ys, map_result f l = Ok ys.
Proof.
  intros A B f l H. induction H as [| x l [y Hy] _ [ys IH]]; cbn [map_result].
  - eexists. reflexivity.
  - rewrite Hy, IH. eexists. reflexivity.
Qed.

Lemma map_result_Raise :
  forall A B (f : A -> result B) l e,
    map_result f l = Raise e -> exists x, In x l /\ f x = Raise e.
Proof.
  intros A B f l e. induction l as [| x l IH]; cbn [map_result]; [discriminate |].
  destruct (f x) as [y | e'] eqn:Hx; cbn [rbind].
  - destruct (map_result f l) as [ys | e'']; cbn [rbind]; [discriminate |].
    intros H. injection H as ->. destruct IH as (x' & Hin & Hx'); [reflexivity |].
    exists x'. split; [now right | exact Hx'].
  - intros H. injection H as ->. exists x. split; [now left | exact Hx].
Qed.

Lemma agent_config_of_complete :
  forall a, has_fields agent_keys a = true -> exists c, agent_config_of a = Ok c.
Proof.
  intros a H. destruct (has_fields_dict _ _ H) as [d ->].
  unfold agent_config_of, py_getitem, py_get. use_fields H. cbn [rbind].
  repeat match goal with
         | |- context [match lookup ?k d with Some _ => _ | None => _ end] =>
             destruct (lookup k d)
         end; cbn [rbind]; eexists; reflexivity.
Qed.

Lemma team_config_of_complete :
  forall t, has_fields team_keys t = true -> exists c, team_config_of t = Ok c.
Proof.
  intros a H. destruct (has_fields_dict _ _ H) as [d ->].
  unfold team_config_of, py_getitem, py_get. use_fields H. cbn [rbind].
  repeat match goal with
         | |- context [match lookup ?k d with Some _ => _ | None => _ end] =>
             destruct (lookup k d)
         end; cbn [rbind]; eexists; reflexivity.
Qed.

Lemma custom_tool_config_of_complete :
  forall t e,
    has_fields custom_tool_keys t = true ->
    custom_tool_config_of t = Raise e -> e = Exn KeyError "'param_required'".
Proof.
  intros t e H. destruct (has_fields_dict _ _ H) as [d ->].
  unfold custom_tool_config_of, py_getitem.
  destruct (has_fields_lookup _ d "name" H) as [v1 ->]; [cbn; tauto |].
  destruct (has_fields_lookup _ d "description" H) as [v2 ->]; [cbn; tauto |].
  destruct (has_fields_lookup _ d "param_name" H) as [v3 ->]; [cbn; tauto |].
  destruct (has_fields_lookup _ d "param_type" H) as [v4 ->]; [cbn; tauto |].
  destruct (has_fields_lookup _ d "param_description" H) as [v5 ->]; [cbn; tauto |].
  destruct (has_fields_lookup _ d "function_code" H) as [v6 ->]; [cbn; tauto |].
  cbn [rbind]. destruct (lookup "param_required" d); cbn [rbind].
  - discriminate.
  - intros E. now injection E as <-.
Qed.

Lemma entities_of_complete :
  forall kind key ks l,
    In "name" ks -> In key ks ->
    Forall (fun a => has_fields ks a = true) l ->
    exists es, entities_of kind key l = Ok es.
Proof.
  intros kind key ks l Hn Hk H. apply map_result_total.
  eapply Forall_impl; [| exact H]. cbv beta. intros a Ha.
  destruct (has_fields_dict _ _ Ha) as [d ->]. unfold py_getitem.
  destruct (has_fields_lookup _ d "name" Ha Hn) as [v1 ->].
  destruct (has_fields_lookup _ d key Ha Hk) as [v2 ->].
  eexists. reflexivity.
Qed.

Lemma complete_all_entities :
  forall s, complete s -> exists es, all_entities s = Ok es.
Proof.
  intros s (Ha & Ht & _). unfold all_entities.
  destruct (entities_of_complete "agent" "agent" agent_keys (agents s))
    as [ea ->]; [cbn; tauto | cbn; tauto | exact Ha |].
  destruct (entities_of_complete "team" "team" team_keys (teams s))
    as [et ->]; [cbn; tauto | cbn; tauto | exact Ht |].
  eexists. reflexivity.
Qed.

Lemma complete_saved_document :
  forall s e, complete s -> saved_document s = Raise e ->
              e = Exn KeyError "'param_required'".
Proof.
  intros s e (Ha & Ht & Hc). unfold saved_document.
  destruct (map_result_total _ _ agent_config_of (agents s)) as [ca ->].
  { eapply Forall_impl; [| exact Ha]. apply agent_config_of_complete. }
  destruct (map_result_total _ _ team_config_of (teams s)) as [ct ->].
  { eapply Forall_impl; [| exact Ht]. apply team_config_of_complete. }
  cbn [rbind].
  destruct (map_result custom_tool_config_of (custom_tools s)) as [cc | e'] eqn:E;
    cbn [rbind]; [discriminate |].
  intros H. injection H as ->.
  destruct (map_result_Raise _ _ _ _ _ E) as (x & Hin & Hx).
  rewrite Forall_forall in Hc. eapply custom_tool_config_of_complete; eauto.
Qed.

(** X8.  From a first run on and after any series of actions, every
    agent and team entry of the session state has the keys the script
    reads with a subscript: the chat tab can list its entities, and if
    [save_data] cannot build its document the reason is a custom tool
    that lacks [param_required], the one key the activation does not
    ask for. *)
Theorem records_stay_complete :
  forall (l : list action) (w : world),
    initialized (session w) = false ->
    (exists entities,
        all_entities (session (run_actions l (snd (initialize w)))) = Ok entities)
    /\ (forall e,
           saved_document (session (run_actions l (snd (initialize w)))) = Raise e ->
           e = Exn KeyError "'param_required'").
Proof.
  intros l w Hinit.
  pose proof (complete_run_actions l _ (complete_initialize w Hinit)) as H.
  split.
  - now apply complete_all_entities.
  - intros e. now apply complete_saved_document.
Qed.

End Complete.

(** ** A restart *)

Section Restart.

Context {pkg : Packages}.

(** The library accepts every construction. *)
Hypothesis accepts : forall cls kwargs, lib_init cls kwargs = None.

Lemma construct_accepts :
  forall cls kwargs, construct cls kwargs = Ok (VObj cls kwargs).
Proof. intros cls kwargs. unfold construct. now rewrite accepts. Qed.

(** *** Custom tools *)

Lemma restore_custom_tool_good :
  forall c w,
    storable_tool c = true ->
    exists entry,
      restored_custom_tool c entry
      /\ restore_custom_tool c w
         = (Ok tt, with_session
                     (with_custom_tools (custom_tools (session w) ++ [entry])
                                        (session w)) w).
Proof.
  intros c w H. unfold storable_tool in H. apply andb_prop in H as [Hf Hn].
  destruct (has_fields_dict _ _ Hf) as [d ->].
  assert (Hb : exists obj, build_custom_tool (VDict d) = Ok obj).
  { unfold build_custom_tool, py_getitem.
    repeat match goal with
           | |- context [lookup ?k d] =>
               let v := fresh "v" in
               let E := fresh "E" in
               destruct (has_fields_lookup _ d k Hf) as [v E];
               [cbn; tauto | rewrite E]
           end.
    cbn [rbind]. rewrite accepts. eexists. reflexivity. }
  destruct Hb as [obj Hb].
  exists (VDict (dict_set "tool_obj" obj d)). split.
  - exists d, obj. auto.
  - unfold restore_custom_tool, recreate_custom_tool, try_except, bind, lift.
    rewrite Hb. destruct (build_custom_tool_truthy _ _ Hb) as [-> _].
    reflexivity.
Qed.

Lemma custom_tools_loop :
  forall configs w,
    forallb storable_tool configs = true ->
    exists entries,
      Forall2 restored_custom_tool configs entries
      /\ for_each configs restore_custom_tool w
         = (Ok tt, with_session
                     (with_custom_tools (custom_tools (session w) ++ entries)
                                        (session w)) w).
Proof.
  induction configs as [| c configs IH]; intros w H; cbn [for_each].
  - exists []. split; [constructor |]. rewrite app_nil_r.
    destruct w as [[] ? ? ?]; reflexivity.
  - cbn [forallb] in H. apply andb_prop in H as [Hc Hrest].
    destruct (restore_custom_tool_good c w Hc) as (entry & He & Hrun).
    unfold bind. rewrite Hrun.
    destruct (IH (with_session
                    (with_custom_tools (custom_tools (session w) ++ [entry])
                                       (session w)) w) Hrest)
      as (entries & Hes & Hloop).
    rewrite Hloop. exists (entry :: entries). split; [now constructor |].
    destruct w as [[] ? ? ?]; cbn. now rewrite <- app_assoc.
Qed.

(** *** Agents *)

Lemma restored_custom_tool_usable :
  forall c entry,
    storable_tool c = true -> restored_custom_tool c entry -> usable_tool entry.
Proof.
  intros c entry H (d & obj & -> & Hb & ->).
  unfold storable_tool in H. apply andb_prop in H as [Hf Hn].
  unfold py_getitem in Hn.
  destruct (lookup "name" d) as [name |] eqn:E; [| discriminate].
  exists name, obj. unfold py_getitem.
  rewrite lookup_dict_set_same, lookup_dict_set_other by discriminate.
  rewrite E. auto.
Qed.

Lemma add_custom_tools_total :
  forall custom available_tools,
    Forall usable_tool custom ->
    exists t, add_custom_tools custom available_tools = Ok t.
Proof.
  induction custom as [| c custom IH]; intros t H; cbn [add_custom_tools].
  - eexists. reflexivity.
  - inversion H as [| ? ? (name & obj & Ho & Hn & Hh) Hrest]; subst.
    rewrite Ho, Hn. cbn [rbind]. unfold table_setitem. rewrite Hh. cbn [rbind].
    now apply IH.
Qed.

Lemma select_tools_total :
  forall available_tools names,
    forallb py_hashable names = true ->
    exists tools, select_tools available_tools names = Ok tools.
Proof.
  intros t l. induction l as [| n l IH]; intros H; cbn [select_tools].
  - eexists. reflexivity.
  - cbn [forallb] in H. apply andb_prop in H as [Hn Hrest].
    destruct (IH Hrest) as [tools Htools].
    unfold table_contains, table_getitem. rewrite Hn. cbn [rbind].
    destruct (table_lookup n t); [| exact (ex_intro _ _ Htools)].
    rewrite Htools. eexists. reflexivity.
Qed.

Lemma build_agent_good :
  forall custom c key,
    Forall usable_tool custom -> storable_agent c = true ->
    exists kwargs, build_agent custom c key = Ok (VObj Agent kwargs).
Proof.
  intros custom c key Hcustom H. unfold storable_agent in H.
  apply andb_prop in H as [Hf Ht]. destruct (has_fields_dict _ _ Hf) as [d ->].
  unfold build_agent, builtin_tools. rewrite !construct_accepts. cbn [rbind].
  destruct (add_custom_tools_total custom
              [(VStr "Web Search", VObj SearchSummaryTool []);
               (VStr "Web Scraper", VObj WebScraperTool []);
               (VStr "Calculator", VObj CalculatorTool [])] Hcustom) as [t ->].
  cbn [rbind].
  destruct (py_getitem (VDict d) "tools") as [[ | | | | | names | | ] |];
    try discriminate.
  cbn [rbind py_iter].
  destruct (select_tools_total t names Ht) as [tools ->]. cbn [rbind].
  unfold py_getitem, py_get.
  destruct (has_fields_lookup _ d "name" Hf) as [v1 ->]; [cbn; tauto |].
  destruct (has_fields_lookup _ d "role" Hf) as [v2 ->]; [cbn; tauto |].
  destruct (has_fields_lookup _ d "instructions" Hf) as [v3 ->]; [cbn; tauto |].
  repeat first
    [ rewrite construct_accepts
    | progress cbn [rbind]
    | match goal with
      | |- context [match lookup ?k d with Some _ => _ | None => _ end] =>
          destruct (lookup k d)
      end ].
  all: eexists; reflexivity.
Qed.

Lemma agent_entry_good :
  forall c obj,
    storable_agent c = true -> exists entry, agent_entry c obj = Ok entry.
Proof.
  intros c obj H. unfold storable_agent in H.
  apply andb_prop in H as [Hf Ht]. destruct (has_fields_dict _ _ Hf) as [d ->].
  unfold agent_entry, py_getitem, py_get.
  destruct (has_fields_lookup _ d "name" Hf) as [v1 ->]; [cbn; tauto |].
  destruct (has_fields_lookup _ d "role" Hf) as [v2 ->]; [cbn; tauto |].
  destruct (has_fields_lookup _ d "tools" Hf) as [v3 ->]; [cbn; tauto |].
  destruct (has_fields_lookup _ d "instructions" Hf) as [v4 ->]; [cbn; tauto |].
  repeat first
    [ progress cbn [rbind]
    | match goal with
      | |- context [match lookup ?k d with Some _ => _ | None => _ end] =>
          destruct (lookup k d)
      end ].
  all: eexists; reflexivity.
Qed.

Lemma restore_agent_good :
  forall c w,
    Forall usable_tool (custom_tools (session w)) ->
    storable_agent c = true ->
    exists entry,
      restored_agent c entry
      /\ restore_agent c w
         = (Ok tt, with_session
                     (with_agents (agents (session w) ++ [entry]) (session w)) w).
Proof.
  intros c w Hcustom H.
  destruct (build_agent_good _ c (api_key (session w)) Hcustom H) as [kwargs Hb].
  destruct (agent_entry_good c (VObj Agent kwargs) H) as [entry He].
  exists entry. split; [exists kwargs; exact He |].
  unfold restore_agent, bind at 1, get_session.
  unfold bind at 1, recreate_agent_from_config, try_except, bind at 1, get_session,
    lift at 1.
  rewrite Hb. cbn [py_truthy]. unfold bind, lift.
  fold (agent_entry c (VObj Agent kwargs)).
  rewrite He. reflexivity.
Qed.

Lemma agents_loop :
  forall configs w,
    Forall usable_tool (custom_tools (session w)) ->
    forallb storable_agent configs = true ->
    exists entries,
      Forall2 restored_agent configs entries
      /\ for_each configs restore_agent w
         = (Ok tt, with_session
                     (with_agents (agents (session w) ++ entries) (session w)) w).
Proof.
  induction configs as [| c configs IH]; intros w Hcustom H; cbn [for_each].
  - exists []. split; [constructor |]. rewrite app_nil_r.
    destruct w as [[] ? ? ?]; reflexivity.
  - cbn [forallb] in H. apply andb_prop in H as [Hc Hrest].
    destruct (restore_agent_good c w Hcustom Hc) as (entry & He & Hrun).
    unfold bind. rewrite Hrun.
    destruct (IH (with_session
                    (with_agents (agents (session w) ++ [entry]) (session w)) w))
      as (entries & Hes & Hloop); [exact Hcustom | exact Hrest |].
    rewrite Hloop. exists (entry :: entries). split; [now constructor |].
    destruct w as [[] ? ? ?]; cbn. now rewrite <- app_assoc.
Qed.

(** *** Teams *)

Lemma team_agents_of_restored :
  forall agents_config entries members,
    Forall2 restored_agent agents_config entries ->
    exists team_agents,
      team_agents_of entries (VList members) = Ok team_agents
      /\ List.length team_agents
         = List.length (members_among agents_config members).
Proof.
  intros configs entries members H.
  induction H as [| c entry configs entries [kwargs He] _ (ta & Hta & Hlen)];
    cbn [team_agents_of members_among filter].
  - exists []. split; reflexivity.
  - fold (members_among configs members).
    unfold agent_entry in He.
    destruct (py_getitem c "name") as [name |] eqn:Hname; cbn [rbind] in He;
      [| discriminate He].
    invert_rbind He. injection He as <-.
    cbn [py_getitem lookup String.eqb Ascii.eqb Bool.eqb rbind py_in].
    destruct (existsb (py_same name) members).
    + cbn [rbind]. rewrite Hta. cbn [rbind]. eexists. split; [reflexivity |].
      cbn [List.length]. now rewrite Hlen.
    + exists ta. split; assumption.
Qed.

Lemma team_entry_good :
  forall agents_config c team_agents,
    storable_team agents_config c = true ->
    exists entry, team_entry c team_agents = Ok entry.
Proof.
  intros A c ta H. unfold storable_team in H.
  apply andb_prop in H as [Hf Ht]. destruct (has_fields_dict _ _ Hf) as [d ->].
  unfold team_entry, py_getitem, py_get.
  destruct (has_fields_lookup _ d "name" Hf) as [v1 ->]; [cbn; tauto |].
  destruct (has_fields_lookup _ d "members" Hf) as [v2 ->]; [cbn; tauto |].
  destruct (has_fields_lookup _ d "instructions" Hf) as [v3 ->]; [cbn; tauto |].
  cbn [rbind]. rewrite construct_accepts. cbn [rbind].
  destruct (lookup "workflow" d); eexists; reflexivity.
Qed.

Lemma restore_team_good :
  forall agents_config c w,
    Forall2 restored_agent agents_config (agents (session w)) ->
    storable_team agents_config c = true ->
    exists entry,
      restored_team c entry
      /\ restore_team c w
         = (Ok tt, with_session
                     (with_teams (teams (session w) ++ [entry]) (session w)) w).
Proof.
  intros A c w HA H. pose proof H as H'. unfold storable_team in H'.
  apply andb_prop in H' as [Hf Hm].
  destruct (py_getitem c "members") as [[ | | | | | members | | ] |] eqn:Hmem;
    try discriminate.
  destruct (team_agents_of_restored A _ members HA) as (ta & Hta & Hlen).
  rewrite <- Hlen in Hm.
  destruct (team_entry_good A c ta H) as [entry He].
  exists entry. split.
  - exists ta. split; [now apply Nat.leb_le | exact He].
  - assert (Hres : resolve_members (session w) c = Ok ta).
    { unfold resolve_members. rewrite (team_agents_in_members _ _ _ Hmem).
      exact Hta. }
    unfold restore_team, bind at 1, get_session. unfold bind at 1, lift at 1.
    fold (resolve_members (session w) c). rewrite Hres, Hm.
    unfold try_except, bind at 1, lift at 1. fold (team_entry c ta). rewrite He.
    reflexivity.
Qed.

Lemma teams_loop :
  forall agents_config configs w,
    Forall2 restored_agent agents_config (agents (session w)) ->
    forallb (storable_team agents_config) configs = true ->
    exists entries,
      Forall2 restored_team configs entries
      /\ for_each configs restore_team w
         = (Ok tt, with_session
                     (with_teams (teams (session w) ++ entries) (session w)) w).
Proof.
  intros A. induction configs as [| c configs IH]; intros w HA H; cbn [for_each].
  - exists []. split; [constructor |]. rewrite app_nil_r.
    destruct w as [[] ? ? ?]; reflexivity.
  - cbn [forallb] in H. apply andb_prop in H as [Hc Hrest].
    destruct (restore_team_good A c w HA Hc) as (entry & He & Hrun).
    unfold bind. rewrite Hrun.
    destruct (IH (with_session
                    (with_teams (teams (session w) ++ [entry]) (session w)) w))
      as (entries & Hes & Hloop); [exact HA | exact Hrest |].
    rewrite Hloop. exists (entry :: entries). split; [now constructor |].
    destruct w as [[] ? ? ?]; cbn. now rewrite <- app_assoc.
Qed.

Lemma phase_runs :
  forall d key configs guard body w,
    lookup key d = Some (VList configs) ->
    guard (session w) = true ->
    phase (VDict d) key guard body w = for_each configs body w.
Proof.
  intros d key configs guard body w Hk Hg.
  unfold phase, bind, lift, get_session, py_in. cbn [py_hashable].
  rewrite Hk, Hg. cbn [andb]. unfold for_each_in, bind, lift, py_getitem.
  rewrite Hk. reflexivity.
Qed.

(** X9.  A restart brings everything back when the library accepts
    every construction: if [config.json] parses to a dictionary with a
    key that is not empty, custom tools that have their six fields and a
    hashable name, agents that have their four fields and a list of
    hashable tool names, and teams that have their three fields and at
    least two of the agents among their members, then the first run
    returns normally, shows nothing, and leaves one entry per record, in
    the order of the document: each custom tool record with its tool
    object added, each agent record with its defaults filled in and its
    [Agent], each team with its team object. *)
Theorem restart_restores_records :
  forall (w : world) (content : document) (d : dict) (key : pyval)
         (custom_tools_config agents_config teams_config : list pyval),
    initialized (session w) = false ->
    json_file (files w) = Some content ->
    open_read_fails (files w) = None ->
    json_load content = Ok (VDict d) ->
    lookup "api_key" d = Some key ->
    py_truthy key = true ->
    lookup "custom_tools" d = Some (VList custom_tools_config) ->
    lookup "agents" d = Some (VList agents_config) ->
    lookup "teams" d = Some (VList teams_config) ->
    forallb storable_tool custom_tools_config = true ->
    forallb storable_agent agents_config = true ->
    forallb (storable_team agents_config) teams_config = true ->
    exists custom_tools agents teams,
      initialize w
      = (Ok tt, with_session (Session true agents teams custom_tools key [] VNone) w)
      /\ Forall2 restored_custom_tool custom_tools_config custom_tools
      /\ Forall2 restored_agent agents_config agents
      /\ Forall2 restored_team teams_config teams.
Proof.
  intros w content d key C A T Hinit Hfile Hopen Hload Hkey Htruthy HC HA HT
         HCs HAs HTs.
  rewrite (initialize_first_run w Hinit).
  assert (Hl : load_data (with_session (empty_workspace (environ_api_key w)) w)
               = (Ok (VDict d), with_session (empty_workspace (environ_api_key w)) w)).
  { unfold load_data, try_except, read_with. cbn [files with_session].
    now rewrite Hfile, Hopen, Hload. }
  rewrite Hl.
  assert (Ht : py_truthy (VDict d) = true).
  { destruct d; [discriminate | reflexivity]. }
  rewrite Ht. unfold activate, bind at 1, getenv_api_key.
  unfold bind at 1, lift at 1, py_get. rewrite Hkey.
  unfold bind at 1, modify_session. cbn [session with_session].
  unfold bind at 1. rewrite (phase_runs d _ C) by auto.
  match goal with |- context [for_each C restore_custom_tool ?w0] =>
    destruct (custom_tools_loop C w0 HCs) as (tools & Htools & ->) end.
  cbn [session with_session with_api_key with_custom_tools empty_workspace
       custom_tools agents teams api_key chat_history editing_agent initialized app].
  unfold bind at 1. rewrite (phase_runs d _ A) by auto.
  match goal with |- context [for_each A restore_agent ?w0] =>
    destruct (agents_loop A w0) as (ags & Hags & ->) end.
  { cbn [session custom_tools]. clear - Htools HCs accepts.
    induction Htools as [| c e C tools He _ IH]; [constructor |].
    cbn [forallb] in HCs. apply andb_prop in HCs as [Hc Hrest].
    constructor; [eapply restored_custom_tool_usable; eauto | auto]. }
  { exact HAs. }
  cbn [session with_session with_agents custom_tools agents teams api_key
       chat_history editing_agent initialized app].
  rewrite (phase_runs d _ T) by auto.
  match goal with |- context [for_each T restore_team ?w0] =>
    destruct (teams_loop A T w0) as (tms & Htms & ->) end.
  { exact Hags. }
  { exact HTs. }
  exists tools, ags, tms. cbn. auto.
Qed.

End Restart.

(** ** The tabs *)

Section TabsFacts.

Context {pkg : Packages}.

(** ** Export *)

Lemma export_agent_of_config :
  forall a,
    export_agent a
    = let? c := agent_config_of a in Ok (without ["show_tool_calls"; "markdown"] c).
Proof.
  intros a. destruct a; try reflexivity.
  unfold export_agent, agent_config_of, py_getitem, py_get.
  repeat match goal with
         | |- context [match lookup ?k d with Some _ => _ | None => _ end] =>
             destruct (lookup k d); cbn [rbind]
         end; reflexivity.
Qed.

Lemma map_result_through :
  forall A B C (f : A -> result C) (g : A -> result B) (h : B -> C) l,
    (forall x, f x = let? y := g x in Ok (h y)) ->
    map_result f l = let? ys := map_result g l in Ok (map h ys).
Proof.
  intros A B C f g h l H. induction l as [| x l IH]; cbn [map_result]; [reflexivity |].
  rewrite H, IH. destruct (g x); cbn [rbind]; [| reflexivity].
  destruct (map_result g l); reflexivity.
Qed.

(** X10.  [Export All] builds what [save_data] builds, less the API key
    and less [show_tool_calls] and [markdown] of every agent; and it
    raises what [save_data] catches when the document cannot be
    built. *)
Theorem export_config_of_saved_document :
  forall s : session_state,
    match saved_document s with
    | Ok data =>
        exists agents_config teams_config custom_tools_config,
          data = VDict [("agents", VList agents_config);
                        ("teams", teams_config);
                        ("custom_tools", custom_tools_config);
                        ("api_key", api_key s)]
          /\ export_config s
             = Ok (VDict [("agents",
                           VList (map (without ["show_tool_calls"; "markdown"])
                                      agents_config));
                          ("teams", teams_config);
                          ("custom_tools", custom_tools_config)])
    | Raise e => export_config s = Raise e
    end.
Proof.
  intros s. unfold saved_document, export_config.
  rewrite (map_result_through _ _ _ export_agent agent_config_of
             (without ["show_tool_calls"; "markdown"]) _ export_agent_of_config).
  change export_team with team_config_of.
  change export_custom_tool with custom_tool_config_of.
  destruct (map_result agent_config_of (agents s)) as [a | e]; cbn [rbind];
    [| reflexivity].
  destruct (map_result team_config_of (teams s)) as [t | e]; cbn [rbind];
    [| reflexivity].
  destruct (map_result custom_tool_config_of (custom_tools s)) as [c | e];
    cbn [rbind]; [| reflexivity].
  eexists _, _, _. split; reflexivity.
Qed.

(** ** Chat *)

Variable agent_run : pyval -> string -> bool -> result pyval.

Lemma entities_of_shape :
  forall kind key l es,
    entities_of kind key l = Ok es ->
    Forall2 (fun a e => exists name obj,
                 py_getitem a "name" = Ok name
                 /\ e = VDict [("name", name); ("type", VStr kind); ("obj", obj)])
            l es.
Proof.
  intros kind key. unfold entities_of.
  induction l as [| a l IH]; intros es H; cbn [map_result] in H.
  - injection H as <-. constructor.
  - invert_rbind H. injection H as <-. constructor; [| now apply IH].
    invert_rbind E. injection E as <-. eauto.
Qed.

Lemma pick_entity_found :
  forall kind l es rest selected_entity a name,
    Forall2 (fun a e => exists name obj,
                 py_getitem a "name" = Ok name
                 /\ e = VDict [("name", name); ("type", VStr kind); ("obj", obj)])
            l es ->
    In a l -> py_getitem a "name" = Ok name ->
    py_eq name selected_entity = true ->
    exists name' obj,
      pick_entity (es ++ rest) selected_entity
      = Ok (VDict [("name", name'); ("type", VStr kind); ("obj", obj)]).
Proof.
  intros kind l es rest sel a name H. induction H as [| b e l es (n & o & Hn & ->) _ IH];
    intros Hin Ha Heq; [contradiction |].
  cbn [app pick_entity py_getitem lookup String.eqb Ascii.eqb Bool.eqb rbind].
  destruct (py_eq n sel) eqn:E; [eauto |].
  destruct Hin as [-> | Hin]; [| now apply IH].
  rewrite Hn in Ha. injection Ha as ->. congruence.
Qed.

(** X11.  In the chat tab an agent hides a team of the same name:
    whenever the selected name is borne by an agent, the entity that
    [Send] talks to is an agent. *)
Theorem agent_shadows_team :
  forall (s : session_state) (entities : list pyval) (selected_entity a name : pyval),
    all_entities s = Ok entities ->
    In a (agents s) ->
    py_getitem a "name" = Ok name ->
    py_eq name selected_entity = true ->
    exists entity,
      pick_entity entities selected_entity = Ok entity
      /\ py_getitem entity "type" = Ok (VStr "agent").
Proof.
  intros s entities sel a name H Hin Ha Heq. unfold all_entities in H.
  destruct (entities_of "agent" "agent" (agents s)) as [ea |] eqn:Ea;
    cbn [rbind] in H; [| discriminate].
  destruct (entities_of "team" "team" (teams s)) as [et |] eqn:Et;
    cbn [rbind] in H; [| discriminate].
  injection H as <-.
  destruct (pick_entity_found "agent" _ _ et sel a name
              (entities_of_shape _ _ _ _ Ea) Hin Ha Heq) as (n & o & ->).
  eexists. split; reflexivity.
Qed.

Lemma pick_entity_In :
  forall es selected_entity e, pick_entity es selected_entity = Ok e -> In e es.
Proof.
  induction es as [| x es IH]; intros sel e H; cbn [pick_entity] in H;
    [discriminate |].
  destruct (py_getitem x "name") as [n |]; cbn [rbind] in H; [| discriminate].
  destruct (py_eq n sel); [injection H as <-; now left | right; eauto].
Qed.

Lemma all_entities_obj :
  forall s es e,
    all_entities s = Ok es -> In e es -> exists obj, py_getitem e "obj" = Ok obj.
Proof.
  intros s es e H Hin. unfold all_entities in H.
  destruct (entities_of "agent" "agent" (agents s)) as [ea |] eqn:Ea;
    cbn [rbind] in H; [| discriminate].
  destruct (entities_of "team" "team" (teams s)) as [et |] eqn:Et;
    cbn [rbind] in H; [| discriminate].
  injection H as <-.
  apply in_app_or in Hin as [Hin | Hin].
  - apply entities_of_shape in Ea.
    clear Et. induction Ea as [| a x ? ? (n & o & _ & ->) _ IH]; [contradiction |].
    destruct Hin as [<- | Hin]; [eexists; reflexivity | auto].
  - apply entities_of_shape in Et.
    clear Ea. induction Et as [| a x ? ? (n & o & _ & ->) _ IH]; [contradiction |].
    destruct Hin as [<- | Hin]; [eexists; reflexivity | auto].
Qed.

(** X12.  [Send], with a message that is not empty and a selected
    entity that exists, leaves the files alone and adds to the chat
    history the message of the user, followed by the answer when the run
    returns one.  When the run raises, the message of the user stays in
    the history without an answer. *)
Theorem send_message_history :
  forall (selected_entity : pyval) (user_input : string) (stream_response : bool)
         (w : world) (entities : list pyval) (entity : pyval),
    all_entities (session w) = Ok entities ->
    pick_entity entities selected_entity = Ok entity ->
    user_input <> "" ->
    exists obj,
      py_getitem entity "obj" = Ok obj
      /\ files (snd (send_message agent_run selected_entity user_input
                       stream_response w)) = files w
      /\ session (snd (send_message agent_run selected_entity user_input
                         stream_response w))
         = with_chat_history
             (chat_history (session w)
                ++ user_message user_input
                   :: match agent_run obj user_input stream_response with
                      | Ok response => [assistant_message response selected_entity]
                      | Raise _ => []
                      end)
             (session w).
Proof.
  intros sel input stream w es entity Hall Hpick Hinput.
  destruct (all_entities_obj _ _ _ Hall (pick_entity_In _ _ _ Hpick)) as [obj Hobj].
  exists obj. split; [exact Hobj |].
  assert (Hrun :
    send_message agent_run sel input stream w
    = let w1 := with_session
                  (with_chat_history
                     (chat_history (session w) ++ [user_message input])
                     (session w)) w in
      match agent_run obj input stream with
      | Ok response =>
          (Ok tt,
           with_session
             (with_chat_history
                (chat_history (session w1) ++ [assistant_message response sel])
                (session w1)) w1)
      | Raise e =>
          if is_Exception e
          then show st_error [Text ("Error: " ++ exn_text e)] w1
          else (Raise e, w1)
      end).
  { unfold send_message, bind at 1, get_session. unfold bind at 1, lift at 1.
    rewrite Hall.
    assert (Hne : py_truthy (VList es) = true).
    { destruct es; [discriminate | reflexivity]. }
    rewrite Hne. cbn [negb].
    assert (Hin : py_truthy (VStr input) = true).
    { cbn. destruct (String.eqb_spec input ""); [contradiction | reflexivity]. }
    rewrite Hin. cbn [negb].
    unfold bind at 1, lift at 1. rewrite Hpick.
    unfold bind at 1, modify_session, try_except, bind at 1, lift at 1.
    rewrite Hobj. cbn [rbind].
    destruct (agent_run obj input stream) as [response | e]; reflexivity. }
  rewrite Hrun. cbv zeta.
  destruct (agent_run obj input stream) as [response | e].
  - cbn. split; [reflexivity |]. destruct (session w); cbn.
    now rewrite <- app_assoc.
  - destruct (is_Exception e); cbn; split; reflexivity.
Qed.

(** ** The tools an agent can be given *)

(** What a name that resolves finds after [t[k] = v]: what it found
    before, or [v] when [k] is the key it resolves under. *)
Lemma table_set_lookup :
  forall name k v t,
    table_lookup name t <> None ->
    table_lookup name (table_set k v t) = table_lookup name t
    \/ (table_lookup name (table_set k v t) = Some v
        /\ exists key, py_same k key = true /\ py_same name key = true).
Proof.
  intros name k v t. induction t as [| [k0 v0] t IH]; cbn [table_set table_lookup].
  - intros H. contradiction.
  - intros H. destruct (py_same k k0) eqn:Ek; cbn [table_lookup];
      destruct (py_same name k0) eqn:En.
    + right. split; [reflexivity |]. exists k0. split; assumption.
    + now left.
    + now left.
    + apply IH. exact H.
Qed.

(** X13.  Adding the custom tools to [available_tools] takes no name
    away: a name that resolved before (a built-in tool, say) resolves
    afterwards, to the tool it resolved to before or to the tool object
    of a custom tool whose name is the key that the name resolves
    under. *)
Theorem custom_tools_hide_no_name :
  forall (custom : list pyval) (available_tools available_tools' : table)
         (name : pyval),
    add_custom_tools custom available_tools = Ok available_tools' ->
    table_lookup name available_tools <> None ->
    exists tool,
      table_lookup name available_tools' = Some tool
      /\ (table_lookup name available_tools = Some tool
          \/ exists custom_tool custom_name key,
               In custom_tool custom
               /\ py_getitem custom_tool "tool_obj" = Ok tool
               /\ py_getitem custom_tool "name" = Ok custom_name
               /\ py_same custom_name key = true
               /\ py_same name key = true).
Proof.
  induction custom as [| c custom IH]; intros t t' name H Hk;
    cbn [add_custom_tools] in H.
  - injection H as <-.
    destruct (table_lookup name t) as [tool |]; [| contradiction].
    exists tool. split; [reflexivity | now left].
  - destruct (py_getitem c "tool_obj") as [tool_obj |] eqn:Hobj; cbn [rbind] in H;
      [| discriminate].
    destruct (py_getitem c "name") as [n |] eqn:Hname; cbn [rbind] in H;
      [| discriminate].
    unfold table_setitem in H.
    destruct (py_hashable n); cbn [rbind] in H; [| discriminate].
    pose proof (table_set_lookup name n tool_obj t Hk) as Hset.
    assert (Hk1 : table_lookup name (table_set n tool_obj t) <> None).
    { destruct Hset as [-> | [-> _]]; [exact Hk | discriminate]. }
    destruct (IH _ _ name H Hk1) as (tool & Hfound & Hwhich).
    exists tool. split; [exact Hfound |].
    destruct Hwhich as [Hsame | (c' & n' & key & Hin & Ho & Hn & Hck & Hnk)].
    + destruct Hset as [Hset | [Hset (key & Hck & Hnk)]].
      * left. now rewrite <- Hset.
      * right. exists c, n, key. rewrite Hset in Hsame. injection Hsame as <-.
        repeat split; try assumption. now left.
    + right. exists c', n', key. repeat split; try assumption. now right.
Qed.

End TabsFacts.

(** ** The lines of the instructions *)

Lemma lstrip_step :
  forall s,
    lstrip s = match drop_space s with Some rest => lstrip rest | None => s end.
Proof.
  intros [| c [| d [| e s]]]; cbn [lstrip drop_space]; try reflexivity.
  - destruct (is_space c); reflexivity.
  - destruct (is_space c); [reflexivity |]. destruct (is_space2 c d); reflexivity.
  - destruct (is_space c); [reflexivity |].
    destruct (is_space2 c d); [reflexivity |].
    destruct (is_space3 c d e); reflexivity.
Qed.

Lemma all_space_step :
  forall s,
    all_space s = match s with
                  | EmptyString => true
                  | String _ _ =>
                      match drop_space s with
                      | Some rest => all_space rest
                      | None => false
                      end
                  end.
Proof.
  intros [| c [| d [| e s]]]; cbn [all_space drop_space]; try reflexivity.
  - destruct (is_space c); reflexivity.
  - destruct (is_space c); [reflexivity |]. destruct (is_space2 c d); reflexivity.
  - destruct (is_space c); [reflexivity |].
    destruct (is_space2 c d); [reflexivity |].
    destruct (is_space3 c d e); reflexivity.
Qed.

Lemma drop_space_shorter :
  forall s rest, drop_space s = Some rest -> String.length rest < String.length s.
Proof.
  intros [| c [| d [| e s]]] rest; cbn [drop_space String.length]; try discriminate.
  - destruct (is_space c); [| discriminate]. intros H. injection H as <-. cbn. lia.
  - destruct (is_space c); [intros H; injection H as <-; cbn; lia |].
    destruct (is_space2 c d); [| discriminate].
    intros H. injection H as <-. cbn. lia.
  - destruct (is_space c); [intros H; injection H as <-; cbn; lia |].
    destruct (is_space2 c d); [intros H; injection H as <-; cbn; lia |].
    destruct (is_space3 c d e); [| discriminate].
    intros H. injection H as <-. lia.
Qed.

Lemma drop_space_app :
  forall s rest w,
    drop_space s = Some rest -> drop_space (s ++ w)%string = Some (rest ++ w)%string.
Proof.
  intros [| c [| d [| e s]]] rest w; cbn [drop_space String.append];
    try discriminate.
  - destruct (is_space c); [| discriminate]. intros H. now injection H as <-.
  - destruct (is_space c); [intros H; now injection H as <- |].
    destruct (is_space2 c d); [| discriminate]. intros H. now injection H as <-.
  - destruct (is_space c); [intros H; now injection H as <- |].
    destruct (is_space2 c d); [intros H; now injection H as <- |].
    destruct (is_space3 c d e); [| discriminate]. intros H. now injection H as <-.
Qed.

(** What [lstrip] returns starts with no white space. *)
Lemma lstrip_clean : forall s, drop_space (lstrip s) = None.
Proof.
  assert (H : forall n s, String.length s <= n -> drop_space (lstrip s) = None).
  { induction n as [| n IH]; intros s Hs; rewrite lstrip_step.
    - destruct s; [reflexivity | cbn in Hs; lia].
    - destruct (drop_space s) as [rest |] eqn:E; [| exact E].
      apply IH. apply drop_space_shorter in E. lia. }
  intros s. now apply (H (String.length s)).
Qed.

Lemma lstrip_fixed : forall s, drop_space s = None -> lstrip s = s.
Proof. intros s H. now rewrite lstrip_step, H. Qed.

(** [rstrip] cuts off white space, and nothing else. *)
Lemma rstrip_suffix :
  forall s, exists w, s = (rstrip s ++ w)%string /\ all_space w = true.
Proof.
  induction s as [| c s (w & Hw & Hs)].
  - exists EmptyString. split; reflexivity.
  - cbn [rstrip]. destruct (all_space (String c s)) eqn:E.
    + exists (String c s). split; [reflexivity | exact E].
    + exists w. split; [| exact Hs]. cbn [String.append]. now rewrite <- Hw.
Qed.

Lemma rstrip_clean :
  forall s, drop_space s = None -> drop_space (rstrip s) = None.
Proof.
  intros s H. destruct (drop_space (rstrip s)) as [rest |] eqn:E; [| reflexivity].
  destruct (rstrip_suffix s) as (w & Hw & _).
  apply (drop_space_app _ _ w) in E. rewrite <- Hw, H in E. discriminate.
Qed.

Lemma all_space_app :
  forall s w,
    all_space s = true -> all_space w = true -> all_space (s ++ w)%string = true.
Proof.
  assert (H : forall n s w,
             String.length s <= n -> all_space s = true -> all_space w = true ->
             all_space (s ++ w)%string = true).
  { induction n as [| n IH]; intros s w Hn Hs Hw.
    - destruct s; [exact Hw | cbn in Hn; lia].
    - destruct s as [| c s]; [exact Hw |].
      rewrite all_space_step in Hs.
      destruct (drop_space (String c s)) as [rest |] eqn:E; [| discriminate].
      rewrite all_space_step. cbn [String.append].
      change (String c (s ++ w)%string) with (String c s ++ w)%string.
      rewrite (drop_space_app _ _ w E). apply IH; [| exact Hs | exact Hw].
      apply drop_space_shorter in E. lia. }
  intros s w. now apply (H (String.length s)).
Qed.

Lemma rstrip_twice : forall s, rstrip (rstrip s) = rstrip s.
Proof.
  induction s as [| c s IH]; [reflexivity |].
  cbn [rstrip]. destruct (all_space (String c s)) eqn:E; [reflexivity |].
  cbn [rstrip]. destruct (all_space (String c (rstrip s))) eqn:E'.
  - destruct (rstrip_suffix s) as (w & Hw & Hs).
    assert (Hall : all_space (String c (rstrip s) ++ w)%string = true)
      by now apply all_space_app.
    cbn [String.append] in Hall. rewrite <- Hw in Hall. congruence.
  - now rewrite IH.
Qed.

Lemma strip_twice : forall s, strip (strip s) = strip s.
Proof.
  intros s. unfold strip.
  rewrite (lstrip_fixed (rstrip (lstrip s))).
  - apply rstrip_twice.
  - apply rstrip_clean, lstrip_clean.
Qed.

(** X14.  The instructions that the forms store are the lines of the
    text area that are not blank, without the white space around them:
    every element is a string that is not empty and that [strip] leaves
    as it is. *)
Theorem instruction_lines_are_stripped :
  forall (text : string) (x : pyval),
    In x (instruction_lines text) ->
    exists line, x = VStr line /\ line <> "" /\ strip line = line.
Proof.
  intros text x H. unfold instruction_lines in H.
  apply in_map_iff in H as (i & <- & Hi).
  apply filter_In in Hi as [_ Hi].
  exists (strip i). split; [reflexivity |]. split.
  - intros E. rewrite E in Hi. discriminate.
  - apply strip_twice.
Qed.

(** ** The file and the session state *)

Section Sync.

Context {pkg : Packages}.

Lemma same_store_refl : forall w, same_store w w.
Proof. intros w. split; reflexivity. Qed.

Lemma same_store_trans :
  forall w1 w2 w3, same_store w1 w2 -> same_store w2 w3 -> same_store w1 w3.
Proof. intros w1 w2 w3 [? ?] [? ?]. split; congruence. Qed.

Lemma save_data_same_result :
  forall w w', same_store w w' -> fst (save_data w) = fst (save_data w').
Proof.
  intros w w' [Hs Hf].
  rewrite (proj1 (save_data_outcome w)), (proj1 (save_data_outcome w')).
  unfold save_outcome. now rewrite Hs, Hf.
Qed.

Lemma save_data_same_store :
  forall w w', same_store w w' -> same_store (snd (save_data w)) (snd (save_data w')).
Proof.
  intros w w' [Hs Hf]. split.
  - now rewrite !save_data_session.
  - rewrite (proj2 (save_data_outcome w)), (proj2 (save_data_outcome w')).
    unfold save_outcome. now rewrite Hs, Hf.
Qed.

Lemma save_data_again :
  forall w, fst (save_data (snd (save_data w))) = fst (save_data w).
Proof.
  intros w.
  destruct (save_data_outcome w) as [R1 F1].
  destruct (save_data_outcome (snd (save_data w))) as [R2 F2].
  rewrite save_data_session in R2. rewrite F1 in R2.
  rewrite save_outcome_again in R2. now rewrite R2, R1.
Qed.

Lemma save_data_true_in_sync :
  forall w, fst (save_data w) = Ok (VBool true) -> in_sync (snd (save_data w)).
Proof.
  intros w H. destruct (save_data_outcome w) as [R F]. rewrite R in H.
  unfold in_sync. rewrite save_data_session, F.
  unfold save_outcome in *.
  destruct (saved_document (session w)) as [data | e].
  - exists data. split; [reflexivity |].
    destruct (open_write_fails (files w)); [discriminate |].
    destruct (write_fails (files w)) as [[partial msg] |]; [discriminate |].
    destruct (json_dump data) as [text [e |]].
    + destruct (is_Exception e); discriminate.
    + reflexivity.
  - destruct (is_Exception e); discriminate.
Qed.

Lemma in_sync_same_store :
  forall w w', same_store w w' -> in_sync w' -> in_sync w.
Proof.
  intros w w' [Hs Hf] (data & Hd & Hj). exists data. now rewrite Hs, Hf.
Qed.

(** *** What the pieces of the script do to the store *)

Lemma quiet_ret : forall A (a : A), quiet (ret a).
Proof. intros A a w. apply same_store_refl. Qed.

Lemma quiet_lift : forall A (r : result A), quiet (lift r).
Proof. intros A r w. apply same_store_refl. Qed.

Lemma quiet_get_session : quiet get_session.
Proof. intros w. apply same_store_refl. Qed.

Lemma quiet_show : forall l t, quiet (show l t).
Proof. intros l t w. split; reflexivity. Qed.

Lemma quiet_bind :
  forall A B (m : M A) (k : A -> M B),
    quiet m -> (forall a, quiet (k a)) -> quiet (bind m k).
Proof.
  intros A B m k Hm Hk w. unfold bind. specialize (Hm w).
  destruct (m w) as [[a | e] w1]; cbn [snd] in *; [| exact Hm].
  eapply same_store_trans; [apply Hk | exact Hm].
Qed.

Lemma saving_quiet : forall A (m : M A), quiet m -> saving m.
Proof. intros A m H w. left. apply H. Qed.

Lemma saving_saves : forall A (m : M A), saves m -> saving m.
Proof. intros A m H w. right. apply H. Qed.

Lemma saves_at :
  forall s (w1 w : world),
    same_store w1 w ->
    same_store (snd (save_data (with_session s w1)))
               (snd (save_data (with_session s w))).
Proof.
  intros s w1 w [Hs Hf]. apply save_data_same_store. split; [reflexivity |].
  exact Hf.
Qed.

Lemma saving_bind :
  forall A B (m : M A) (k : A -> M B),
    quiet m -> (forall a, saving (k a)) -> saving (bind m k).
Proof.
  intros A B m k Hm Hk w. unfold bind. specialize (Hm w).
  destruct (m w) as [[a | e] w1]; cbn [snd] in *; [| now left].
  destruct (Hk a w1) as [H | [s H]].
  - left. eapply same_store_trans; eassumption.
  - right. exists s. eapply same_store_trans; [exact H |]. now apply saves_at.
Qed.

Lemma saves_save_data :
  forall A (tail : M A),
    quiet tail -> saves (bind save_data (fun _ => tail)).
Proof.
  intros A tail Ht w. exists (session w). unfold bind.
  assert (E : with_session (session w) w = w) by (destruct w; reflexivity).
  rewrite E. destruct (save_data w) as [[b | e] w1]; cbn [snd].
  - apply Ht.
  - apply same_store_refl.
Qed.

Lemma saves_modify :
  forall A f (k : M A), saves k -> saves (bind (modify_session f) (fun _ => k)).
Proof.
  intros A f k Hk w. unfold bind, modify_session.
  destruct (Hk (with_session (f (session w)) w)) as [s H]. exists s. exact H.
Qed.

Lemma saving_try :
  forall A (body : M A) handler,
    saving body -> (forall e, quiet (handler e)) ->
    saving (try_except body handler).
Proof.
  intros A body handler Hb Hh w. unfold try_except. specialize (Hb w).
  destruct (body w) as [[a | e] w1]; cbn [snd] in *; [exact Hb |].
  destruct (is_Exception e); [| exact Hb].
  destruct Hb as [H | [s H]].
  - left. eapply same_store_trans; [apply Hh | exact H].
  - right. exists s. eapply same_store_trans; [apply Hh | exact H].
Qed.

Ltac store :=
  repeat match goal with
         | |- quiet (ret _) => apply quiet_ret
         | |- quiet (lift _) => apply quiet_lift
         | |- quiet get_session => apply quiet_get_session
         | |- quiet (show _ _) => apply quiet_show
         | |- quiet (bind _ _) => apply quiet_bind; [| intro]
         | |- saves (bind save_data _) => apply saves_save_data
         | |- saves (bind (modify_session _) _) => apply saves_modify
         | |- saving (bind (modify_session _) _) => apply saving_saves
         | |- saving (bind save_data _) => apply saving_saves
         | |- saving (try_except _ _) => apply saving_try; [| intro]
         | |- saving (bind _ _) => apply saving_bind; [| intro]
         | |- saving (if ?b then _ else _) => destruct b
         | |- saving (show _ _) => apply saving_quiet
         | |- saving (ret _) => apply saving_quiet
         | |- saving (let _ := _ in _) => cbv zeta
         end.

Lemma saving_run_action : forall a, saving (run_action a).
Proof.
  intros a. destruct a; cbn [run_action].
  - unfold set_api_key. store.
  - store.
  - unfold submit_agent. store.
  - unfold edit_agent. intros w. left. unfold bind, get_session.
    destruct (nth_error (agents (session w)) idx) as [[ | | | | | | d | ] |];
      split; reflexivity.
  - intros w. left. split; reflexivity.
  - unfold delete_agent. store.
  - unfold create_team. store.
  - unfold delete_team. store.
  - unfold create_custom_tool. store.
  - unfold delete_custom_tool. store.
  - unfold clear_all_data. store.
Qed.

Lemma run_action_current :
  forall a w,
    (fst (save_data w) = Ok (VBool true) -> in_sync w) ->
    fst (save_data (snd (run_action a w))) = Ok (VBool true) ->
    in_sync (snd (run_action a w)).
Proof.
  intros a w Hw H. destruct (saving_run_action a w) as [Hq | [s Hs]].
  - apply (in_sync_same_store _ _ Hq). apply Hw.
    now rewrite <- (save_data_same_result _ _ Hq).
  - apply (in_sync_same_store _ _ Hs). apply save_data_true_in_sync.
    now rewrite <- save_data_again, <- (save_data_same_result _ _ Hs).
Qed.


(** ** The buttons of the fifth tab *)

Lemma list_index_of_nat :
  forall len idx,
    list_index len (Z.of_nat idx) = if Nat.ltb idx len then Some idx else None.
Proof.
  intros len idx. unfold list_index.
  destruct (Nat.ltb_spec idx len) as [Hlt | Hge].
  - replace (Z.leb 0 (Z.of_nat idx) && Z.ltb (Z.of_nat idx) (Z.of_nat len))%bool
      with true by (symmetry; apply andb_true_intro; split; lia).
    now rewrite Nat2Z.id.
  - replace (Z.leb 0 (Z.of_nat idx) && Z.ltb (Z.of_nat idx) (Z.of_nat len))%bool
      with false by (symmetry; apply andb_false_intro2; lia).
    replace (Z.ltb (Z.of_nat idx) 0 && Z.leb (- Z.of_nat len) (Z.of_nat idx))%bool
      with false by (symmetry; apply andb_false_intro1; lia).
    reflexivity.
Qed.

(** X16.  [Delete] of the agent at position [idx] removes that entry
    when there is one and changes nothing else of the session state: the
    teams that name the agent among their members stay as they are.
    When there is no such position nothing changes. *)
Theorem delete_agent_removes_one_entry :
  forall (idx : nat) (w : world),
    session (snd (delete_agent idx w))
    = if Nat.ltb idx (List.length (agents (session w)))
      then with_agents (remove_nth idx (agents (session w))) (session w)
      else session w.
Proof.
  intros idx w. unfold delete_agent. rewrite session_get, session_lift.
  unfold list_pop. rewrite list_index_of_nat.
  destruct (Nat.ltb idx (List.length (agents (session w)))); [| reflexivity].
  now rewrite session_modify by saved.
Qed.

End Sync.

(** ** An update *)

Section Update.

Context {pkg : Packages}.

(** The library accepts every construction. *)
Hypothesis accepts : forall cls kwargs, lib_init cls kwargs = None.


End Update.

(** * Witnesses and counterexamples *)

(** The sample packages run the script on the sample data. *)

#[local] Existing Instance sample_packages.

Lemma sample_json_faithful : @json_faithful sample_packages.
Proof.
  intros v Hv. exists (TextOf v). cbn [json_dump json_load sample_packages].
  unfold sample_json_dump. rewrite Hv. split; reflexivity.
Qed.

(** *** C1 *)

Lemma save_then_load_witness :
  exists (w1 : world) (agents_config teams_config custom_tools_config : list pyval),
    save_data workspace = (Ok (VBool true), w1)
    /\ load_data w1
       = (Ok (VDict [("agents", VList agents_config);
                     ("teams", VList teams_config);
                     ("custom_tools", VList custom_tools_config);
                     ("api_key", api_key (session workspace))]), w1)
    /\ Forall2 (same_fields agent_fields) (agents (session workspace)) agents_config
    /\ Forall2 (same_fields team_fields) (teams (session workspace)) teams_config
    /\ Forall2 (same_fields custom_tool_fields) (custom_tools (session workspace))
               custom_tools_config.
Proof.
  apply (save_then_load (pkg := sample_packages) workspace sample_json_faithful);
    vm_compute; reflexivity.
Defined.

(** *** C2 *)

(** C2, as stated, fails for documents with wrong types: they are not
    abandoned as a whole.  With a number for the list of tools of an
    agent, the custom tool of the document is restored and the agent is
    reported; with a number for the list of agents, the custom tool is
    restored and then the loop over the agents raises out of the
    initialization. *)
Lemma wrong_types_not_abandoned :
  (exists w',
      initialize (first_run (TextOf tools_is_a_number)) = (Ok tt, w')
      /\ agents (session w') = []
      /\ map name_of (custom_tools (session w')) = [Some (VStr "double")]
      /\ List.length (shown w') = 1)
  /\ (exists e w',
         initialize (first_run (TextOf agents_is_a_number)) = (Raise e, w')
         /\ exn_cls e = TypeError
         /\ map name_of (custom_tools (session w')) = [Some (VStr "double")]).
Proof.
  split.
  - eexists. split; [vm_compute; reflexivity |]. repeat split.
  - do 2 eexists. split; [vm_compute; reflexivity |]. repeat split.
Qed.

Lemma unusable_document_gives_empty_workspace_witness :
  exists w',
    initialize (first_run (Garbage "{ agents: ")) = (Ok tt, w')
    /\ session w' = empty_workspace None
    /\ files w' = files (first_run (Garbage "{ agents: ")).
Proof.
  apply (proj1 (unusable_document_gives_empty_workspace (pkg := sample_packages)
                  (first_run (Garbage "{ agents: ")) eq_refl)).
  apply (malformed (pkg := sample_packages) _ (Garbage "{ agents: ")
           (Exn JSONDecodeError "Expecting value: line 1 column 1 (char 0)"));
    reflexivity.
Defined.

(** *** C3 *)

(** C3, as stated, fails: the team that is skipped is not reported (no
    message is shown), and it is not kept either: the session state does
    not hold it, so the next [save_data] writes a document without it. *)
Lemma skipped_team_is_not_reported_nor_kept :
  exists w' w'' doc,
    initialize (first_run (TextOf orphan_team)) = (Ok tt, w')
    /\ map name_of (agents (session w')) = [Some (VStr "Calc")]
    /\ teams (session w') = []
    /\ shown w' = []
    /\ save_data w' = (Ok (VBool true), w'')
    /\ json_file (files w'') = Some (TextOf doc)
    /\ py_getitem doc "teams" = Ok (VList []).
Proof.
  do 3 eexists. split; [vm_compute; reflexivity |].
  do 3 (split; [reflexivity |]).
  split; [vm_compute; reflexivity |].
  split; reflexivity.
Qed.

Lemma team_needs_two_members_witness :
  exists w',
    restore_team (team_record "Both" ["Calc"; "Search"]) two_agents = (Ok tt, w')
    /\ map name_of (teams (session w')) = [Some (VStr "Both")].
Proof.
  eexists. split.
  - refine (proj1 (proj2
              (team_needs_two_members (pkg := sample_packages) two_agents
                 (team_dict "Both" ["Calc"; "Search"]) _ _
                 eq_refl eq_refl)) _ _ _ eq_refl eq_refl eq_refl).
    vm_compute. lia.
  - reflexivity.
Defined.

(** *** C4 *)

(** C4, as stated, fails: creating an agent twice under one name leaves
    two agents of that name. *)
Lemma same_name_twice :
  names (agents (session
                   (run_actions [create_agent "Calc"; create_agent "Calc"] blank)))
  = [Some (VStr "Calc"); Some (VStr "Calc")]
  /\ ~ unique_names
       (session (run_actions [create_agent "Calc"; create_agent "Calc"] blank)).
Proof.
  split; [vm_compute; reflexivity |].
  intros [H _]. vm_compute in H.
  inversion H as [| x l Hin _]. apply Hin. left. reflexivity.
Qed.

Lemma names_stay_unique_witness :
  unique_names
    (session (run_actions [create_agent "Calc"; create_agent "Search";
                           CreateTeam "Both" ["Calc"; "Search"] "" "Sequential";
                           DeleteAgent 0] blank)).
Proof.
  apply (names_stay_unique (pkg := sample_packages)).
  - repeat split; constructor.
  - vm_compute.
    repeat split; intro H;
      repeat (destruct H as [H | H]; try discriminate H); exact H.
Defined.

(** *** C5 *)

(** C5 fails on the code.  The handler of [recreate_custom_tool] formats
    [tool_config['name']] into its message, so a record without a name
    makes the handler itself raise [KeyError]: the initialization stops
    there, nothing is reported, and neither the second custom tool nor
    the agent is re-created.  Without the faulty record both are. *)
Theorem nameless_record_stops_activation :
  (exists e w',
      initialize (first_run (TextOf nameless_tool)) = (Raise e, w')
      /\ exn_cls e = KeyError
      /\ custom_tools (session w') = []
      /\ agents (session w') = []
      /\ shown w' = [])
  /\ (exists w',
         initialize (first_run (TextOf named_tools)) = (Ok tt, w')
         /\ map name_of (custom_tools (session w')) = [Some (VStr "double")]
         /\ map name_of (agents (session w')) = [Some (VStr "Calc")]).
Proof.
  split.
  - do 2 eexists. split; [vm_compute; reflexivity |]. repeat split.
  - eexists. split; [vm_compute; reflexivity |]. repeat split.
Qed.

(** An agent that the constructor refuses is reported, and the next one
    is re-created. *)
Example refused_agent_is_reported :
  exists w',
    @initialize strict_packages
      (@World strict_packages (Session false [] [] [] VNone [] VNone)
         (@Disk strict_packages (Some (TextOf unwelcome)) None None None None)
         None [])
    = (Ok tt, w')
    /\ map name_of (agents (session w')) = [Some (VStr "Calc")]
    /\ shown w' = [Message st_error
                     [Text "Error recreating agent '"; Show (VStr "Mute");
                      Text "': instructions must not be empty"]].
Proof. eexists. split; [vm_compute; reflexivity |]. split; reflexivity. Qed.

(** *** C6 *)

(** The tool [gone] resolves to nothing: the agent is built with the
    other two. *)
Lemma dangling_tool_names_dropped_witness :
  recreate_agent_from_config
    (agent_record "Calc" ["double"; "gone"; "Calculator"]) (VStr "sk-test")
    with_double
  = (Ok (VObj Agent
           [("name", VStr "Calc"); ("role", VStr "Assistant");
            ("model", VObj OpenAIChat [("id", VStr "gpt-4");
                                       ("api_key", VStr "sk-test")]);
            ("tools", VList [double_obj; VObj CalculatorTool []]);
            ("instructions", VList [VStr "Be brief"]);
            ("show_tool_calls", VBool true); ("markdown", VBool true);
            ("temperature", VFloat 0.7)]),
     with_double).
Proof.
  exact (dangling_tool_names_dropped (pkg := sample_packages) with_double
           (agent_dict "Calc" ["double"; "gone"; "Calculator"]) (VStr "sk-test")
           _ _ ["double"; "gone"; "Calculator"] _ _ _
           eq_refl eq_refl eq_refl eq_refl eq_refl eq_refl eq_refl eq_refl).
Defined.

(** *** C7 *)


(** *** C8 *)

Lemma save_data_io_error_witness :
  exists w',
    save_data read_only = (Ok (VBool false), w')
    /\ session w' = session read_only
    /\ shown w'
       = shown read_only
           ++ [Message st_error
                 [Text "Error saving data: [Errno 13] Permission denied"]].
Proof.
  refine (save_data_io_error (pkg := sample_packages) read_only _ _ _ eq_refl).
  vm_compute. reflexivity.
Defined.

(** ** Further properties *)

(** An old custom tool record is activated in a blank session, and no
    state that holds its entry can be saved. *)
Lemma tool_without_param_required_witness :
  exists entry,
    restore_custom_tool (VDict old_tool_dict) blank
    = (Ok tt, with_session
                (with_custom_tools (custom_tools (session blank) ++ [entry])
                                   (session blank)) blank)
    /\ forall w' : world,
         In entry (custom_tools (session w')) ->
         fst (save_data w') = Ok (VBool false)
         /\ files (snd (save_data w')) = files w'.
Proof.
  apply (tool_without_param_required (pkg := sample_packages) blank old_tool_dict
           (VStr "double") (VStr "Doubles a number") (VStr "x") (VStr "number")
           (VStr "The number") (VStr "result = x * 2"));
    reflexivity.
Defined.

(** A document with an agent and an empty key, no key in the
    environment. *)
Lemma no_key_no_agents_witness :
  agents (session (snd (initialize (first_run (TextOf keyless))))) = []
  /\ teams (session (snd (initialize (first_run (TextOf keyless))))) = [].
Proof.
  apply (no_key_no_agents (pkg := sample_packages) (first_run (TextOf keyless)));
    [reflexivity | vm_compute; reflexivity].
Defined.

Lemma records_stay_complete_witness :
  (exists entities,
      all_entities
        (session (run_actions [create_agent "Calc"; DeleteCustomTool 0]
                    (snd (initialize (first_run (TextOf named_tools))))))
      = Ok entities)
  /\ (forall e,
         saved_document
           (session (run_actions [create_agent "Calc"; DeleteCustomTool 0]
                       (snd (initialize (first_run (TextOf named_tools))))))
         = Raise e ->
         e = Exn KeyError "'param_required'").
Proof.
  apply (records_stay_complete (pkg := sample_packages)
           [create_agent "Calc"; DeleteCustomTool 0]
           (first_run (TextOf named_tools))).
  reflexivity.
Defined.

Lemma restart_restores_records_witness :
  exists custom_tools agents teams,
    initialize (first_run (TextOf (VDict full_dict)))
    = (Ok tt, with_session
                (Session true agents teams custom_tools (VStr "sk-test") [] VNone)
                (first_run (TextOf (VDict full_dict))))
    /\ Forall2 restored_custom_tool [double_tool] custom_tools
    /\ Forall2 restored_agent
               [agent_record "Calc" ["double"]; agent_record "Search" ["Web Search"]]
               agents
    /\ Forall2 restored_team [team_record "Both" ["Calc"; "Search"]] teams.
Proof.
  apply (restart_restores_records (pkg := sample_packages)
           (fun _ _ => eq_refl) (first_run (TextOf (VDict full_dict)))
           (TextOf (VDict full_dict)) full_dict (VStr "sk-test"));
    reflexivity.
Defined.

(** A team named [Calc] beside an agent named [Calc]. *)
Lemma agent_shadows_team_witness :
  exists entity,
    pick_entity (entities_in namesake) (VStr "Calc") = Ok entity
    /\ py_getitem entity "type" = Ok (VStr "agent").
Proof.
  apply (agent_shadows_team (session namesake)
           (entities_in namesake) (VStr "Calc")
           (hd VNone (agents (session namesake))) (VStr "Calc")).
  - vm_compute. reflexivity.
  - vm_compute. left. reflexivity.
  - vm_compute. reflexivity.
  - reflexivity.
Defined.

Lemma send_message_history_witness :
  exists obj,
    py_getitem (hd VNone (entities_in two_agents)) "obj" = Ok obj
    /\ files (snd (send_message sample_run (VStr "Calc") "ping" false two_agents))
       = files two_agents
    /\ session (snd (send_message sample_run (VStr "Calc") "ping" false two_agents))
       = with_chat_history
           (chat_history (session two_agents)
              ++ user_message "ping"
                 :: match sample_run obj "ping" false with
                    | Ok response => [assistant_message response (VStr "Calc")]
                    | Raise _ => []
                    end)
           (session two_agents).
Proof.
  apply (send_message_history (pkg := sample_packages) sample_run (VStr "Calc")
           "ping" false two_agents (entities_in two_agents)
           (hd VNone (entities_in two_agents))).
  - vm_compute. reflexivity.
  - vm_compute. reflexivity.
  - discriminate.
Defined.

(** Two custom tools named [Calculator]: the name still resolves, to the
    tool object of one of them. *)
Lemma custom_tools_hide_no_name_witness :
  exists tool,
    table_lookup (VStr "Calculator")
      (table_set (VStr "Calculator") (dynamic_tool "result = 2") sample_builtin)
    = Some tool
    /\ (table_lookup (VStr "Calculator") sample_builtin = Some tool
        \/ exists custom_tool custom_name key,
             In custom_tool calculators
             /\ py_getitem custom_tool "tool_obj" = Ok tool
             /\ py_getitem custom_tool "name" = Ok custom_name
             /\ py_same custom_name key = true
             /\ py_same (VStr "Calculator") key = true).
Proof.
  apply (custom_tools_hide_no_name calculators
           sample_builtin
           (table_set (VStr "Calculator") (dynamic_tool "result = 2") sample_builtin)
           (VStr "Calculator")).
  - vm_compute. reflexivity.
  - vm_compute. discriminate.
Defined.

Lemma instruction_lines_are_stripped_witness :
  exists line, VStr "Be brief" = VStr line /\ line <> "" /\ strip line = line.
Proof.
  apply (instruction_lines_are_stripped three_lines (VStr "Be brief")).
  vm_compute. left. reflexivity.
Defined.


